(** * The Robot Commander node: goal admission, pause handling and execution

    A shallow embedding of [RobotCommanderNode]
    (niryo_robot_commander/scripts/robot_commander_node.py).

    The node is a record of its attributes.  Every method is a function in
    a small state-and-exception monad over that record.  What the node does
    to the objects it works with (the arm and tool commanders, the goal
    handle, the pause event, rospy) and every assignment to one of the
    attributes of the record is appended, in program order, to a history
    of events.  What those objects answer is an explicit argument of the
    method that asks.

    The callbacks run on the threads of rospy and the execution path on a
    worker thread.  What another thread does to the node while a method is
    blocked (in the wait on the pause event, in the executor, in a sleep)
    is part of the answer of the environment to that blocking call. *)

From Stdlib Require Import ZArith List String Bool Lia DecimalString.
Import ListNotations.
Open Scope string_scope.
Open Scope list_scope.

(** ** Messages *)

(** Modelled from the spec: the status codes of niryo_robot_msgs/CommandStatus,
    whose declaration is not part of the node's source; the closed set of
    section 3 of the specification. *)
Inductive CommandStatus :=
| SUCCESS
| STOPPED
| HARDWARE_NOT_OK
| CALIBRATION_NOT_DONE
| JOG_CONTROLLER_ENABLED
| GOAL_STILL_ACTIVE
| LEARNING_MODE_ON
| CONTROLLER_PROBLEMS
| UNKNOWN_COMMAND.

(** Modelled from the spec: the states of the PausePlanExecution message
    (section 3, PauseState). *)
Inductive PausePlanExecution := STANDBY | PAUSE | RESUME | CANCEL.

(** Modelled from the spec: the goal statuses of section 3, and REJECTED
    for a request that admission turned down. *)
Inductive GoalStatus :=
| PENDING
| ACTIVE
| SUCCEEDED
| ABORTED
| CANCELED
| REJECTED.

(** The three fields of HardwareStatus that the node reads. *)
Record HardwareStatus := {
  connection_up : bool;
  calibration_needed : bool;
  calibration_in_progress : bool
}.

(** [RobotCommand.cmd_type]: the two kinds the node names, and any other. *)
Inductive RobotCommandType := MOVE_ONLY | TOOL_ONLY | OTHER_COMMAND.

(** The keys of [dict_interpreter_move_cmd]. *)
Inductive MoveCommandType :=
| JOINTS
| POSE
| POSITION
| RPY
| POSE_QUAT
| LINEAR_POSE
| SHIFT_POSE
| EXECUTE_TRAJ
| DRAW_SPIRAL.

Record RobotCommand := {
  cmd_type : RobotCommandType;
  arm_cmd_type : MoveCommandType
}.

Record RobotMoveResult := {
  status : CommandStatus;
  message : string
}.

(** [create_result] *)
Definition create_result (s : CommandStatus) (m : string) : RobotMoveResult :=
  {| status := s; message := m |}.

(** A server goal handle: the goal identifier, the goal it carries (none
    for the handle the constructor makes), its status and the result that
    was attached when it was rejected or finalized. *)
Record ServerGoalHandle := {
  goal_id : string;
  goal : option RobotCommand;
  goal_status : GoalStatus;
  goal_result : option RobotMoveResult
}.

Definition with_status (gh : ServerGoalHandle) (s : GoalStatus)
    (r : option RobotMoveResult) : ServerGoalHandle :=
  {| goal_id := goal_id gh;
     goal := goal gh;
     goal_status := s;
     goal_result := r |}.

(** [==] on goal handles: both carry a goal and the identifiers agree. *)
Definition handle_eqb (a b : ServerGoalHandle) : bool :=
  match goal a, goal b with
  | Some _, Some _ => String.eqb (goal_id a) (goal_id b)
  | _, _ => false
  end.

(** ** Events *)

Inductive log_level := DEBUG | INFO | WARN.

Inductive event :=
| Log (level : log_level) (text : string)
| Assign_learning_mode_on (v : bool)
| Assign_hardware_status (v : HardwareStatus)
| Assign_pause_state (v : PausePlanExecution)
| Assign_current_goal_handle (id : string)
| Event_set
| Event_clear
| Event_wait (timeout : Z)
| Arm_stop_arm
| Arm_stop_current_plan
| Arm_move (kind : MoveCommandType)
| Tool_stop_tool_command
| Tool_send_tool_command
| Sleep_ms (duration : Z)
| Wait_for_service (timeout : Z)
| Call_learning_mode_activate (v : bool)
| Set_rejected (id : string) (r : RobotMoveResult)
| Set_accepted (id : string)
| Set_canceled (id : string) (r : option RobotMoveResult)
| Set_aborted (id : string) (r : RobotMoveResult)
| Set_succeeded (id : string) (r : RobotMoveResult)
| Thread_start.

(** ** The node *)

Record RobotCommanderNode := {
  learning_mode_on : bool;
  hardware_status : option HardwareStatus;
  pause_state : PausePlanExecution;
  pause_finished_event : bool;
  pause_timeout : Z;
  current_goal_handle : ServerGoalHandle;
  command_still_active_max_tries : Z;
  history : list event
}.

(** The attributes as [__init__] leaves them. *)
Definition init (timeout max_tries : Z) : RobotCommanderNode :=
  {| learning_mode_on := true;
     hardware_status := None;
     pause_state := STANDBY;
     pause_finished_event := true;
     pause_timeout := timeout;
     current_goal_handle :=
       {| goal_id := EmptyString; goal := None;
          goal_status := PENDING; goal_result := None |};
     command_still_active_max_tries := max_tries;
     history := [] |}.

(** ** The monad *)

(** The exceptions of the model.  [RobotCommanderException] is an
    exception that the handler around the call catches: raised by the
    executor, one of the three classes of the [except] clause of
    [__execute_goal_action]; raised by a stop request, the class that the
    [except] clause of [__cancel_current_command] names.  [AttributeError]
    is what Python raises when an attribute of [None] is read. *)
Inductive exn :=
| RobotCommanderException (s : CommandStatus) (m : string)
| AttributeError.

Inductive result (A : Type) :=
| Done (a : A)
| Raised (e : exn).

Arguments Done {A} a.
Arguments Raised {A} e.

Definition M (A : Type) : Type :=
  RobotCommanderNode -> result A * RobotCommanderNode.

Definition ret {A : Type} (a : A) : M A := fun self => (Done a, self).

Definition bind {A B : Type} (m : M A) (k : A -> M B) : M B :=
  fun self =>
    match m self with
    | (Done a, self1) => k a self1
    | (Raised e, self1) => (Raised e, self1)
    end.

Definition raise {A : Type} (e : exn) : M A := fun self => (Raised e, self).

(** [try: m except <the exceptions h answers to>: h e] *)
Definition try_except {A : Type} (m : M A) (h : exn -> option (M A)) : M A :=
  fun self =>
    match m self with
    | (Done a, self1) => (Done a, self1)
    | (Raised e, self1) =>
        match h e with
        | Some handler => handler self1
        | None => (Raised e, self1)
        end
    end.

Definition get : M RobotCommanderNode := fun self => (Done self, self).

Declare Scope node_scope.
Delimit Scope node_scope with node.
Notation "x <- m ;; k" := (bind m (fun x => k))
  (at level 100, m at next level, right associativity) : node_scope.
Notation "m ;;; k" := (bind m (fun _ => k))
  (at level 100, right associativity) : node_scope.
Open Scope node_scope.

Definition record (e : event) (self : RobotCommanderNode) : RobotCommanderNode :=
  {| learning_mode_on := learning_mode_on self;
     hardware_status := hardware_status self;
     pause_state := pause_state self;
     pause_finished_event := pause_finished_event self;
     pause_timeout := pause_timeout self;
     current_goal_handle := current_goal_handle self;
     command_still_active_max_tries := command_still_active_max_tries self;
     history := history self ++ [e] |}.

Definition emit (e : event) : M unit := fun self => (Done tt, record e self).

Definition log (l : log_level) (text : string) : M unit := emit (Log l text).

(** Assignments to the attributes. *)
Definition assign_learning_mode_on (v : bool) : M unit :=
  fun self =>
    (Done tt,
     {| learning_mode_on := v;
        hardware_status := hardware_status self;
        pause_state := pause_state self;
        pause_finished_event := pause_finished_event self;
        pause_timeout := pause_timeout self;
        current_goal_handle := current_goal_handle self;
        command_still_active_max_tries := command_still_active_max_tries self;
        history := history self ++ [Assign_learning_mode_on v] |}).

Definition assign_hardware_status (v : HardwareStatus) : M unit :=
  fun self =>
    (Done tt,
     {| learning_mode_on := learning_mode_on self;
        hardware_status := Some v;
        pause_state := pause_state self;
        pause_finished_event := pause_finished_event self;
        pause_timeout := pause_timeout self;
        current_goal_handle := current_goal_handle self;
        command_still_active_max_tries := command_still_active_max_tries self;
        history := history self ++ [Assign_hardware_status v] |}).

Definition assign_pause_state (v : PausePlanExecution) : M unit :=
  fun self =>
    (Done tt,
     {| learning_mode_on := learning_mode_on self;
        hardware_status := hardware_status self;
        pause_state := v;
        pause_finished_event := pause_finished_event self;
        pause_timeout := pause_timeout self;
        current_goal_handle := current_goal_handle self;
        command_still_active_max_tries := command_still_active_max_tries self;
        history := history self ++ [Assign_pause_state v] |}).

(** [self.__current_goal_handle = gh] *)
Definition assign_current_goal_handle (gh : ServerGoalHandle) : M unit :=
  fun self =>
    (Done tt,
     {| learning_mode_on := learning_mode_on self;
        hardware_status := hardware_status self;
        pause_state := pause_state self;
        pause_finished_event := pause_finished_event self;
        pause_timeout := pause_timeout self;
        current_goal_handle := gh;
        command_still_active_max_tries := command_still_active_max_tries self;
        history := history self ++ [Assign_current_goal_handle (goal_id gh)] |}).

(** The flag of the [threading.Event]: [set()] and [clear()]. *)
Definition put_pause_finished_event (flag : bool) (e : event) : M unit :=
  fun self =>
    (Done tt,
     {| learning_mode_on := learning_mode_on self;
        hardware_status := hardware_status self;
        pause_state := pause_state self;
        pause_finished_event := flag;
        pause_timeout := pause_timeout self;
        current_goal_handle := current_goal_handle self;
        command_still_active_max_tries := command_still_active_max_tries self;
        history := history self ++ [e] |}).

Definition pause_finished_event_set : M unit :=
  put_pause_finished_event true Event_set.

Definition pause_finished_event_clear : M unit :=
  put_pause_finished_event false Event_clear.

(** A status change of the current goal handle.  The handle is the object
    the action server holds, so the change is made in place. *)
Definition put_current_goal (s : GoalStatus) (r : option RobotMoveResult)
    (e : event) : M unit :=
  fun self =>
    (Done tt,
     {| learning_mode_on := learning_mode_on self;
        hardware_status := hardware_status self;
        pause_state := pause_state self;
        pause_finished_event := pause_finished_event self;
        pause_timeout := pause_timeout self;
        current_goal_handle := with_status (current_goal_handle self) s r;
        command_still_active_max_tries := command_still_active_max_tries self;
        history := history self ++ [e] |}).

Definition current_set_accepted : M unit :=
  fun self =>
    put_current_goal ACTIVE (goal_result (current_goal_handle self))
      (Set_accepted (goal_id (current_goal_handle self))) self.

Definition current_set_canceled (r : option RobotMoveResult) : M unit :=
  fun self =>
    put_current_goal CANCELED r
      (Set_canceled (goal_id (current_goal_handle self)) r) self.

Definition current_set_aborted (r : RobotMoveResult) : M unit :=
  fun self =>
    put_current_goal ABORTED (Some r)
      (Set_aborted (goal_id (current_goal_handle self)) r) self.

Definition current_set_succeeded (r : RobotMoveResult) : M unit :=
  fun self =>
    put_current_goal SUCCEEDED (Some r)
      (Set_succeeded (goal_id (current_goal_handle self)) r) self.

(** ** Answers of the collaborators *)

(** What a stop request to a commander does: it returns, or it raises a
    [RobotCommanderException]. *)
Inductive stop_answer :=
| Stops
| Stop_raises (s : CommandStatus) (m : string).

(** How the two commanders answer the stop requests of one callback. *)
Record Commanders := {
  arm_stop_current_plan : stop_answer;
  tool_stop_tool_command : stop_answer
}.

(** What the learning mode service does when it is asked:
    [wait_for_service] times out (a [ROSException]), the call fails (a
    [ServiceException]), or the service responds with a status. *)
Inductive service_answer :=
| Service_timeout
| Service_failure
| Service_response (s : CommandStatus).

(** What the executor (an arm function of the dispatch table, or the tool
    commander) does with a command: it returns a status and a message, or
    raises one of the commander exceptions, with its status and message. *)
Inductive executor_answer :=
| Returns (s : CommandStatus) (m : string)
| Raises (s : CommandStatus) (m : string).

(** ** Subscribers *)

(** [__callback_learning_mode] *)
Definition callback_learning_mode (msg : bool) : M unit :=
  let activate := msg in
  self <- get ;;
  (if negb (learning_mode_on self) && activate
   then emit Arm_stop_arm
   else ret tt) ;;;
  assign_learning_mode_on activate.

(** [__callback_hardware_status] *)
Definition callback_hardware_status (msg : HardwareStatus) : M unit :=
  assign_hardware_status msg.

(** [__cancel_command] *)
Definition cancel_command (c : Commanders) : M unit :=
  emit Arm_stop_current_plan ;;;
  match arm_stop_current_plan c with
  | Stop_raises s m => raise (RobotCommanderException s m)
  | Stops =>
      emit Tool_stop_tool_command ;;;
      match tool_stop_tool_command c with
      | Stop_raises s m => raise (RobotCommanderException s m)
      | Stops => ret tt
      end
  end.

(** [__cancel_current_command] *)
Definition cancel_current_command (c : Commanders) : M unit :=
  try_except (cancel_command c)
    (fun e =>
       match e with
       | RobotCommanderException _ _ =>
           Some (log WARN "Commander Action Serv - Could not cancel current command ")
       | AttributeError => None
       end).

(** [__callback_stop_command] *)
Definition callback_stop_command (c : Commanders) : M (CommandStatus * string) :=
  cancel_command c ;;;
  ret (SUCCESS, "Command stopped").

(** [__callback_pause_movement] *)
Definition callback_pause_movement (c : Commanders) (msg : PausePlanExecution)
    : M unit :=
  assign_pause_state msg ;;;
  match msg with
  | PAUSE =>
      log INFO "Robot Commander - Receive Set Pause Mode from button" ;;;
      pause_finished_event_clear ;;;
      cancel_command c
  | CANCEL =>
      pause_finished_event_set ;;;
      cancel_command c ;;;
      log INFO "Robot Commander - Receive Cancel Command from button"
  | _ =>
      pause_finished_event_set
  end.

(** [__callback_cancel] *)
Definition callback_cancel (c : Commanders) (goal_handle : ServerGoalHandle)
    : M unit :=
  log INFO "Commander Action Serv - Received cancel command" ;;;
  self <- get ;;
  if handle_eqb goal_handle (current_goal_handle self)
  then cancel_current_command c
  else log DEBUG "Commander Action Serv - No current goal, nothing to do".

(** ** Executors *)

(** [__reset_pause_play_state] *)
Definition reset_pause_play_state : M unit :=
  pause_finished_event_set ;;;
  assign_pause_state STANDBY.

Definition is_active_status (s : GoalStatus) : bool :=
  match s with
  | ACTIVE | PENDING => true
  | _ => false
  end.

(** [__current_goal_is_active] *)
Definition current_goal_is_active (self : RobotCommanderNode) : bool :=
  match goal (current_goal_handle self) with
  | None => false
  | Some _ => is_active_status (goal_status (current_goal_handle self))
  end.

(** [__set_learning_mode] *)
Definition set_learning_mode (a : service_answer) (set_bool : bool) : M bool :=
  emit (Wait_for_service 1) ;;;
  match a with
  | Service_timeout => ret false
  | Service_failure =>
      emit (Call_learning_mode_activate set_bool) ;;;
      ret false
  | Service_response s =>
      emit (Call_learning_mode_activate set_bool) ;;;
      ret (match s with SUCCESS => true | _ => false end)
  end.

(** [goal_to_cmd_type] *)
Definition goal_to_cmd_type (goal_handle : ServerGoalHandle) : M RobotCommandType :=
  match goal goal_handle with
  | Some cmd => ret (cmd_type cmd)
  | None => raise AttributeError
  end.

(** ** Pause signals that arrive while the worker is blocked *)

(** A pause message that the subscriber thread receives, with the answers
    of the commanders to the stop requests its callback makes. *)
Record arrival := {
  arrived_state : PausePlanExecution;
  arrived_commanders : Commanders
}.

(** The subscriber thread runs the callback; an exception of the callback
    stays in that thread. *)
Definition deliver (a : arrival) (self : RobotCommanderNode) : RobotCommanderNode :=
  snd (callback_pause_movement (arrived_commanders a) (arrived_state a) self).

Definition deliver_all (l : list arrival) : M unit :=
  fun self => (Done tt, fold_left (fun s a => deliver a s) l self).

(** The wait itself: it returns [true] as soon as the flag is set, with
    the messages that arrive within the timeout delivered in order until
    then, and [false] when the flag is still clear after the last of them. *)
Fixpoint wait_loop (arrivals : list arrival) (self : RobotCommanderNode)
    : result bool * RobotCommanderNode :=
  if pause_finished_event self then (Done true, self)
  else
    match arrivals with
    | [] => (Done false, self)
    | a :: rest => wait_loop rest (deliver a self)
    end.

(** [self.__pause_finished_event.wait(timeout=self.__pause_timeout)] *)
Definition pause_finished_event_wait (arrivals : list arrival) : M bool :=
  self <- get ;;
  emit (Event_wait (pause_timeout self)) ;;;
  wait_loop arrivals.

(** [__cancel_due_to_pause] *)
Definition cancel_due_to_pause (arrivals : list arrival) : M bool :=
  released <- pause_finished_event_wait arrivals ;;
  if negb released then
    current_set_canceled None ;;;
    log WARN "Commander Action Serv - Goal has been paused since too long, cancelling it" ;;;
    ret true
  else
    self <- get ;;
    match pause_state self with
    | CANCEL =>
        current_set_canceled None ;;;
        log INFO "Commander Action Serv - Goal has been successfully canceled" ;;;
        ret true
    | _ => ret false
    end.

(** ** The execution path *)

(** What the environment does during one pass through
    [__execute_goal_action]: the pause messages that arrive while the
    pre-check waits, the answer of the executor, the pause messages that
    arrive while the command is interpreted and executed, and those that
    arrive while the check after the execution waits. *)
Record attempt := {
  arrivals_before : list arrival;
  answer : executor_answer;
  arrivals_during : list arrival;
  arrivals_after : list arrival
}.

Definition executor_result (a : executor_answer) : M (CommandStatus * string) :=
  match a with
  | Returns s m => ret (s, m)
  | Raises s m => raise (RobotCommanderException s m)
  end.

(** [__interpret_and_execute_command] *)
Definition interpret_and_execute_command (a : executor_answer)
    (during : list arrival) (cmd : RobotCommand) : M (CommandStatus * string) :=
  match cmd_type cmd with
  | MOVE_ONLY =>
      emit (Arm_move (arm_cmd_type cmd)) ;;;
      deliver_all during ;;;
      executor_result a
  | TOOL_ONLY =>
      emit Tool_send_tool_command ;;;
      deliver_all during ;;;
      executor_result a
  | OTHER_COMMAND =>
      deliver_all during ;;;
      ret (UNKNOWN_COMMAND, "Commander Action Serv - Unknown command")
  end.

(** [self.__current_goal_handle.goal.goal.cmd] *)
Definition current_goal_cmd : M RobotCommand :=
  self <- get ;;
  match goal (current_goal_handle self) with
  | Some cmd => ret cmd
  | None => raise AttributeError
  end.

Definition newline : string := String (Ascii.ascii_of_nat 10) EmptyString.

Definition controller_problems_text : string :=
  "Commander Action Serv - Controller failed during execution : " ++
  "Goal has been aborted." ++ newline ++
  "This is due to either a collision, or a motor unable to follow a given command" ++
  " (overload, extreme positions, ...)".

Definition unknown_result_text : string :=
  "Commander Action Serv - Unknown result, goal has been set as aborted".

(** The line logged for an exception of the executor, with its message. *)
Definition exception_text (m : string) : string :=
  "Commander Action Serv - An exception was thrown during command execution : "
  ++ m.

Arguments exception_text : simpl never.

(** How one pass through the body of [__execute_goal_action] ends: it
    returns, or it calls [__execute_goal_action] again and returns what
    that call returns. *)
Inductive pass_end := Finished | Resumed.

(** The [try] statement of [__execute_goal_action]: the values of
    [result] and [response] after it. *)
Definition execute_command (a : attempt)
    : M (RobotMoveResult * option RobotMoveResult) :=
  try_except
    (cmd <- current_goal_cmd ;;
     sm <- interpret_and_execute_command (answer a) (arrivals_during a) cmd ;;
     let response := create_result (fst sm) (snd sm) in
     ret (response, Some response))
    (fun e =>
       match e with
       | RobotCommanderException s m =>
           Some
             (log INFO (exception_text m) ;;;
              ret (create_result s m, None))
       | AttributeError => None
       end).

(** The body of [__execute_goal_action]. *)
Definition execute_goal_action_body (a : attempt) : M pass_end :=
  canceled <- cancel_due_to_pause (arrivals_before a) ;;
  if canceled then
    reset_pause_play_state ;;;
    ret Finished
  else
    outcome <- execute_command a ;;
    let result := fst outcome in
    let response := snd outcome in
    self <- get ;;
    resumed <-
      match pause_state self with
      | PAUSE =>
          canceled <- cancel_due_to_pause (arrivals_after a) ;;
          if canceled then
            reset_pause_play_state ;;;
            ret false
          else
            self <- get ;;
            match pause_state self with
            | RESUME =>
                log INFO "Commander Action Serv - Resuming goal action" ;;;
                ret true
            | _ =>
                current_set_aborted result ;;;
                log WARN unknown_result_text ;;;
                ret false
            end
      | _ =>
          match response with
          | None =>
              current_set_aborted result ;;;
              log WARN "Commander Action Serv - Execution has been aborted" ;;;
              ret false
          | Some r =>
              match status r with
              | SUCCESS =>
                  current_set_succeeded result ;;;
                  log INFO "Commander Action Serv - Goal has been set as succeeded" ;;;
                  ret false
              | STOPPED =>
                  current_set_canceled (Some result) ;;;
                  log INFO "Commander Action Serv - Goal has been successfully canceled" ;;;
                  ret false
              | CONTROLLER_PROBLEMS =>
                  current_set_aborted result ;;;
                  log WARN controller_problems_text ;;;
                  ret false
              | _ =>
                  current_set_aborted result ;;;
                  log WARN unknown_result_text ;;;
                  ret false
              end
          end
      end ;;
    if resumed : bool then ret Resumed
    else
      pause_finished_event_set ;;;
      ret Finished.

(** [__execute_goal_action]: one [attempt] for every pass.  [None] when
    the passes outnumber the attempts given. *)
Fixpoint execute_goal_action (attempts : list attempt) (self : RobotCommanderNode)
    : option (result unit * RobotCommanderNode) :=
  match attempts with
  | [] => None
  | a :: rest =>
      match execute_goal_action_body a self with
      | (Done Finished, self1) => Some (Done tt, self1)
      | (Done Resumed, self1) => execute_goal_action rest self1
      | (Raised e, self1) => Some (Raised e, self1)
      end
  end.

(** ** Admission *)

(** What the environment does during one call of [__callback_goal]: the
    answer of the jog controller, the status the worker thread gives the
    current goal during each of the sleeps (numbered from 0), if it
    changes it then, and the answer of the learning mode service. *)
Record admission := {
  jog_is_enabled : bool;
  worker_progress : nat -> option GoalStatus;
  learning_mode_service : service_answer
}.

(** [goal_handle.set_rejected(result)] on the handle of the request. *)
Definition reject (goal_handle : ServerGoalHandle) (s : CommandStatus)
    (m : string) : M ServerGoalHandle :=
  let result := create_result s m in
  emit (Set_rejected (goal_id goal_handle) result) ;;;
  ret (with_status goal_handle REJECTED (Some result)).

(** [rospy.sleep(0.2)], the [i]-th of the call. *)
Definition sleep (progress : nat -> option GoalStatus) (i : nat) : M unit :=
  emit (Sleep_ms 200) ;;;
  fun self =>
    match progress i with
    | None => (Done tt, self)
    | Some s =>
        (Done tt,
         {| learning_mode_on := learning_mode_on self;
            hardware_status := hardware_status self;
            pause_state := pause_state self;
            pause_finished_event := pause_finished_event self;
            pause_timeout := pause_timeout self;
            current_goal_handle :=
              with_status (current_goal_handle self) s
                (goal_result (current_goal_handle self));
            command_still_active_max_tries := command_still_active_max_tries self;
            history := history self |})
    end.

Definition decimal (z : Z) : string := NilZero.string_of_int (Z.to_int z).

(** The warning of the retry loop, with the number it formats. *)
Definition retry_text (remaining : Z) : string :=
  "Commander Action Serv - Current goal seems to be still active, will retry "
  ++ decimal remaining ++ " time(s)".

Arguments retry_text : simpl never.

(** The [for] loop of [__callback_goal], with [n] iterations left before
    the iteration of index [i]; [true] when it is left by [break]. *)
Fixpoint still_active_loop (progress : nat -> option GoalStatus) (n i : nat)
    : M bool :=
  match n with
  | O => ret false
  | S n' =>
      self <- get ;;
      log WARN (retry_text (command_still_active_max_tries self - Z.of_nat i)) ;;;
      sleep progress i ;;;
      self <- get ;;
      if negb (current_goal_is_active self) then ret true
      else still_active_loop progress n' (S i)
  end.

(** [__callback_goal] from the learning mode check on. *)
Definition callback_goal_from_learning_mode (env : admission)
    (goal_handle : ServerGoalHandle) : M ServerGoalHandle :=
  self <- get ;;
  refused <-
    (if learning_mode_on self then
       kind <- goal_to_cmd_type goal_handle ;;
       match kind with
       | TOOL_ONLY => ret false
       | _ =>
           ok <- set_learning_mode (learning_mode_service env) false ;;
           ret (negb ok)
       end
     else ret false) ;;
  if refused : bool then
    reject goal_handle LEARNING_MODE_ON "Learning mode could not be deactivated"
  else
    assign_current_goal_handle goal_handle ;;;
    current_set_accepted ;;;
    log INFO "Commander Action Serv - Goal has been accepted" ;;;
    emit Thread_start ;;;
    log DEBUG "Commander Action Serv - Executing command in a new thread" ;;;
    self <- get ;;
    ret (current_goal_handle self).

(** [__callback_goal]; the value is the handle of the request as the call
    leaves it. *)
Definition callback_goal (env : admission) (goal_handle : ServerGoalHandle)
    : M ServerGoalHandle :=
  log INFO "Commander Action Serv - Received goal. Check if can be executed" ;;;
  self <- get ;;
  match hardware_status self with
  | None =>
      reject goal_handle HARDWARE_NOT_OK
        "Hardware Status still not received, please restart the robot"
  | Some hs =>
      if negb (connection_up hs) then
        reject goal_handle HARDWARE_NOT_OK
          "Motor connection problem, you can't send a command now"
      else if calibration_needed hs then
        reject goal_handle CALIBRATION_NOT_DONE
          "You need to calibrate the robot before sending a command"
      else if calibration_in_progress hs then
        reject goal_handle CALIBRATION_NOT_DONE
          "Calibration in progress, wait until it ends to send a command"
      else if jog_is_enabled env then
        reject goal_handle JOG_CONTROLLER_ENABLED
          "You need to deactivate jog controller to execute a new command"
      else if current_goal_is_active self then
        left_by_break <-
          still_active_loop (worker_progress env)
            (Z.to_nat (command_still_active_max_tries self)) 0 ;;
        if left_by_break : bool then
          callback_goal_from_learning_mode env goal_handle
        else
          reject goal_handle GOAL_STILL_ACTIVE "Current command is still active"
      else callback_goal_from_learning_mode env goal_handle
  end.

(** ** Liveness *)

(** [__callback_is_active] *)
Definition callback_is_active : M bool :=
  self <- get ;;
  ret (current_goal_is_active self).

(** What [publish] does with a message: it returns, or it raises a
    [ROSException]. *)
Inductive publish_answer := Publishes | Publish_raises.

(** [__publish_is_active]; the value is the message handed to the
    publisher. *)
Definition publish_is_active (a : publish_answer) : M bool :=
  self <- get ;;
  let msg := current_goal_is_active self in
  match a with
  | Publishes => ret msg
  | Publish_raises => ret msg
  end.

(** ** The state publisher *)

(** [StatePublisher].  The numbers of a transform are only copied, never
    computed with, so their type is left open; the conversion of a
    quaternion to roll, pitch and yaw is the function of [tf]. *)
Section StatePublisher.

Variable num : Type.
Variable zero : num.
Variable euler_from_quaternion : num * num * num * num -> num * num * num.

(** The [RobotState] message. *)
Record RobotState := {
  position_x : num;
  position_y : num;
  position_z : num;
  rpy_roll : num;
  rpy_pitch : num;
  rpy_yaw : num;
  orientation_x : num;
  orientation_y : num;
  orientation_z : num;
  orientation_w : num
}.

Inductive publisher_event :=
| Log_throttle (period : Z) (text : string)
| Publish (msg : RobotState).

(** The attributes of the publisher, and what it has logged and handed
    to [publish] so far. *)
Record StatePublisher := {
  sp_position : num * num * num;
  sp_quaternion : num * num * num * num;
  sp_rpy : num * num * num;
  sp_history : list publisher_event
}.

(** The attributes as [__init__] leaves them. *)
Definition state_publisher_init : StatePublisher :=
  {| sp_position := (zero, zero, zero);
     sp_quaternion := (zero, zero, zero, zero);
     sp_rpy := (zero, zero, zero);
     sp_history := [] |}.

(** What [lookupTransform] does: it returns a translation and a rotation,
    or raises one of [LookupException], [ConnectivityException] and
    [ExtrapolationException]. *)
Inductive lookup_answer :=
| Transform (pos : num * num * num) (rot : num * num * num * num)
| Lookup_raises.

(** [__update_ee_link_pose] *)
Definition update_ee_link_pose (a : lookup_answer) (self : StatePublisher)
    : StatePublisher :=
  match a with
  | Transform pos rot =>
      {| sp_position := pos;
         sp_quaternion := rot;
         sp_rpy := euler_from_quaternion rot;
         sp_history := sp_history self |}
  | Lookup_raises =>
      {| sp_position := sp_position self;
         sp_quaternion := sp_quaternion self;
         sp_rpy := sp_rpy self;
         sp_history :=
           sp_history self ++
           [Log_throttle 1 "State Publisher - Failed to get TF base_link -> ee_link"] |}
  end.

(** The message [__publish_state] builds from the attributes. *)
Definition robot_state_msg (self : StatePublisher) : RobotState :=
  let '(px, py, pz) := sp_position self in
  let '(roll, pitch, yaw) := sp_rpy self in
  let '(qx, qy, qz, qw) := sp_quaternion self in
  {| position_x := px;
     position_y := py;
     position_z := pz;
     rpy_roll := roll;
     rpy_pitch := pitch;
     rpy_yaw := yaw;
     orientation_x := qx;
     orientation_y := qy;
     orientation_z := qz;
     orientation_w := qw |}.

(** [__publish_state]: a [ROSException] of [publish] is caught and the
    method returns. *)
Definition publish_state (a : lookup_answer) (p : publish_answer)
    (self : StatePublisher) : StatePublisher :=
  let self1 := update_ee_link_pose a self in
  let msg := robot_state_msg self1 in
  let self2 :=
    {| sp_position := sp_position self1;
       sp_quaternion := sp_quaternion self1;
       sp_rpy := sp_rpy self1;
       sp_history := sp_history self1 ++ [Publish msg] |} in
  match p with
  | Publishes => self2
  | Publish_raises => self2
  end.

(** The timer calls [__publish_state] once per period. *)
Fixpoint publish_states (l : list (lookup_answer * publish_answer))
    (self : StatePublisher) : StatePublisher :=
  match l with
  | [] => self
  | (a, p) :: rest => publish_states rest (publish_state a p self)
  end.

(** The messages handed to [publish], oldest first. *)
Definition published (l : list publisher_event) : list RobotState :=
  flat_map (fun e => match e with Publish msg => [msg] | _ => [] end) l.

End StatePublisher.

Arguments Transform {num} pos rot.
Arguments Lookup_raises {num}.
Arguments Publish {num} msg.
Arguments Log_throttle {num} period text.
Arguments sp_position {num} s.
Arguments sp_quaternion {num} s.
Arguments sp_rpy {num} s.
Arguments sp_history {num} s.
Arguments robot_state_msg {num} self.
Arguments published {num} l.

(** ** Concrete nodes, requests and answers used in the examples *)

Module Sample.

Definition quiet : Commanders :=
  {| arm_stop_current_plan := Stops; tool_stop_tool_command := Stops |}.

Definition arm_fails : Commanders :=
  {| arm_stop_current_plan := Stop_raises STOPPED "arm";
     tool_stop_tool_command := Stops |}.

Definition hardware_ok : HardwareStatus :=
  {| connection_up := true;
     calibration_needed := false;
     calibration_in_progress := false |}.

Definition move_joints : RobotCommand :=
  {| cmd_type := MOVE_ONLY; arm_cmd_type := JOINTS |}.

Definition open_gripper : RobotCommand :=
  {| cmd_type := TOOL_ONLY; arm_cmd_type := JOINTS |}.

Definition request (id : string) (cmd : RobotCommand) : ServerGoalHandle :=
  {| goal_id := id; goal := Some cmd; goal_status := PENDING; goal_result := None |}.

(** A node that has received a hardware status, has learning mode on or
    off, and holds the goal ["g0"] with the given status. *)
Definition node (learning : bool) (s : GoalStatus) : RobotCommanderNode :=
  {| learning_mode_on := learning;
     hardware_status := Some hardware_ok;
     pause_state := STANDBY;
     pause_finished_event := true;
     pause_timeout := 30;
     current_goal_handle := with_status (request "g0" move_joints) s None;
     command_still_active_max_tries := 3;
     history := [] |}.

(** The same node holding a goal with another command. *)
Definition node_holding (cmd : RobotCommand) : RobotCommanderNode :=
  {| learning_mode_on := false;
     hardware_status := Some hardware_ok;
     pause_state := STANDBY;
     pause_finished_event := true;
     pause_timeout := 30;
     current_goal_handle := with_status (request "g0" cmd) ACTIVE None;
     command_still_active_max_tries := 3;
     history := [] |}.

Definition calm (a : service_answer) : admission :=
  {| jog_is_enabled := false;
     worker_progress := fun _ => None;
     learning_mode_service := a |}.

(** The worker ends the goal during the sleep of index [k]. *)
Definition finishing_at (k : nat) : admission :=
  {| jog_is_enabled := false;
     worker_progress := fun i => if Nat.eqb i k then Some SUCCEEDED else None;
     learning_mode_service := Service_response SUCCESS |}.

Definition pause_pressed : arrival :=
  {| arrived_state := PAUSE; arrived_commanders := quiet |}.

Definition resume_pressed : arrival :=
  {| arrived_state := RESUME; arrived_commanders := quiet |}.

Definition cancel_pressed : arrival :=
  {| arrived_state := CANCEL; arrived_commanders := quiet |}.

(** A node on which pause has been pressed: the gate is blocked. *)
Definition paused_node : RobotCommanderNode :=
  deliver pause_pressed (node false ACTIVE).

(** The command runs to its end and nothing else happens. *)
Definition undisturbed (a : executor_answer) : attempt :=
  {| arrivals_before := [];
     answer := a;
     arrivals_during := [];
     arrivals_after := [] |}.

(** Pause is pressed while the command runs, the executor stops, and
    resume is pressed while the worker waits. *)
Definition paused_then_resumed : attempt :=
  {| arrivals_before := [];
     answer := Returns STOPPED "stopped";
     arrivals_during := [pause_pressed];
     arrivals_after := [resume_pressed] |}.

End Sample.

(** ** Vocabulary of the statements *)

(** The handle of a request after [set_rejected]. *)
Definition rejected (goal_handle : ServerGoalHandle) (s : CommandStatus)
    (m : string) : ServerGoalHandle :=
  with_status goal_handle REJECTED (Some (create_result s m)).

Definition received_goal_text : string :=
  "Commander Action Serv - Received goal. Check if can be executed".

(** A call of [__callback_goal] that does nothing but log the reception
    and reject the request with the given status and message. *)
Definition gate_rejects (out : result ServerGoalHandle * RobotCommanderNode)
    (goal_handle : ServerGoalHandle) (self : RobotCommanderNode)
    (s : CommandStatus) (m : string) : Prop :=
  out =
    (Done (rejected goal_handle s m),
     record (Set_rejected (goal_id goal_handle) (create_result s m))
       (record (Log INFO received_goal_text) self)).

Definition cancel_failed_text : string :=
  "Commander Action Serv - Could not cancel current command ".

Definition stop_fails (a : stop_answer) : bool :=
  match a with
  | Stops => false
  | Stop_raises _ _ => true
  end.

(** An event of the retry loop of [__callback_goal]. *)
Definition retry_event (e : event) : bool :=
  match e with
  | Log WARN _ => true
  | Sleep_ms _ => true
  | _ => false
  end.

Definition is_sleep (e : event) : bool :=
  match e with
  | Sleep_ms _ => true
  | _ => false
  end.

(** An event of the learning mode service. *)
Definition is_service_event (e : event) : bool :=
  match e with
  | Wait_for_service _ => true
  | Call_learning_mode_activate _ => true
  | _ => false
  end.

(** An event that installs a goal or starts its worker. *)
Definition is_install_event (e : event) : bool :=
  match e with
  | Assign_current_goal_handle _ => true
  | Set_accepted _ => true
  | Thread_start => true
  | _ => false
  end.

(** The request passes the readiness gate. *)
Definition passes_readiness (env : admission) (self : RobotCommanderNode) : Prop :=
  exists hs,
    hardware_status self = Some hs /\
    connection_up hs = true /\
    calibration_needed hs = false /\
    calibration_in_progress hs = false /\
    jog_is_enabled env = false.

(** What the worker thread does during a sleep leaves the current goal
    active. *)
Definition keeps_active (o : option GoalStatus) : bool :=
  match o with
  | None => true
  | Some s => is_active_status s
  end.

(** An invocation of the executor. *)
Definition is_executor_event (e : event) : bool :=
  match e with
  | Arm_move _ => true
  | Tool_send_tool_command => true
  | _ => false
  end.

(** The gate is blocked and nothing that arrives within the timeout
    clears it. *)
Definition stays_blocked (arrivals : list arrival) (self : RobotCommanderNode)
    : Prop :=
  pause_finished_event self = false /\
  Forall (fun x => arrived_state x = PAUSE) arrivals.

(** The terminal status of a goal as the specification gives it from the
    execution outcome (section 4.2.1, step 3): none produced, or the
    status code of the outcome. *)
Definition terminal_status (outcome : option CommandStatus) : GoalStatus :=
  match outcome with
  | None => ABORTED
  | Some SUCCESS => SUCCEEDED
  | Some STOPPED => CANCELED
  | Some CONTROLLER_PROBLEMS => ABORTED
  | Some _ => ABORTED
  end.

(** The line logged with the terminal status. *)
Definition diagnostic (outcome : option CommandStatus) : event :=
  match outcome with
  | None => Log WARN "Commander Action Serv - Execution has been aborted"
  | Some SUCCESS =>
      Log INFO "Commander Action Serv - Goal has been set as succeeded"
  | Some STOPPED =>
      Log INFO "Commander Action Serv - Goal has been successfully canceled"
  | Some CONTROLLER_PROBLEMS => Log WARN controller_problems_text
  | Some _ => Log WARN unknown_result_text
  end.

Definition resuming_text : string :=
  "Commander Action Serv - Resuming goal action".

Definition still_active_text : string := "Current command is still active".

Definition learning_mode_text : string := "Learning mode could not be deactivated".

(** A call that gives the current goal its terminal status. *)
Definition is_final_event (e : event) : bool :=
  match e with
  | Set_canceled _ _ => true
  | Set_aborted _ _ => true
  | Set_succeeded _ _ => true
  | _ => false
  end.

Definition is_terminal_status (s : GoalStatus) : bool :=
  match s with
  | SUCCEEDED | ABORTED | CANCELED => true
  | _ => false
  end.

(** A request to a commander to stop. *)
Definition is_stop_event (e : event) : bool :=
  match e with
  | Arm_stop_arm => true
  | Arm_stop_current_plan => true
  | Tool_stop_tool_command => true
  | _ => false
  end.

(** The attributes that neither admission nor the execution path nor a
    pause message assigns. *)
Definition same_settings (self self' : RobotCommanderNode) : Prop :=
  learning_mode_on self' = learning_mode_on self /\
  hardware_status self' = hardware_status self /\
  pause_timeout self' = pause_timeout self /\
  command_still_active_max_tries self' = command_still_active_max_tries self.

(** The gate is blocked only while the pause state is PAUSE. *)
Definition gate_follows_pause_state (self : RobotCommanderNode) : Prop :=
  pause_finished_event self = false -> pause_state self = PAUSE.

(** [evolves self self']: the node goes from [self] to [self'] by calls
    of its callbacks and runs of its execution path, in any number and
    order and with any answers of the environment. *)
Inductive evolves (self : RobotCommanderNode) : RobotCommanderNode -> Prop :=
| evolves_refl : evolves self self
| evolves_learning_mode (s : RobotCommanderNode) (msg : bool) :
    evolves self s -> evolves self (snd (callback_learning_mode msg s))
| evolves_hardware_status (s : RobotCommanderNode) (msg : HardwareStatus) :
    evolves self s -> evolves self (snd (callback_hardware_status msg s))
| evolves_stop_command (s : RobotCommanderNode) (c : Commanders) :
    evolves self s -> evolves self (snd (callback_stop_command c s))
| evolves_is_active (s : RobotCommanderNode) :
    evolves self s -> evolves self (snd (callback_is_active s))
| evolves_pause_movement (s : RobotCommanderNode) (c : Commanders)
    (msg : PausePlanExecution) :
    evolves self s -> evolves self (snd (callback_pause_movement c msg s))
| evolves_goal (s : RobotCommanderNode) (env : admission)
    (goal_handle : ServerGoalHandle) :
    evolves self s -> evolves self (snd (callback_goal env goal_handle s))
| evolves_cancel (s : RobotCommanderNode) (c : Commanders)
    (goal_handle : ServerGoalHandle) :
    evolves self s -> evolves self (snd (callback_cancel c goal_handle s))
| evolves_execute (s s' : RobotCommanderNode) (attempts : list attempt)
    (r : result unit) :
    evolves self s ->
    execute_goal_action attempts s = Some (r, s') ->
    evolves self s'.

(** An event of [__callback_pause_movement]. *)
Definition is_pause_callback_event (e : event) : bool :=
  match e with
  | Assign_pause_state _ => true
  | Log INFO _ => true
  | Event_set => true
  | Event_clear => true
  | Arm_stop_current_plan => true
  | Tool_stop_tool_command => true
  | _ => false
  end.

(** The statuses with which admission rejects. *)
Definition rejection_statuses : list CommandStatus :=
  [HARDWARE_NOT_OK; CALIBRATION_NOT_DONE; JOG_CONTROLLER_ENABLED;
   GOAL_STILL_ACTIVE; LEARNING_MODE_ON].

(** The handle of a request after [set_accepted]. *)
Definition accepted (goal_handle : ServerGoalHandle) : ServerGoalHandle :=
  with_status goal_handle ACTIVE (goal_result goal_handle).

(** Learning mode does not stand in the way of the request: it is off,
    or the request is tool-only, or the service disengages it. *)
Definition learning_mode_lets_through (env : admission)
    (goal_handle : ServerGoalHandle) (self : RobotCommanderNode) : Prop :=
  learning_mode_on self = false \/
  option_map cmd_type (goal goal_handle) = Some TOOL_ONLY \/
  learning_mode_service env = Service_response SUCCESS.

(** The three ways in which a call of [__callback_goal] ends, with the
    events [evs] it adds: the request is accepted and installed, or it is
    rejected, or reading the command kind of a request without a goal
    raises. *)
Definition admission_outcome (env : admission) (goal_handle : ServerGoalHandle)
    (self self' : RobotCommanderNode) (r : result ServerGoalHandle)
    (evs : list event) : Prop :=
  (r = Done (accepted goal_handle) /\
   current_goal_handle self' = accepted goal_handle /\
   learning_mode_lets_through env goal_handle self /\
   filter is_install_event evs =
     [Assign_current_goal_handle (goal_id goal_handle);
      Set_accepted (goal_id goal_handle); Thread_start]) \/
  (exists st m,
     r = Done (rejected goal_handle st m) /\
     In st rejection_statuses /\
     In (Set_rejected (goal_id goal_handle) (create_result st m)) evs /\
     goal_id (current_goal_handle self') = goal_id (current_goal_handle self) /\
     goal (current_goal_handle self') = goal (current_goal_handle self) /\
     filter is_install_event evs = []) \/
  (r = Raised AttributeError /\
   goal goal_handle = None /\
   learning_mode_on self = true /\
   goal_id (current_goal_handle self') = goal_id (current_goal_handle self) /\
   goal (current_goal_handle self') = goal (current_goal_handle self) /\
   filter is_install_event evs = []).

(** Two nodes that agree on what admission reads. *)
Definition admission_view (self self' : RobotCommanderNode) : Prop :=
  learning_mode_on self = learning_mode_on self' /\
  hardware_status self = hardware_status self' /\
  current_goal_handle self = current_goal_handle self' /\
  command_still_active_max_tries self = command_still_active_max_tries self'.

(** The number of times learning mode goes from off to on in a sequence
    of updates, the flag being [prev] before the first. *)
Fixpoint rising_edges (prev : bool) (l : list bool) : nat :=
  match l with
  | [] => 0
  | b :: rest => (if negb prev && b then 1 else 0) + rising_edges b rest
  end.

(** The subscriber calls [__callback_learning_mode] once per message. *)
Definition learning_mode_updates (l : list bool) (self : RobotCommanderNode)
    : RobotCommanderNode :=
  fold_left (fun s msg => snd (callback_learning_mode msg s)) l self.

Definition is_stop_arm (e : event) : bool :=
  match e with
  | Arm_stop_arm => true
  | _ => false
  end.

Definition unknown_command_text : string :=
  "Commander Action Serv - Unknown command".

(** The [RobotState] message of a pose. *)
Definition pose_msg {num : Type} (pos : num * num * num)
    (rot : num * num * num * num) (rpy : num * num * num) : RobotState num :=
  {| position_x := fst (fst pos);
     position_y := snd (fst pos);
     position_z := snd pos;
     rpy_roll := fst (fst rpy);
     rpy_pitch := snd (fst rpy);
     rpy_yaw := snd rpy;
     orientation_x := fst (fst (fst rot));
     orientation_y := snd (fst (fst rot));
     orientation_z := snd (fst rot);
     orientation_w := snd rot |}.

Definition is_throttled_log {num : Type} (e : publisher_event num) : bool :=
  match e with
  | Log_throttle _ _ => true
  | Publish _ => false
  end.

Definition lookup_fails {num : Type} (a : lookup_answer num) : bool :=
  match a with
  | Transform _ _ => false
  | Lookup_raises => true
  end.

(** * Properties *)

Create HintDb node.

#[global] Hint Unfold bind ret raise try_except get emit log record
  assign_learning_mode_on assign_hardware_status assign_pause_state
  assign_current_goal_handle put_pause_finished_event
  pause_finished_event_set pause_finished_event_clear put_current_goal
  current_set_accepted current_set_canceled current_set_aborted
  current_set_succeeded reset_pause_play_state cancel_command
  cancel_current_command reject : node.

Ltac run := autounfold with node; simpl.

Ltac flatten_history := repeat rewrite <- app_assoc; simpl.

(** ** Learning mode updates *)

(** C10. A learning mode update that switches learning mode from off to
    on makes the node command the arm to stop, and it does so before it
    assigns the stored flag; no other transition commands a stop; the
    update never raises and the stored flag is the received value
    afterwards. *)
Theorem callback_learning_mode_stop_then_store (msg : bool)
    (self : RobotCommanderNode) :
  exists self',
    callback_learning_mode msg self = (Done tt, self') /\
    learning_mode_on self' = msg /\
    history self' =
      history self ++
      (if negb (learning_mode_on self) && msg then [Arm_stop_arm] else []) ++
      [Assign_learning_mode_on msg].
Proof.
  unfold callback_learning_mode. run.
  destruct (learning_mode_on self), msg; simpl;
    eexists; repeat split; flatten_history; reflexivity.
Qed.

(** ** Pause signals *)

(** C8. Every pause message is recorded as the pause state.  PAUSE blocks
    the gate and requests the cancellation of the current command; CANCEL
    clears the gate and requests the cancellation; any other message
    (STANDBY, RESUME) clears the gate, requests nothing from the
    commanders and returns. *)
Theorem callback_pause_movement_effects (c : Commanders)
    (msg : PausePlanExecution) (self : RobotCommanderNode) :
  let out := callback_pause_movement c msg self in
  pause_state (snd out) = msg /\
  pause_finished_event (snd out) =
    match msg with PAUSE => false | _ => true end /\
  exists evs,
    history (snd out) = history self ++ Assign_pause_state msg :: evs /\
    match msg with
    | PAUSE | CANCEL =>
        In Arm_stop_current_plan evs /\
        (In Tool_stop_tool_command evs <-> arm_stop_current_plan c = Stops)
    | _ =>
        evs = [Event_set] /\ fst out = Done tt
    end.
Proof.
  unfold callback_pause_movement.
  destruct msg; run.
  - repeat split. eexists; split; [flatten_history; reflexivity|].
    split; reflexivity.
  - destruct (arm_stop_current_plan c) eqn:Ha; simpl;
      [destruct (tool_stop_tool_command c); simpl|];
      (repeat split; eexists; split; [flatten_history; reflexivity|]);
      simpl; intuition congruence.
  - repeat split. eexists; split; [flatten_history; reflexivity|].
    split; reflexivity.
  - destruct (arm_stop_current_plan c) eqn:Ha; simpl;
      [destruct (tool_stop_tool_command c); simpl|];
      (repeat split; eexists; split; [flatten_history; reflexivity|]);
      simpl; intuition congruence.
Qed.

(** ** Cancel requests *)

(** C9, as the code has it.  A cancel request never raises.  When the
    handle of the request is not the current one, the call logs two lines
    and changes nothing else.  When it is, the arm is asked to stop its
    plan; the tool is asked to stop exactly when the arm's stop returned;
    and a [RobotCommanderException] raised by either stop is swallowed
    and logged. *)
Theorem callback_cancel_best_effort (c : Commanders)
    (goal_handle : ServerGoalHandle) (self : RobotCommanderNode) :
  let out := callback_cancel c goal_handle self in
  fst out = Done tt /\
  (handle_eqb goal_handle (current_goal_handle self) = false ->
   snd out =
     record (Log DEBUG "Commander Action Serv - No current goal, nothing to do")
       (record (Log INFO "Commander Action Serv - Received cancel command") self)) /\
  (handle_eqb goal_handle (current_goal_handle self) = true ->
   exists evs,
     history (snd out) =
       history self ++
       Log INFO "Commander Action Serv - Received cancel command" ::
       Arm_stop_current_plan :: evs /\
     (In Tool_stop_tool_command evs <-> arm_stop_current_plan c = Stops) /\
     (In (Log WARN cancel_failed_text) evs <->
      stop_fails (arm_stop_current_plan c) = true \/
      stop_fails (tool_stop_tool_command c) = true)).
Proof.
  unfold callback_cancel. run.
  destruct (handle_eqb goal_handle (current_goal_handle self)); simpl.
  - destruct (arm_stop_current_plan c) eqn:Ha; simpl;
      [destruct (tool_stop_tool_command c) eqn:Ht; simpl|];
      (split; [reflexivity|]; split; [discriminate|]; intros _;
       eexists; split; [flatten_history; reflexivity|]);
      unfold cancel_failed_text; simpl; intuition congruence.
  - split; [reflexivity|]. split; [reflexivity | discriminate].
Qed.

Lemma callback_cancel_best_effort_witness :
  let out :=
    callback_cancel Sample.quiet (Sample.request "g0" Sample.move_joints)
      (Sample.node false ACTIVE) in
  fst out = Done tt /\
  In Arm_stop_current_plan (history (snd out)) /\
  In Tool_stop_tool_command (history (snd out)).
Proof.
  destruct (callback_cancel_best_effort Sample.quiet
              (Sample.request "g0" Sample.move_joints)
              (Sample.node false ACTIVE)) as [H1 [_ H3]].
  destruct (H3 eq_refl) as [evs [Hh [Ht _]]].
  split; [exact H1|].
  rewrite Hh. split.
  - apply in_or_app. right. right. left. reflexivity.
  - apply in_or_app. right. right. right. apply Ht. reflexivity.
Defined.

(** C9 as it is stated fails: the handle of the request is the current
    one, the arm's stop raises, the exception is swallowed, and the tool
    is never asked to stop. *)
Lemma callback_cancel_arm_raises_tool_not_asked :
  let goal_handle := Sample.request "g0" Sample.move_joints in
  let self := Sample.node false ACTIVE in
  let out := callback_cancel Sample.arm_fails goal_handle self in
  handle_eqb goal_handle (current_goal_handle self) = true /\
  fst out = Done tt /\
  In Arm_stop_current_plan (history (snd out)) /\
  ~ In Tool_stop_tool_command (history (snd out)).
Proof.
  vm_compute. repeat split; try tauto.
  intros H. repeat (destruct H as [H | H]; [discriminate H|]). exact H.
Qed.

(** ** The readiness gate *)

(** C1. The admission checks reject in a fixed order, and the first that
    applies decides the reason: no hardware status received, then a
    connection that is down (both HARDWARE_NOT_OK), then a calibration
    that is needed, then a calibration in progress (both
    CALIBRATION_NOT_DONE), then an enabled jog controller
    (JOG_CONTROLLER_ENABLED).  Nothing else of the node, of the request
    or of the environment matters to the first two, and the calibration
    flags matter only when the connection is up. *)
Theorem callback_goal_rejection_order (env : admission)
    (goal_handle : ServerGoalHandle) (self : RobotCommanderNode) :
  let out := callback_goal env goal_handle self in
  (hardware_status self = None ->
   gate_rejects out goal_handle self HARDWARE_NOT_OK
     "Hardware Status still not received, please restart the robot") /\
  (forall hs, hardware_status self = Some hs ->
   connection_up hs = false ->
   gate_rejects out goal_handle self HARDWARE_NOT_OK
     "Motor connection problem, you can't send a command now") /\
  (forall hs, hardware_status self = Some hs ->
   connection_up hs = true ->
   calibration_needed hs = true ->
   gate_rejects out goal_handle self CALIBRATION_NOT_DONE
     "You need to calibrate the robot before sending a command") /\
  (forall hs, hardware_status self = Some hs ->
   connection_up hs = true ->
   calibration_needed hs = false ->
   calibration_in_progress hs = true ->
   gate_rejects out goal_handle self CALIBRATION_NOT_DONE
     "Calibration in progress, wait until it ends to send a command") /\
  (forall hs, hardware_status self = Some hs ->
   connection_up hs = true ->
   calibration_needed hs = false ->
   calibration_in_progress hs = false ->
   jog_is_enabled env = true ->
   gate_rejects out goal_handle self JOG_CONTROLLER_ENABLED
     "You need to deactivate jog controller to execute a new command").
Proof.
  unfold gate_rejects, callback_goal, received_goal_text. run.
  repeat split.
  - intros ->. reflexivity.
  - intros hs -> ->. reflexivity.
  - intros hs -> -> ->. reflexivity.
  - intros hs -> -> -> ->. reflexivity.
  - intros hs -> -> -> -> ->. reflexivity.
Qed.

Lemma callback_goal_rejection_order_witness :
  gate_rejects
    (callback_goal (Sample.calm Service_timeout)
       (Sample.request "g1" Sample.move_joints) (init 30 3))
    (Sample.request "g1" Sample.move_joints) (init 30 3) HARDWARE_NOT_OK
    "Hardware Status still not received, please restart the robot" /\
  gate_rejects
    (callback_goal
       {| jog_is_enabled := true;
          worker_progress := fun _ => None;
          learning_mode_service := Service_timeout |}
       (Sample.request "g1" Sample.move_joints) (Sample.node true ACTIVE))
    (Sample.request "g1" Sample.move_joints) (Sample.node true ACTIVE)
    JOG_CONTROLLER_ENABLED
    "You need to deactivate jog controller to execute a new command".
Proof.
  split.
  - apply (callback_goal_rejection_order (Sample.calm Service_timeout)
             (Sample.request "g1" Sample.move_joints) (init 30 3)).
    reflexivity.
  - apply (callback_goal_rejection_order
             {| jog_is_enabled := true;
                worker_progress := fun _ => None;
                learning_mode_service := Service_timeout |}
             (Sample.request "g1" Sample.move_joints)
             (Sample.node true ACTIVE)) with (hs := Sample.hardware_ok);
      reflexivity.
Defined.

(** ** The retry loop *)

(** The loop never raises; it touches no attribute but the status of the
    current goal handle, which is the worker's doing; and it does nothing
    but warn and sleep. *)
Lemma still_active_loop_frame (progress : nat -> option GoalStatus) (n : nat) :
  forall (i : nat) (self : RobotCommanderNode),
  exists b self' evs,
    still_active_loop progress n i self = (Done b, self') /\
    learning_mode_on self' = learning_mode_on self /\
    goal_id (current_goal_handle self') = goal_id (current_goal_handle self) /\
    goal (current_goal_handle self') = goal (current_goal_handle self) /\
    pause_finished_event self' = pause_finished_event self /\
    history self' = history self ++ evs /\
    forallb retry_event evs = true /\
    (b = true -> current_goal_is_active self' = false).
Proof.
  induction n as [|n IH]; intros i self.
  - exists false, self, []. simpl. rewrite app_nil_r.
    repeat split; try reflexivity. discriminate.
  - simpl. unfold sleep. run.
    destruct (progress i) as [s|]; simpl;
      match goal with
      | |- context [if negb (current_goal_is_active ?s) then _ else _] =>
          destruct (current_goal_is_active s) eqn:Hact
      end; simpl;
      try (match goal with
           | |- context [still_active_loop progress n (S i) ?s] =>
               destruct (IH (S i) s)
                 as (b & self' & evs & Heq & Hl & Hid & Hg & Hp & Hh & Hev & Hb);
               simpl in *;
               exists b, self', (Log WARN (retry_text (command_still_active_max_tries self - Z.of_nat i)) :: Sleep_ms 200 :: evs);
               rewrite Heq, Hh; flatten_history; repeat split; assumption
           end);
      (eexists true, _, _; split; [reflexivity|]; simpl;
       repeat split;
       [flatten_history; reflexivity | reflexivity | intros _; exact Hact]).
Qed.

(** One iteration of the loop: warn, sleep, look at the goal. *)
Lemma still_active_loop_step (progress : nat -> option GoalStatus)
    (n i : nat) (self : RobotCommanderNode) :
  still_active_loop progress (S n) i self =
    let self1 :=
      snd (sleep progress i
             (record
                (Log WARN
                   (retry_text (command_still_active_max_tries self - Z.of_nat i)))
                self)) in
    if negb (current_goal_is_active self1) then (Done true, self1)
    else still_active_loop progress n (S i) self1.
Proof.
  simpl. unfold sleep. run.
  destruct (progress i); simpl;
    match goal with
    | |- context [negb (current_goal_is_active ?s)] =>
        destruct (current_goal_is_active s)
    end; reflexivity.
Qed.

(** A sleep adds one event, and afterwards an active goal is active
    exactly when the worker has left it so. *)
Lemma sleep_effect (progress : nat -> option GoalStatus) (i : nat) (e : event)
    (self : RobotCommanderNode) :
  current_goal_is_active self = true ->
  let self1 := snd (sleep progress i (record e self)) in
  current_goal_is_active self1 = keeps_active (progress i) /\
  history self1 = history self ++ [e; Sleep_ms 200].
Proof.
  unfold sleep, current_goal_is_active. run. intros Hact.
  destruct (progress i) as [s|]; simpl;
    destruct (goal (current_goal_handle self)); try discriminate;
    split; try (flatten_history; reflexivity); try reflexivity; exact Hact.
Qed.

(** When the worker leaves the goal active during every sleep, the loop
    runs all its iterations and is not left by [break]. *)
Lemma still_active_loop_exhausted (progress : nat -> option GoalStatus)
    (n : nat) :
  forall (i : nat) (self : RobotCommanderNode),
  current_goal_is_active self = true ->
  (forall j, i <= j < i + n -> keeps_active (progress j) = true) ->
  exists self' evs,
    still_active_loop progress n i self = (Done false, self') /\
    history self' = history self ++ evs /\
    filter is_sleep evs = repeat (Sleep_ms 200) n.
Proof.
  induction n as [|n IH]; intros i self Hact Hkeep.
  - exists self, []. simpl. rewrite app_nil_r. repeat split.
  - rewrite still_active_loop_step.
    destruct (sleep_effect progress i
                (Log WARN
                   (retry_text (command_still_active_max_tries self - Z.of_nat i)))
                self Hact) as [Ha Hh].
    cbv zeta. rewrite Ha, (Hkeep i) by lia. simpl.
    match goal with
    | |- context [still_active_loop progress n (S i) ?s] =>
        destruct (IH (S i) s) as (self' & evs & Heq & Hh' & Hs);
        [rewrite Ha; apply Hkeep; lia | intros j Hj; apply Hkeep; lia |]
    end.
    rewrite Heq. eexists self', _. split; [reflexivity|].
    rewrite Hh', Hh. split; [flatten_history; reflexivity|].
    simpl. rewrite Hs. reflexivity.
Qed.

(** When the worker ends the goal during the sleep of index [k], the loop
    is left by [break] after that sleep. *)
Lemma still_active_loop_break (progress : nat -> option GoalStatus)
    (k : nat) :
  forall (n i : nat) (self : RobotCommanderNode),
  current_goal_is_active self = true ->
  k < n ->
  (forall j, i <= j < i + k -> keeps_active (progress j) = true) ->
  keeps_active (progress (i + k)) = false ->
  exists self' evs,
    still_active_loop progress n i self = (Done true, self') /\
    current_goal_is_active self' = false /\
    history self' = history self ++ evs /\
    filter is_sleep evs = repeat (Sleep_ms 200) (S k).
Proof.
  induction k as [|k IH]; intros n i self Hact Hlt Hkeep Hend;
    (destruct n as [|n]; [lia|]);
    rewrite still_active_loop_step;
    destruct (sleep_effect progress i
                (Log WARN
                   (retry_text (command_still_active_max_tries self - Z.of_nat i)))
                self Hact) as [Ha Hh];
    cbv zeta.
  - rewrite Nat.add_0_r in Hend. rewrite Ha, Hend. simpl.
    eexists _, _. split; [reflexivity|].
    rewrite Ha, Hend, Hh. repeat split.
  - rewrite Ha, (Hkeep i) by lia. simpl.
    match goal with
    | |- context [still_active_loop progress n (S i) ?s] =>
        destruct (IH n (S i) s) as (self' & evs & Heq & Hin & Hh' & Hs);
        [rewrite Ha; apply Hkeep; lia | lia
        | intros j Hj; apply Hkeep; lia
        | replace (S i + k) with (i + S k) by lia; exact Hend |]
    end.
    rewrite Heq. eexists self', _. split; [reflexivity|].
    split; [exact Hin|].
    rewrite Hh', Hh. split; [flatten_history; reflexivity|].
    simpl. rewrite Hs. reflexivity.
Qed.

Lemma retry_events_only (evs : list event) :
  forallb retry_event evs = true ->
  existsb is_service_event evs = false /\
  existsb is_install_event evs = false.
Proof.
  induction evs as [|e evs IH]; simpl; intros H; [split; reflexivity|].
  apply andb_true_iff in H. destruct H as [He Hev].
  destruct (IH Hev) as [H1 H2]. rewrite H1, H2.
  destruct e; try discriminate He; split; reflexivity.
Qed.

(** The learning mode helper never raises, and it answers [false] unless
    the service responded with SUCCESS. *)
Lemma set_learning_mode_total (a : service_answer) (set_bool : bool)
    (self : RobotCommanderNode) :
  exists r,
    fst (set_learning_mode a set_bool self) = Done r /\
    (a <> Service_response SUCCESS -> r = false).
Proof.
  unfold set_learning_mode. run.
  destruct a as [| |s]; simpl; [| |destruct s];
    eexists; (split; [reflexivity|]); congruence.
Qed.

(** ** Admission past the readiness gate *)

(** A request that passes the readiness gate goes through the retry loop
    when a goal is active, and then to the learning mode check unless the
    loop ran out. *)
Lemma callback_goal_past_gate (env : admission) (goal_handle : ServerGoalHandle)
    (self : RobotCommanderNode) :
  passes_readiness env self ->
  callback_goal env goal_handle self =
    let self0 := record (Log INFO received_goal_text) self in
    if current_goal_is_active self then
      match
        still_active_loop (worker_progress env)
          (Z.to_nat (command_still_active_max_tries self)) 0 self0
      with
      | (Done true, self1) =>
          callback_goal_from_learning_mode env goal_handle self1
      | (Done false, self1) =>
          (Done (rejected goal_handle GOAL_STILL_ACTIVE still_active_text),
           record
             (Set_rejected (goal_id goal_handle)
                (create_result GOAL_STILL_ACTIVE still_active_text))
             self1)
      | (Raised e, self1) => (Raised e, self1)
      end
    else callback_goal_from_learning_mode env goal_handle self0.
Proof.
  intros (hs & Hhs & Hc & Hn & Hp & Hj).
  destruct self as [lm hw ps pe pt cur mt h]. simpl in Hhs. subst hw.
  unfold callback_goal, received_goal_text, still_active_text, rejected.
  run. rewrite Hc, Hn, Hp, Hj. simpl.
  unfold current_goal_is_active. simpl.
  destruct (goal cur); [|reflexivity].
  destruct (is_active_status (goal_status cur)); [|reflexivity].
  match goal with
  | |- context [still_active_loop ?p ?n ?i ?s] =>
      generalize (still_active_loop p n i s)
  end.
  intros [[[|]|e] self1]; reflexivity.
Qed.

(** The learning mode check on its own, for a request that carries a goal
    and with learning mode on. *)
Lemma callback_goal_from_learning_mode_on (env : admission)
    (goal_handle : ServerGoalHandle) (self : RobotCommanderNode)
    (cmd : RobotCommand) :
  goal goal_handle = Some cmd ->
  learning_mode_on self = true ->
  let out := callback_goal_from_learning_mode env goal_handle self in
  exists evs,
    history (snd out) = history self ++ evs /\
    match cmd_type cmd with
    | TOOL_ONLY => existsb is_service_event evs = false
    | _ =>
        In (Wait_for_service 1) evs /\
        (learning_mode_service env <> Service_response SUCCESS ->
         fst out = Done (rejected goal_handle LEARNING_MODE_ON learning_mode_text) /\
         existsb is_install_event evs = false /\
         current_goal_handle (snd out) = current_goal_handle self)
    end.
Proof.
  intros Hg Hl.
  unfold callback_goal_from_learning_mode, goal_to_cmd_type, set_learning_mode.
  run. rewrite Hl, Hg. simpl.
  destruct (cmd_type cmd); simpl;
    try (destruct (learning_mode_service env) as [| |[]]; simpl);
    (eexists; split; [flatten_history; reflexivity|]); simpl;
    try reflexivity;
    (split; [tauto|]); intros Hs; try congruence;
    repeat split.
Qed.

(** The learning mode check never turns a request down for a goal that is
    still active. *)
Lemma callback_goal_from_learning_mode_not_still_active (env : admission)
    (goal_handle : ServerGoalHandle) (self : RobotCommanderNode) :
  fst (callback_goal_from_learning_mode env goal_handle self) <>
    Done (rejected goal_handle GOAL_STILL_ACTIVE still_active_text).
Proof.
  unfold callback_goal_from_learning_mode, goal_to_cmd_type, set_learning_mode.
  run.
  destruct (learning_mode_on self); simpl;
    [destruct (goal goal_handle) as [cmd|]; simpl;
     [destruct (cmd_type cmd); simpl;
      try (destruct (learning_mode_service env) as [| |[]]; simpl)|]|];
    unfold rejected, with_status, create_result; simpl;
    intros H; inversion H.
Qed.

(** ** The learning mode check *)

(** C6, as the code has it.  The learning mode helper returns [false]
    without raising when the service times out or fails.  For a request
    that passes the readiness gate and is not turned down for a goal that
    is still active, with learning mode on: a request that is not
    tool-only makes the node wait for the service with a timeout of one
    second, and when the helper returns [false] the request is rejected
    with LEARNING_MODE_ON and no goal is installed; a tool-only request
    never touches the service. *)
Theorem callback_goal_learning_mode_check (env : admission)
    (goal_handle : ServerGoalHandle) (self : RobotCommanderNode)
    (cmd : RobotCommand) :
  goal goal_handle = Some cmd ->
  learning_mode_on self = true ->
  passes_readiness env self ->
  let out := callback_goal env goal_handle self in
  fst out <> Done (rejected goal_handle GOAL_STILL_ACTIVE still_active_text) ->
  (forall a b s,
     exists r,
       fst (set_learning_mode a b s) = Done r /\
       (a <> Service_response SUCCESS -> r = false)) /\
  exists evs,
    history (snd out) = history self ++ evs /\
    match cmd_type cmd with
    | TOOL_ONLY => existsb is_service_event evs = false
    | _ =>
        In (Wait_for_service 1) evs /\
        (learning_mode_service env <> Service_response SUCCESS ->
         fst out = Done (rejected goal_handle LEARNING_MODE_ON learning_mode_text) /\
         existsb is_install_event evs = false /\
         goal_id (current_goal_handle (snd out)) =
           goal_id (current_goal_handle self) /\
         goal (current_goal_handle (snd out)) =
           goal (current_goal_handle self))
    end.
Proof.
  intros Hg Hl Hready out Hnot.
  split; [intros a b s; apply set_learning_mode_total|].
  subst out. revert Hnot.
  rewrite (callback_goal_past_gate env goal_handle self Hready). cbv zeta.
  destruct (current_goal_is_active self).
  - destruct (still_active_loop_frame (worker_progress env)
                (Z.to_nat (command_still_active_max_tries self)) 0
                (record (Log INFO received_goal_text) self))
      as (b & self1 & evs & Heq & Hl1 & Hid & Hgo & _ & Hh & Hev & _).
    rewrite Heq. destruct b; [|intros Hnot; exfalso; apply Hnot; reflexivity].
    intros _. simpl in Hl1, Hid, Hgo, Hh.
    destruct (retry_events_only evs Hev) as [Hsv Hin].
    destruct (callback_goal_from_learning_mode_on env goal_handle self1 cmd Hg)
      as (evs1 & Hh1 & Hcase); [congruence|].
    exists (Log INFO received_goal_text :: evs ++ evs1).
    split; [rewrite Hh1, Hh; flatten_history; reflexivity|].
    destruct (cmd_type cmd); simpl; rewrite ?existsb_app, ?Hsv, ?Hin; simpl;
      try exact Hcase;
      (destruct Hcase as [Hw Hcase]; split;
       [right; apply in_or_app; right; exact Hw|];
       intros Hs; destruct (Hcase Hs) as (Hr & Hi & Hcur);
       rewrite Hcur; repeat split; assumption).
  - intros _.
    destruct (callback_goal_from_learning_mode_on env goal_handle
                (record (Log INFO received_goal_text) self) cmd Hg)
      as (evs1 & Hh1 & Hcase); [exact Hl|].
    exists (Log INFO received_goal_text :: evs1).
    split; [rewrite Hh1; simpl; flatten_history; reflexivity|].
    destruct (cmd_type cmd); simpl;
      try exact Hcase;
      (destruct Hcase as [Hw Hcase]; split; [right; exact Hw|];
       intros Hs; destruct (Hcase Hs) as (Hr & Hi & Hcur);
       rewrite Hcur; repeat split; assumption).
Qed.

Lemma callback_goal_learning_mode_check_witness :
  fst (callback_goal (Sample.calm Service_timeout)
         (Sample.request "g1" Sample.move_joints)
         (Sample.node true SUCCEEDED)) =
    Done (rejected (Sample.request "g1" Sample.move_joints)
            LEARNING_MODE_ON learning_mode_text).
Proof.
  assert (Hready : passes_readiness (Sample.calm Service_timeout)
                     (Sample.node true SUCCEEDED)).
  { exists Sample.hardware_ok. repeat split. }
  assert (Hnot : fst (callback_goal (Sample.calm Service_timeout)
                        (Sample.request "g1" Sample.move_joints)
                        (Sample.node true SUCCEEDED)) <>
                 Done (rejected (Sample.request "g1" Sample.move_joints)
                         GOAL_STILL_ACTIVE still_active_text)).
  { vm_compute. discriminate. }
  destruct (callback_goal_learning_mode_check (Sample.calm Service_timeout)
              (Sample.request "g1" Sample.move_joints)
              (Sample.node true SUCCEEDED) Sample.move_joints
              eq_refl eq_refl Hready Hnot) as [_ (evs & _ & Hcase)].
  simpl in Hcase. apply Hcase. discriminate.
Defined.

(** C6 as it is stated fails: learning mode is on and the request is a
    move, but no hardware status has been received; the request is
    rejected with HARDWARE_NOT_OK and the service is never asked. *)
Lemma callback_goal_hardware_unknown_no_disengage :
  let goal_handle := Sample.request "g1" Sample.move_joints in
  let self := init 30 3 in
  let out := callback_goal (Sample.calm Service_timeout) goal_handle self in
  learning_mode_on self = true /\
  goal goal_handle = Some Sample.move_joints /\
  cmd_type Sample.move_joints <> TOOL_ONLY /\
  existsb is_service_event (history (snd out)) = false /\
  fst out =
    Done (rejected goal_handle HARDWARE_NOT_OK
            "Hardware Status still not received, please restart the robot").
Proof.
  vm_compute. repeat split. discriminate.
Qed.

(** ** The retry of the active goal check *)

(** C5. A request passes the readiness gate while the current goal is
    active.  When the goal is still active after each of the configured
    number of tries, 0.2 s apart, the request is rejected with
    GOAL_STILL_ACTIVE after exactly that many sleeps.  When the goal is
    found inactive at the try of index [k], admission goes on with the
    learning mode check after [k + 1] sleeps and the request is not
    rejected with GOAL_STILL_ACTIVE. *)
Theorem callback_goal_still_active_retries (env : admission)
    (goal_handle : ServerGoalHandle) (self : RobotCommanderNode) :
  passes_readiness env self ->
  current_goal_is_active self = true ->
  let tries := Z.to_nat (command_still_active_max_tries self) in
  let out := callback_goal env goal_handle self in
  ((forall j, j < tries -> keeps_active (worker_progress env j) = true) ->
   fst out = Done (rejected goal_handle GOAL_STILL_ACTIVE still_active_text) /\
   exists evs,
     history (snd out) = history self ++ evs /\
     filter is_sleep evs = repeat (Sleep_ms 200) tries) /\
  (forall k, k < tries ->
   (forall j, j < k -> keeps_active (worker_progress env j) = true) ->
   keeps_active (worker_progress env k) = false ->
   fst out <> Done (rejected goal_handle GOAL_STILL_ACTIVE still_active_text) /\
   exists self1 evs,
     out = callback_goal_from_learning_mode env goal_handle self1 /\
     current_goal_is_active self1 = false /\
     history self1 = history self ++ evs /\
     filter is_sleep evs = repeat (Sleep_ms 200) (S k)).
Proof.
  intros Hready Hact tries out. subst out.
  rewrite (callback_goal_past_gate env goal_handle self Hready). cbv zeta.
  rewrite Hact.
  assert (Hact0 : current_goal_is_active
                    (record (Log INFO received_goal_text) self) = true)
    by exact Hact.
  split.
  - intros Hkeep.
    destruct (still_active_loop_exhausted (worker_progress env) tries 0
                (record (Log INFO received_goal_text) self) Hact0)
      as (self1 & evs & Heq & Hh & Hs).
    { intros j Hj. apply Hkeep. lia. }
    fold tries. rewrite Heq. simpl. split; [reflexivity|].
    exists (Log INFO received_goal_text :: evs ++
            [Set_rejected (goal_id goal_handle)
               (create_result GOAL_STILL_ACTIVE still_active_text)]).
    rewrite Hh. simpl. split; [flatten_history; reflexivity|].
    rewrite filter_app, Hs. simpl. apply app_nil_r.
  - intros k Hk Hkeep Hend.
    destruct (still_active_loop_break (worker_progress env) k tries 0
                (record (Log INFO received_goal_text) self) Hact0 Hk)
      as (self1 & evs & Heq & Hin & Hh & Hs).
    { intros j Hj. apply Hkeep. lia. }
    { exact Hend. }
    fold tries. rewrite Heq.
    split; [apply callback_goal_from_learning_mode_not_still_active|].
    exists self1, (Log INFO received_goal_text :: evs).
    split; [reflexivity|]. split; [exact Hin|].
    rewrite Hh. simpl. split; [flatten_history; reflexivity|].
    exact Hs.
Qed.

Lemma callback_goal_still_active_retries_witness :
  fst (callback_goal (Sample.calm Service_timeout)
         (Sample.request "g1" Sample.move_joints)
         (Sample.node false ACTIVE)) =
    Done (rejected (Sample.request "g1" Sample.move_joints)
            GOAL_STILL_ACTIVE still_active_text) /\
  fst (callback_goal (Sample.finishing_at 1)
         (Sample.request "g1" Sample.move_joints)
         (Sample.node false ACTIVE)) <>
    Done (rejected (Sample.request "g1" Sample.move_joints)
            GOAL_STILL_ACTIVE still_active_text).
Proof.
  split.
  - assert (Hready : passes_readiness (Sample.calm Service_timeout)
                       (Sample.node false ACTIVE)).
    { exists Sample.hardware_ok. repeat split. }
    destruct (callback_goal_still_active_retries (Sample.calm Service_timeout)
                (Sample.request "g1" Sample.move_joints)
                (Sample.node false ACTIVE) Hready eq_refl) as [Hall _].
    apply Hall. intros j _. reflexivity.
  - assert (Hready : passes_readiness (Sample.finishing_at 1)
                       (Sample.node false ACTIVE)).
    { exists Sample.hardware_ok. repeat split. }
    destruct (callback_goal_still_active_retries (Sample.finishing_at 1)
                (Sample.request "g1" Sample.move_joints)
                (Sample.node false ACTIVE) Hready eq_refl) as [_ Hbreak].
    apply (Hbreak 1).
    + simpl. lia.
    + intros j Hj. destruct j as [|j]; [reflexivity | lia].
    + reflexivity.
Defined.

(** ** Pause messages and the wait on the gate *)

(** A delivered pause message is recorded, sets the gate as its state
    says, leaves the current goal handle alone and invokes no executor. *)
Lemma deliver_frame (a : arrival) (self : RobotCommanderNode) :
  pause_state (deliver a self) = arrived_state a /\
  pause_finished_event (deliver a self) =
    match arrived_state a with PAUSE => false | _ => true end /\
  current_goal_handle (deliver a self) = current_goal_handle self /\
  exists evs,
    history (deliver a self) = history self ++ evs /\
    existsb is_executor_event evs = false.
Proof.
  unfold deliver, callback_pause_movement.
  destruct (arrived_state a); run;
    try (destruct (arm_stop_current_plan (arrived_commanders a)); simpl;
         [destruct (tool_stop_tool_command (arrived_commanders a)); simpl|]);
    repeat split; eexists; (split; [flatten_history; reflexivity|]);
    reflexivity.
Qed.

Lemma deliver_all_frame (l : list arrival) :
  forall self : RobotCommanderNode,
  exists self' evs,
    deliver_all l self = (Done tt, self') /\
    current_goal_handle self' = current_goal_handle self /\
    history self' = history self ++ evs /\
    existsb is_executor_event evs = false.
Proof.
  unfold deliver_all.
  induction l as [|a l IH]; intros self; simpl.
  - exists self, []. rewrite app_nil_r. repeat split.
  - destruct (IH (deliver a self)) as (self' & evs & Heq & Hc & Hh & He).
    destruct (deliver_frame a self) as (_ & _ & Hc0 & evs0 & Hh0 & He0).
    exists self', (evs0 ++ evs).
    inversion Heq as [Hs]. rewrite Hs.
    split; [reflexivity|]. split; [congruence|].
    split; [rewrite Hh, Hh0; flatten_history; reflexivity|].
    rewrite existsb_app, He0, He. reflexivity.
Qed.

(** The wait never raises; it answers with the state of the gate, leaves
    the current goal handle alone and invokes no executor. *)
Lemma wait_loop_frame (arrivals : list arrival) :
  forall self : RobotCommanderNode,
  exists b self' evs,
    wait_loop arrivals self = (Done b, self') /\
    pause_finished_event self' = b /\
    current_goal_handle self' = current_goal_handle self /\
    history self' = history self ++ evs /\
    existsb is_executor_event evs = false.
Proof.
  induction arrivals as [|a l IH]; intros self; simpl.
  - destruct (pause_finished_event self) eqn:Hp;
      eexists _, self, []; rewrite app_nil_r; repeat split; assumption.
  - destruct (pause_finished_event self) eqn:Hp.
    + eexists _, self, []. rewrite app_nil_r. repeat split; assumption.
    + destruct (IH (deliver a self)) as (b & self' & evs & Heq & Hb & Hc & Hh & He).
      destruct (deliver_frame a self) as (_ & _ & Hc0 & evs0 & Hh0 & He0).
      exists b, self', (evs0 ++ evs).
      split; [exact Heq|]. split; [exact Hb|]. split; [congruence|].
      split; [rewrite Hh, Hh0; flatten_history; reflexivity|].
      rewrite existsb_app, He0, He. reflexivity.
Qed.

(** A gate that is blocked and receives nothing but PAUSE stays blocked:
    the wait times out. *)
Lemma wait_loop_stays_blocked (arrivals : list arrival) :
  forall self : RobotCommanderNode,
  stays_blocked arrivals self ->
  fst (wait_loop arrivals self) = Done false.
Proof.
  unfold stays_blocked.
  induction arrivals as [|a l IH]; intros self [Hp Hall]; simpl; rewrite Hp.
  - reflexivity.
  - inversion Hall as [|x l' Hx Hl]; subst.
    apply IH. split; [|exact Hl].
    destruct (deliver_frame a self) as (_ & Hg & _). rewrite Hg, Hx.
    reflexivity.
Qed.

(** The pre-check never raises.  It answers [true] exactly when the wait
    timed out or the pause state read after the wait is CANCEL, and then
    the current goal is CANCELED; when it answers [false] the gate is
    clear, the pause state is not CANCEL and the current goal handle is
    as before.  It invokes no executor. *)
Lemma cancel_due_to_pause_spec (arrivals : list arrival)
    (self : RobotCommanderNode) :
  exists b self' evs,
    cancel_due_to_pause arrivals self = (Done b, self') /\
    history self' = history self ++ Event_wait (pause_timeout self) :: evs /\
    existsb is_executor_event evs = false /\
    goal (current_goal_handle self') = goal (current_goal_handle self) /\
    goal_id (current_goal_handle self') = goal_id (current_goal_handle self) /\
    (b = true <->
     fst (pause_finished_event_wait arrivals self) = Done false \/
     pause_state (snd (pause_finished_event_wait arrivals self)) = CANCEL) /\
    (if b then goal_status (current_goal_handle self') = CANCELED
     else pause_finished_event self' = true /\
          pause_state self' <> CANCEL /\
          current_goal_handle self' = current_goal_handle self).
Proof.
  unfold cancel_due_to_pause, pause_finished_event_wait. run.
  destruct (wait_loop_frame arrivals
              (record (Event_wait (pause_timeout self)) self))
    as (b & self1 & evs & Heq & Hb & Hc & Hh & He).
  unfold record in Heq. rewrite Heq. simpl in *.
  destruct b; simpl.
  - destruct (pause_state self1) eqn:Hps; simpl;
      eexists _, _, _; (split; [reflexivity|]); simpl;
      rewrite ?Hc, Hh; simpl;
      (split; [flatten_history; reflexivity|]);
      simpl; rewrite ?existsb_app, ?He; simpl;
      repeat split; try assumption; try reflexivity;
      try congruence; try tauto;
      try (intros [H|H]; congruence).
  - eexists _, _, _. split; [reflexivity|]. simpl.
    rewrite ?Hc, Hh. simpl.
    split; [flatten_history; reflexivity|].
    simpl. rewrite ?existsb_app, ?He. simpl.
    repeat split; try tauto.
Qed.

(** Conversely, a wait that times out has found the gate blocked and has
    received nothing but PAUSE. *)
Lemma wait_loop_timeout (arrivals : list arrival) :
  forall self : RobotCommanderNode,
  fst (wait_loop arrivals self) = Done false ->
  stays_blocked arrivals self.
Proof.
  unfold stays_blocked.
  induction arrivals as [|a l IH]; intros self; simpl;
    destruct (pause_finished_event self) eqn:Hp; try discriminate.
  - intros _. split; [reflexivity | apply Forall_nil].
  - intros H. split; [reflexivity|].
    destruct (IH _ H) as [Hd Hl].
    apply Forall_cons; [|exact Hl].
    destruct (deliver_frame a self) as (_ & Hg & _).
    rewrite Hg in Hd. destruct (arrived_state a); congruence.
Qed.

Lemma pause_finished_event_wait_stays_blocked (arrivals : list arrival)
    (self : RobotCommanderNode) :
  stays_blocked arrivals self ->
  fst (pause_finished_event_wait arrivals self) = Done false.
Proof.
  intros H. unfold pause_finished_event_wait. run.
  apply wait_loop_stays_blocked. exact H.
Qed.

(** ** The execution path *)

(** The [try] statement raises only when the current handle carries no
    goal.  Otherwise it leaves the current goal handle alone, [response]
    is [result] or nothing, and the executor is invoked once for a move
    or a tool command and not at all for any other command. *)
Lemma execute_command_spec (a : attempt) (self : RobotCommanderNode)
    (cmd : RobotCommand) :
  goal (current_goal_handle self) = Some cmd ->
  exists res response self' evs,
    execute_command a self = (Done (res, response), self') /\
    (response = Some res \/ response = None) /\
    current_goal_handle self' = current_goal_handle self /\
    history self' = history self ++ evs /\
    List.length (filter is_executor_event evs) =
      match cmd_type cmd with OTHER_COMMAND => 0 | _ => 1 end.
Proof.
  intros Hg.
  unfold execute_command, current_goal_cmd, interpret_and_execute_command,
    executor_result.
  unfold try_except, bind, get, emit, ret, raise, log. rewrite Hg.
  cbv beta iota.
  destruct (cmd_type cmd);
    match goal with
    | |- context [deliver_all ?l ?s] =>
        destruct (deliver_all_frame l s) as (s1 & evs & Heq & Hc & Hh & He);
        rewrite Heq
    end;
    destruct (answer a) as [s m|s m]; simpl;
    eexists _, _, _, _; (split; [reflexivity|]); simpl;
    rewrite Hc, Hh; simpl;
    (split; [tauto|]); (split; [reflexivity|]);
    (split; [flatten_history; reflexivity|]);
    simpl; rewrite ?filter_app; simpl; rewrite ?List.length_app; simpl;
    assert (Hf : filter is_executor_event evs = [])
      by (clear - He; induction evs as [|e l IH]; simpl in *;
          [reflexivity|];
          destruct (is_executor_event e); simpl in *;
          [discriminate | apply IH; exact He]);
    rewrite Hf; reflexivity.
Qed.

(** Every pass that returns leaves the gate clear. *)
Lemma execute_goal_action_body_clears_gate (a : attempt)
    (self self' : RobotCommanderNode) :
  execute_goal_action_body a self = (Done Finished, self') ->
  pause_finished_event self' = true.
Proof.
  unfold execute_goal_action_body. unfold bind at 1.
  destruct (cancel_due_to_pause (arrivals_before a) self) as [[[|]|e] s1];
    [run; intros H; inversion H; reflexivity | | discriminate].
  unfold bind at 1.
  destruct (execute_command a s1) as [[[res response]|e] s2];
    [|discriminate].
  unfold bind at 1, get.
  destruct (pause_state s2);
    try (simpl; destruct response as [r|]; [destruct (status r)|]; run;
         intros H; inversion H; reflexivity).
  unfold bind at 1 2.
  destruct (cancel_due_to_pause (arrivals_after a) s2) as [[[|]|e] s3];
    [run; intros H; inversion H; reflexivity | | discriminate].
  run. destruct (pause_state s3); simpl; intros H; inversion H; reflexivity.
Qed.

(** Admission does not touch the gate. *)
Lemma callback_goal_keeps_gate (env : admission)
    (goal_handle : ServerGoalHandle) (self : RobotCommanderNode) :
  pause_finished_event (snd (callback_goal env goal_handle self)) =
    pause_finished_event self.
Proof.
  assert (Hfrom : forall s,
            pause_finished_event
              (snd (callback_goal_from_learning_mode env goal_handle s)) =
            pause_finished_event s).
  { intros s.
    unfold callback_goal_from_learning_mode, goal_to_cmd_type,
      set_learning_mode.
    run.
    destruct (learning_mode_on s); simpl;
      [destruct (goal goal_handle) as [cmd|]; simpl;
       [destruct (cmd_type cmd); simpl;
        try (destruct (learning_mode_service env) as [| |[]]; simpl)|]|];
      reflexivity. }
  destruct self as [lm hw ps pe pt cur mt h].
  unfold callback_goal. run.
  destruct hw as [hs|]; [|reflexivity].
  destruct (connection_up hs); [|reflexivity].
  destruct (calibration_needed hs); [reflexivity|].
  destruct (calibration_in_progress hs); [reflexivity|].
  destruct (jog_is_enabled env); [reflexivity|].
  simpl.
  match goal with
  | |- context [if current_goal_is_active ?s then _ else _] =>
      destruct (current_goal_is_active s)
  end; [|apply Hfrom].
  match goal with
  | |- context [still_active_loop ?p ?n ?i ?s] =>
      destruct (still_active_loop_frame p n i s)
        as (b & s1 & evs & Heq & _ & _ & _ & Hp & _);
      rewrite Heq
  end.
  destruct b; [rewrite Hfrom; exact Hp | exact Hp].
Qed.

(** C7. Whenever the execution path returns, by whichever branch and
    after however many resumptions, the gate is clear; and the admission
    of the next goal leaves it clear, so the worker of that goal does not
    find the gate blocked. *)
Theorem execute_goal_action_clears_gate (attempts : list attempt)
    (self self' : RobotCommanderNode) :
  execute_goal_action attempts self = Some (Done tt, self') ->
  pause_finished_event self' = true /\
  forall env goal_handle,
    pause_finished_event (snd (callback_goal env goal_handle self')) = true.
Proof.
  revert self.
  induction attempts as [|a rest IH]; intros self; simpl; [discriminate|].
  destruct (execute_goal_action_body a self) as [[[|]|e] s1] eqn:Hbody.
  - intros H. inversion H; subst.
    pose proof (execute_goal_action_body_clears_gate a self self' Hbody) as Hg.
    split; [exact Hg|].
    intros env goal_handle. rewrite callback_goal_keeps_gate. exact Hg.
  - apply IH.
  - discriminate.
Qed.

Lemma execute_goal_action_clears_gate_witness :
  exists self',
    execute_goal_action [Sample.paused_then_resumed;
                         Sample.undisturbed (Returns SUCCESS "done")]
      (Sample.node false ACTIVE) = Some (Done tt, self') /\
    pause_finished_event self' = true.
Proof.
  assert (E : exists s,
            execute_goal_action [Sample.paused_then_resumed;
                                 Sample.undisturbed (Returns SUCCESS "done")]
              (Sample.node false ACTIVE) = Some (Done tt, s))
    by (eexists; vm_compute; reflexivity).
  destruct E as [s E]. exists s. split; [exact E|].
  exact (proj1 (execute_goal_action_clears_gate _ _ _ E)).
Defined.

(** C3. At the start of a pass through the execution path the node waits
    on the gate with the configured pause timeout.  When the gate is
    blocked and stays blocked until the timeout has run out, or the pause
    state read once the wait is over is CANCEL, the path returns with the
    current goal CANCELED, the gate clear and the pause state STANDBY,
    and without having invoked the executor. *)
Theorem execute_goal_action_pre_check (a : attempt) (rest : list attempt)
    (self : RobotCommanderNode) :
  stays_blocked (arrivals_before a) self \/
  pause_state (snd (pause_finished_event_wait (arrivals_before a) self)) = CANCEL ->
  exists self' evs,
    execute_goal_action (a :: rest) self = Some (Done tt, self') /\
    goal_status (current_goal_handle self') = CANCELED /\
    goal_id (current_goal_handle self') = goal_id (current_goal_handle self) /\
    pause_finished_event self' = true /\
    pause_state self' = STANDBY /\
    history self' = history self ++ Event_wait (pause_timeout self) :: evs /\
    existsb is_executor_event evs = false.
Proof.
  intros H.
  destruct (cancel_due_to_pause_spec (arrivals_before a) self)
    as (b & s1 & evs & Heq & Hh & He & _ & Hid & Hiff & Hb).
  assert (b = true) as ->.
  { apply Hiff. destruct H as [H|H]; [left | right; exact H].
    apply pause_finished_event_wait_stays_blocked. exact H. }
  simpl. unfold execute_goal_action_body. unfold bind at 1. rewrite Heq.
  run.
  eexists _, (evs ++ [Event_set; Assign_pause_state STANDBY]).
  split; [reflexivity|]. simpl.
  repeat split; try assumption.
  - rewrite Hh. flatten_history. reflexivity.
  - rewrite existsb_app, He. reflexivity.
Qed.

Lemma execute_goal_action_pre_check_witness :
  exists self',
    execute_goal_action [Sample.undisturbed (Returns SUCCESS "done")]
      Sample.paused_node = Some (Done tt, self') /\
    goal_status (current_goal_handle self') = CANCELED.
Proof.
  destruct (execute_goal_action_pre_check
              (Sample.undisturbed (Returns SUCCESS "done")) []
              Sample.paused_node)
    as (self' & evs & Heq & Hs & _).
  - left. split; [reflexivity | apply Forall_nil].
  - exists self'. split; [exact Heq | exact Hs].
Defined.

(** C2. When the pre-check lets the pass through and the pause state is
    STANDBY once the [try] statement is over, the path returns and the
    status of the goal is the one the specification gives from the
    outcome alone: ABORTED when none was produced (the executor raised),
    SUCCEEDED for SUCCESS, CANCELED for STOPPED, ABORTED for
    CONTROLLER_PROBLEMS and ABORTED, with the unknown result line, for
    any other status code.  The result of the [try] statement is attached
    to the goal. *)
Theorem execute_goal_action_outcome_mapping (a : attempt) (rest : list attempt)
    (self self1 self2 : RobotCommanderNode) (res : RobotMoveResult)
    (response : option RobotMoveResult) :
  cancel_due_to_pause (arrivals_before a) self = (Done false, self1) ->
  execute_command a self1 = (Done (res, response), self2) ->
  pause_state self2 = STANDBY ->
  let outcome := option_map status response in
  exists self' e,
    execute_goal_action (a :: rest) self = Some (Done tt, self') /\
    goal_status (current_goal_handle self') = terminal_status outcome /\
    goal_result (current_goal_handle self') = Some res /\
    history self' = history self2 ++ [e; diagnostic outcome; Event_set].
Proof.
  intros Hpre Hexec Hps outcome. subst outcome.
  simpl. unfold execute_goal_action_body.
  unfold bind at 1. rewrite Hpre.
  unfold bind at 1. rewrite Hexec.
  unfold bind at 1, get. rewrite Hps. simpl.
  destruct response as [r|]; simpl; [destruct (status r)|]; run;
    eexists _, _; (split; [reflexivity|]); simpl;
    repeat split; flatten_history; reflexivity.
Qed.

Lemma execute_goal_action_outcome_mapping_witness :
  exists self',
    execute_goal_action [Sample.undisturbed (Returns STOPPED "stopped")]
      (Sample.node false ACTIVE) = Some (Done tt, self') /\
    goal_status (current_goal_handle self') = CANCELED.
Proof.
  edestruct (execute_goal_action_outcome_mapping
               (Sample.undisturbed (Returns STOPPED "stopped")) []
               (Sample.node false ACTIVE))
    as (self' & e & Heq & Hs & _).
  - vm_compute. reflexivity.
  - vm_compute. reflexivity.
  - reflexivity.
  - exists self'. split; [exact Heq | exact Hs].
Defined.

(** A [try] statement that ends without an exception found a goal in the
    current handle and has left the handle alone. *)
Lemma execute_command_done (a : attempt) (self self' : RobotCommanderNode)
    (x : RobotMoveResult * option RobotMoveResult) :
  execute_command a self = (Done x, self') ->
  current_goal_handle self' = current_goal_handle self.
Proof.
  intros H.
  destruct (goal (current_goal_handle self)) as [cmd|] eqn:Hg.
  - destruct (execute_command_spec a self cmd Hg)
      as (res & response & s & evs & Heq & _ & Hc & _).
    rewrite Heq in H. inversion H; subst. exact Hc.
  - revert H. unfold execute_command, current_goal_cmd.
    unfold try_except, bind, get, raise. rewrite Hg. discriminate.
Qed.

(** ** Pause and resume *)

Lemma execute_goal_action_cons (a : attempt) (rest : list attempt)
    (self : RobotCommanderNode) :
  execute_goal_action (a :: rest) self =
    match execute_goal_action_body a self with
    | (Done Finished, self1) => Some (Done tt, self1)
    | (Done Resumed, self1) => execute_goal_action rest self1
    | (Raised e, self1) => Some (Raised e, self1)
    end.
Proof. reflexivity. Qed.

(** One pause and resume cycle on a move: the pass invokes the executor
    once and ends by calling the execution path again, on a node with a
    clear gate, the pause state RESUME and the same goal. *)
Lemma paused_then_resumed_pass (self : RobotCommanderNode) (cmd : RobotCommand) :
  pause_finished_event self = true ->
  pause_state self = STANDBY \/ pause_state self = RESUME ->
  goal (current_goal_handle self) = Some cmd ->
  cmd_type cmd = MOVE_ONLY ->
  exists self1 evs,
    execute_goal_action_body Sample.paused_then_resumed self =
      (Done Resumed, self1) /\
    pause_finished_event self1 = true /\
    pause_state self1 = RESUME /\
    current_goal_handle self1 = current_goal_handle self /\
    history self1 = history self ++ evs /\
    List.length (filter is_executor_event evs) = 1.
Proof.
  destruct self as [lm hw ps pe pt [id g st r] mt h].
  destruct cmd as [k m]. simpl.
  intros -> Hps -> ->.
  unfold execute_goal_action_body, execute_command, cancel_due_to_pause,
    pause_finished_event_wait, current_goal_cmd,
    interpret_and_execute_command, executor_result, deliver_all, deliver,
    callback_pause_movement.
  run.
  destruct Hps as [-> | ->]; simpl;
    eexists _, _; (split; [reflexivity|]); simpl;
    repeat split; flatten_history; reflexivity.
Qed.

(** However many pause and resume cycles come first, the path invokes the
    executor once per cycle and once more, and then finalizes the goal. *)
Lemma resume_cycles_then_success (n : nat) :
  forall (self : RobotCommanderNode) (cmd : RobotCommand),
  pause_finished_event self = true ->
  pause_state self = STANDBY \/ pause_state self = RESUME ->
  goal (current_goal_handle self) = Some cmd ->
  cmd_type cmd = MOVE_ONLY ->
  exists self' evs,
    execute_goal_action
      (repeat Sample.paused_then_resumed n ++
       [Sample.undisturbed (Returns SUCCESS "done")]) self =
      Some (Done tt, self') /\
    goal_status (current_goal_handle self') = SUCCEEDED /\
    history self' = history self ++ evs /\
    List.length (filter is_executor_event evs) = S n.
Proof.
  induction n as [|n IH]; intros self cmd Hpe Hps Hg Hk.
  - destruct self as [lm hw ps pe pt [id g st r] mt h].
    destruct cmd as [k m]. simpl in *. subst pe g k.
    unfold execute_goal_action_body, execute_command, cancel_due_to_pause,
      pause_finished_event_wait, current_goal_cmd,
      interpret_and_execute_command, executor_result, deliver_all.
    run.
    destruct Hps as [-> | ->]; simpl;
      eexists _, _; (split; [reflexivity|]); simpl;
      repeat split; flatten_history; reflexivity.
  - destruct (paused_then_resumed_pass self cmd Hpe Hps Hg Hk)
      as (self1 & evs1 & Heq & Hpe1 & Hps1 & Hc1 & Hh1 & Hn1).
    destruct (IH self1 cmd Hpe1 (or_intror Hps1)) as (self' & evs & He & Hs & Hh & Hn);
      [rewrite Hc1; exact Hg | exact Hk |].
    exists self', (evs1 ++ evs).
    simpl. rewrite Heq. split; [exact He|]. split; [exact Hs|].
    split; [rewrite Hh, Hh1; flatten_history; reflexivity|].
    rewrite filter_app, List.length_app, Hn1, Hn. reflexivity.
Qed.

(** As long as pause and resume cycles go on, the path does not return. *)
Lemma resume_cycles_go_on (n : nat) :
  forall (self : RobotCommanderNode) (cmd : RobotCommand),
  pause_finished_event self = true ->
  pause_state self = STANDBY \/ pause_state self = RESUME ->
  goal (current_goal_handle self) = Some cmd ->
  cmd_type cmd = MOVE_ONLY ->
  execute_goal_action (repeat Sample.paused_then_resumed n) self = None.
Proof.
  induction n as [|n IH]; intros self cmd Hpe Hps Hg Hk; [reflexivity|].
  destruct (paused_then_resumed_pass self cmd Hpe Hps Hg Hk)
    as (self1 & evs1 & Heq & Hpe1 & Hps1 & Hc1 & _).
  simpl. rewrite Heq.
  apply (IH self1 cmd Hpe1 (or_intror Hps1)); [rewrite Hc1; exact Hg | exact Hk].
Qed.

(** C4. When the pre-check lets the pass through and the pause state is
    PAUSE once the [try] statement is over, the pre-check is run again.
    When it answers that the goal is to be canceled (timeout, or CANCEL),
    the goal is CANCELED and the pause bookkeeping reset.  When it does
    not and the pause state has become RESUME, the path is entered again
    from its first step, with the same goal handle.  With any other pause
    state the goal is ABORTED with the unknown result line.  The depth of
    the re-entry is not bounded: for every [n], after [n] pause and
    resume cycles the path has not returned, and with one more undisturbed
    pass it returns after [n + 1] invocations of the executor. *)
Theorem execute_goal_action_after_pause :
  (forall (a : attempt) (rest : list attempt)
          (self self1 self2 self3 : RobotCommanderNode)
          (res : RobotMoveResult) (response : option RobotMoveResult)
          (canceled : bool),
   cancel_due_to_pause (arrivals_before a) self = (Done false, self1) ->
   execute_command a self1 = (Done (res, response), self2) ->
   pause_state self2 = PAUSE ->
   cancel_due_to_pause (arrivals_after a) self2 = (Done canceled, self3) ->
   match canceled, pause_state self3 with
   | true, _ =>
       exists self',
         execute_goal_action (a :: rest) self = Some (Done tt, self') /\
         goal_status (current_goal_handle self') = CANCELED /\
         pause_finished_event self' = true /\
         pause_state self' = STANDBY /\
         history self' =
           history self3 ++ [Event_set; Assign_pause_state STANDBY; Event_set]
   | false, RESUME =>
       execute_goal_action (a :: rest) self =
         execute_goal_action rest (record (Log INFO resuming_text) self3) /\
       current_goal_handle self3 = current_goal_handle self
   | false, _ =>
       exists self',
         execute_goal_action (a :: rest) self = Some (Done tt, self') /\
         goal_status (current_goal_handle self') = ABORTED /\
         goal_result (current_goal_handle self') = Some res /\
         history self' =
           history self3 ++
           [Set_aborted (goal_id (current_goal_handle self3)) res;
            Log WARN unknown_result_text; Event_set]
   end) /\
  (forall n : nat,
   execute_goal_action (repeat Sample.paused_then_resumed n)
     (Sample.node false ACTIVE) = None /\
   exists self',
     execute_goal_action
       (repeat Sample.paused_then_resumed n ++
        [Sample.undisturbed (Returns SUCCESS "done")])
       (Sample.node false ACTIVE) = Some (Done tt, self') /\
     goal_status (current_goal_handle self') = SUCCEEDED /\
     List.length (filter is_executor_event (history self')) = S n).
Proof.
  split.
  - intros a rest self self1 self2 self3 res response canceled
      Hpre Hexec Hps Hre.
    assert (Hsame : current_goal_handle self2 = current_goal_handle self).
    { rewrite (execute_command_done a self1 self2 _ Hexec).
      destruct (cancel_due_to_pause_spec (arrivals_before a) self)
        as (b & s & evs & Heq & _ & _ & _ & _ & _ & Hb).
      rewrite Hpre in Heq. inversion Heq; subst. apply Hb. }
    assert (Hrec : if canceled
                   then goal_status (current_goal_handle self3) = CANCELED
                   else pause_finished_event self3 = true /\
                        pause_state self3 <> CANCEL /\
                        current_goal_handle self3 = current_goal_handle self2).
    { destruct (cancel_due_to_pause_spec (arrivals_after a) self2)
        as (b & s & evs & Heq & _ & _ & _ & _ & _ & Hb).
      rewrite Hre in Heq. inversion Heq; subst. exact Hb. }
    assert (Hbody : execute_goal_action_body a self =
                    (resumed <-
                       (if canceled then reset_pause_play_state ;;; ret false
                        else
                          match pause_state self3 with
                          | RESUME => log INFO resuming_text ;;; ret true
                          | _ =>
                              current_set_aborted res ;;;
                              log WARN unknown_result_text ;;; ret false
                          end) ;;
                     if resumed : bool then ret Resumed
                     else pause_finished_event_set ;;; ret Finished) self3).
    { unfold execute_goal_action_body.
      unfold bind at 1. rewrite Hpre.
      unfold bind at 1. rewrite Hexec.
      unfold bind at 1, get. rewrite Hps.
      unfold bind at 1 2. rewrite Hre.
      destruct canceled; [reflexivity|].
      unfold bind at 1. destruct (pause_state self3); reflexivity. }
    rewrite (execute_goal_action_cons a rest self), Hbody. clear Hbody.
    destruct canceled.
    + run. eexists. split; [reflexivity|]. simpl.
      repeat split; [exact Hrec | flatten_history; reflexivity].
    + destruct Hrec as (_ & Hnc & Hc3).
      destruct (pause_state self3); run.
      * eexists. split; [reflexivity|]. simpl.
        repeat split. flatten_history. reflexivity.
      * eexists. split; [reflexivity|]. simpl.
        repeat split. flatten_history. reflexivity.
      * split; [reflexivity | congruence].
      * congruence.
  - intros n. split.
    + apply (resume_cycles_go_on n (Sample.node false ACTIVE) Sample.move_joints);
        auto.
    + destruct (resume_cycles_then_success n (Sample.node false ACTIVE)
                  Sample.move_joints) as (self' & evs & He & Hs & Hh & Hn);
        auto.
      exists self'. split; [exact He|]. split; [exact Hs|].
      rewrite Hh. exact Hn.
Qed.

Lemma execute_goal_action_after_pause_witness :
  exists self3,
    pause_state self3 = RESUME /\
    execute_goal_action
      [Sample.paused_then_resumed; Sample.undisturbed (Returns SUCCESS "done")]
      (Sample.node false ACTIVE) =
    execute_goal_action [Sample.undisturbed (Returns SUCCESS "done")]
      (record (Log INFO resuming_text) self3).
Proof.
  pose (self1 := snd (cancel_due_to_pause [] (Sample.node false ACTIVE))).
  pose (self2 := snd (execute_command Sample.paused_then_resumed self1)).
  pose (self3 := snd (cancel_due_to_pause [Sample.resume_pressed] self2)).
  pose (res := create_result STOPPED "stopped").
  assert (H1 : cancel_due_to_pause (arrivals_before Sample.paused_then_resumed)
                 (Sample.node false ACTIVE) = (Done false, self1))
    by reflexivity.
  assert (H2 : execute_command Sample.paused_then_resumed self1 =
               (Done (res, Some res), self2)) by reflexivity.
  assert (H3 : pause_state self2 = PAUSE) by reflexivity.
  assert (H4 : cancel_due_to_pause (arrivals_after Sample.paused_then_resumed)
                 self2 = (Done false, self3)) by reflexivity.
  assert (H5 : pause_state self3 = RESUME) by reflexivity.
  pose proof (proj1 execute_goal_action_after_pause
                Sample.paused_then_resumed
                [Sample.undisturbed (Returns SUCCESS "done")]
                (Sample.node false ACTIVE) self1 self2 self3 res (Some res)
                false H1 H2 H3 H4) as H.
  rewrite H5 in H.
  exists self3. split; [exact H5 | exact (proj1 H)].
Defined.

(** A pass on a handle that carries a goal never raises: it returns or it
    resumes. *)
Lemma execute_goal_action_body_total (a : attempt) (self : RobotCommanderNode)
    (cmd : RobotCommand) :
  goal (current_goal_handle self) = Some cmd ->
  exists e self', execute_goal_action_body a self = (Done e, self').
Proof.
  intros Hg. unfold execute_goal_action_body.
  destruct (cancel_due_to_pause_spec (arrivals_before a) self)
    as (b & s1 & evs1 & Heq1 & _ & _ & Hg1 & _ & _ & _).
  unfold bind at 1. rewrite Heq1.
  destruct b; [run; eexists _, _; reflexivity|].
  destruct (execute_command_spec a s1 cmd) as
    (res & response & s2 & evs2 & Heq2 & _ & _ & _); [congruence|].
  unfold bind at 1. rewrite Heq2.
  unfold bind at 1, get.
  destruct (pause_state s2);
    try (simpl; destruct response as [r|]; [destruct (status r)|]; run;
         eexists _, _; reflexivity).
  destruct (cancel_due_to_pause_spec (arrivals_after a) s2)
    as (b & s3 & evs3 & Heq3 & _).
  unfold bind at 1 2. rewrite Heq3.
  destruct b; [run; eexists _, _; reflexivity|].
  run. destruct (pause_state s3); simpl; eexists _, _; reflexivity.
Qed.

(** ** The model on concrete runs *)

(** The scenario of section 8 of the specification: hardware ready,
    learning mode on, a move by joints; the service disengages learning
    mode, the goal becomes ACTIVE, the executor returns SUCCESS and the
    goal ends SUCCEEDED. *)
Example admitted_then_succeeded :
  let admitted :=
    callback_goal (Sample.calm (Service_response SUCCESS))
      (Sample.request "g1" Sample.move_joints) (Sample.node true SUCCEEDED) in
  option_map (fun out => goal_status (current_goal_handle (snd out)))
    (execute_goal_action [Sample.undisturbed (Returns SUCCESS "done")]
       (snd admitted)) = Some SUCCEEDED /\
  goal_status (current_goal_handle (snd admitted)) = ACTIVE /\
  goal_id (current_goal_handle (snd admitted)) = "g1".
Proof. vm_compute. repeat split. Qed.

(** A tool-only request under learning mode is accepted without a word
    to the learning mode service. *)
Example tool_only_request_skips_the_service :
  let out :=
    callback_goal (Sample.calm Service_timeout)
      (Sample.request "g1" Sample.open_gripper) (Sample.node true SUCCEEDED) in
  existsb is_service_event (history (snd out)) = false /\
  option_map cmd_type (goal (current_goal_handle (snd out))) = Some TOOL_ONLY /\
  goal_status (current_goal_handle (snd out)) = ACTIVE.
Proof. vm_compute. repeat split. Qed.

(** Cancel is pressed while the worker of a paused goal waits: the goal
    is CANCELED and the executor is not invoked. *)
Example cancel_pressed_while_paused :
  option_map
    (fun out =>
       (goal_status (current_goal_handle (snd out)),
        existsb is_executor_event (history (snd out)),
        pause_state (snd out)))
    (execute_goal_action
       [{| arrivals_before := [Sample.cancel_pressed];
           answer := Returns SUCCESS "done";
           arrivals_during := [];
           arrivals_after := [] |}]
       Sample.paused_node) = Some (CANCELED, false, STANDBY).
Proof. vm_compute. reflexivity. Qed.

(** Pause is pressed while the command runs and nothing follows within
    the timeout: the goal is CANCELED. *)
Example paused_past_the_timeout :
  option_map (fun out => goal_status (current_goal_handle (snd out)))
    (execute_goal_action
       [{| arrivals_before := [];
           answer := Returns STOPPED "stopped";
           arrivals_during := [Sample.pause_pressed];
           arrivals_after := [] |}]
       (Sample.node false ACTIVE)) = Some CANCELED.
Proof. vm_compute. reflexivity. Qed.

(** A command that is neither a move nor a tool command reaches no
    executor and ends ABORTED with UNKNOWN_COMMAND. *)
Example unknown_command_is_aborted :
  option_map
    (fun out =>
       (goal_status (current_goal_handle (snd out)),
        option_map status (goal_result (current_goal_handle (snd out))),
        existsb is_executor_event (history (snd out))))
    (execute_goal_action [Sample.undisturbed (Returns SUCCESS "done")]
       (Sample.node_holding
          {| cmd_type := OTHER_COMMAND; arm_cmd_type := JOINTS |})) =
    Some (ABORTED, Some UNKNOWN_COMMAND, false).
Proof. vm_compute. reflexivity. Qed.

(** An exception of the executor ends the goal ABORTED with the status
    and the message of the exception. *)
Example executor_exception_is_aborted :
  option_map
    (fun out =>
       (goal_status (current_goal_handle (snd out)),
        goal_result (current_goal_handle (snd out))))
    (execute_goal_action [Sample.undisturbed (Raises CONTROLLER_PROBLEMS "collision")]
       (Sample.node false ACTIVE)) =
    Some (ABORTED, Some (create_result CONTROLLER_PROBLEMS "collision")).
Proof. vm_compute. reflexivity. Qed.

(** * More of the node *)

(** ** What happens while the worker is blocked *)

Lemma pause_callback_events_only (evs : list event) :
  forallb is_pause_callback_event evs = true ->
  filter is_final_event evs = [] /\
  existsb is_executor_event evs = false.
Proof.
  induction evs as [|e evs IH]; simpl; intros H; [split; reflexivity|].
  apply andb_true_iff in H. destruct H as [He Hev].
  destruct (IH Hev) as [H1 H2]. rewrite H1, H2.
  destruct e; try discriminate He; split; reflexivity.
Qed.

(** A delivered pause message assigns nothing but the pause state and
    the gate, and does nothing that its callback does not do. *)
Lemma deliver_settings (a : arrival) (self : RobotCommanderNode) :
  same_settings self (deliver a self) /\
  current_goal_handle (deliver a self) = current_goal_handle self /\
  gate_follows_pause_state (deliver a self) /\
  exists evs,
    history (deliver a self) = history self ++ evs /\
    forallb is_pause_callback_event evs = true.
Proof.
  unfold deliver, callback_pause_movement, same_settings,
    gate_follows_pause_state.
  destruct (arrived_state a); run;
    try (destruct (arm_stop_current_plan (arrived_commanders a)); simpl;
         [destruct (tool_stop_tool_command (arrived_commanders a)); simpl|]);
    repeat split; try discriminate;
    eexists; (split; [flatten_history; reflexivity|]); reflexivity.
Qed.

Lemma same_settings_trans (a b c : RobotCommanderNode) :
  same_settings a b -> same_settings b c -> same_settings a c.
Proof.
  unfold same_settings. intros (H1 & H2 & H3 & H4) (K1 & K2 & K3 & K4).
  repeat split; congruence.
Qed.

Lemma same_settings_refl (a : RobotCommanderNode) : same_settings a a.
Proof. unfold same_settings. repeat split. Qed.

Lemma deliver_all_settings (l : list arrival) :
  forall self : RobotCommanderNode,
  exists self' evs,
    deliver_all l self = (Done tt, self') /\
    same_settings self self' /\
    current_goal_handle self' = current_goal_handle self /\
    history self' = history self ++ evs /\
    forallb is_pause_callback_event evs = true.
Proof.
  unfold deliver_all.
  induction l as [|a l IH]; intros self; simpl.
  - exists self, []. rewrite app_nil_r. repeat split.
  - destruct (IH (deliver a self)) as (self' & evs & Heq & Hs & Hc & Hh & He).
    destruct (deliver_settings a self) as (Hs0 & Hc0 & _ & evs0 & Hh0 & He0).
    exists self', (evs0 ++ evs).
    inversion Heq as [Hn]. rewrite Hn.
    split; [reflexivity|].
    split; [exact (same_settings_trans _ _ _ Hs0 Hs)|].
    split; [congruence|].
    split; [rewrite Hh, Hh0; flatten_history; reflexivity|].
    rewrite forallb_app, He0, He. reflexivity.
Qed.

Lemma wait_loop_settings (arrivals : list arrival) :
  forall self : RobotCommanderNode,
  exists b self' evs,
    wait_loop arrivals self = (Done b, self') /\
    pause_finished_event self' = b /\
    same_settings self self' /\
    current_goal_handle self' = current_goal_handle self /\
    history self' = history self ++ evs /\
    forallb is_pause_callback_event evs = true.
Proof.
  induction arrivals as [|a l IH]; intros self; simpl.
  - destruct (pause_finished_event self) eqn:Hp;
      eexists _, self, []; rewrite app_nil_r;
      repeat split; assumption.
  - destruct (pause_finished_event self) eqn:Hp.
    + eexists _, self, []. rewrite app_nil_r.
      repeat split; assumption.
    + destruct (IH (deliver a self))
        as (b & self' & evs & Heq & Hb & Hs & Hc & Hh & He).
      destruct (deliver_settings a self) as (Hs0 & Hc0 & _ & evs0 & Hh0 & He0).
      exists b, self', (evs0 ++ evs).
      split; [exact Heq|]. split; [exact Hb|].
      split; [exact (same_settings_trans _ _ _ Hs0 Hs)|].
      split; [congruence|].
      split; [rewrite Hh, Hh0; flatten_history; reflexivity|].
      rewrite forallb_app, He0, He. reflexivity.
Qed.

(** The pre-check in full: what it answers, what it leaves alone, and
    that it finalizes the goal exactly when it answers [true]. *)
Lemma cancel_due_to_pause_full (arrivals : list arrival)
    (self : RobotCommanderNode) :
  exists b self' evs,
    cancel_due_to_pause arrivals self = (Done b, self') /\
    same_settings self self' /\
    goal (current_goal_handle self') = goal (current_goal_handle self) /\
    goal_id (current_goal_handle self') = goal_id (current_goal_handle self) /\
    history self' = history self ++ evs /\
    existsb is_executor_event evs = false /\
    if b then
      goal_status (current_goal_handle self') = CANCELED /\
      List.length (filter is_final_event evs) = 1
    else
      pause_finished_event self' = true /\
      pause_state self' <> CANCEL /\
      current_goal_handle self' = current_goal_handle self /\
      filter is_final_event evs = [].
Proof.
  unfold cancel_due_to_pause, pause_finished_event_wait. run.
  destruct (wait_loop_settings arrivals
              (record (Event_wait (pause_timeout self)) self))
    as (b & self1 & evs & Heq & Hb & Hs & Hc & Hh & He).
  destruct (pause_callback_events_only evs He) as [Hf Hx].
  unfold record in Heq. rewrite Heq.
  unfold same_settings in *. simpl in *.
  destruct Hs as (S1 & S2 & S3 & S4).
  destruct b; simpl.
  - destruct (pause_state self1) eqn:Hps; simpl;
      eexists _, _, _; (split; [reflexivity|]); simpl;
      rewrite ?Hc, Hh; simpl;
      (split; [repeat split; assumption|]);
      (split; [reflexivity|]); (split; [reflexivity|]);
      (split; [flatten_history; reflexivity|]);
      simpl; rewrite ?existsb_app, ?filter_app, ?Hx, ?Hf; simpl;
      repeat split; try assumption; try reflexivity; congruence.
  - eexists _, _, _. split; [reflexivity|]. simpl.
    rewrite ?Hc, Hh. simpl.
    split; [repeat split; assumption|].
    split; [reflexivity|]. split; [reflexivity|].
    split; [flatten_history; reflexivity|].
    simpl. rewrite ?existsb_app, ?filter_app, ?Hx, ?Hf. simpl.
    repeat split.
Qed.

(** ** The execution path, pass by pass *)

(** The [try] statement in full.  It lets no commander exception out;
    the exception it lets out is the [AttributeError] of a handle without
    a goal, raised before anything is done. *)
Lemma execute_command_full (a : attempt) (self : RobotCommanderNode) :
  exists r self' evs,
    execute_command a self = (r, self') /\
    same_settings self self' /\
    current_goal_handle self' = current_goal_handle self /\
    history self' = history self ++ evs /\
    filter is_final_event evs = [] /\
    match r with
    | Done _ => goal (current_goal_handle self) <> None
    | Raised e =>
        e = AttributeError /\
        goal (current_goal_handle self) = None /\
        evs = []
    end.
Proof.
  unfold execute_command, current_goal_cmd, interpret_and_execute_command,
    executor_result.
  unfold try_except, bind, get, emit, ret, raise, log.
  destruct (goal (current_goal_handle self)) as [cmd|] eqn:Hg.
  - cbv beta iota.
    destruct (cmd_type cmd);
      match goal with
      | |- context [deliver_all ?l ?s] =>
          destruct (deliver_all_settings l s) as (s1 & evs & Heq & Hs & Hc & Hh & He);
          rewrite Heq
      end;
      destruct (pause_callback_events_only evs He) as [Hf _];
      unfold same_settings in *; destruct Hs as (S1 & S2 & S3 & S4);
      destruct (answer a) as [s m|s m]; simpl in *;
      eexists _, _, _; (split; [reflexivity|]); simpl;
      rewrite ?Hc, Hh; simpl;
      (split; [repeat split; assumption|]);
      (split; [reflexivity|]);
      (split; [flatten_history; reflexivity|]);
      simpl; rewrite ?filter_app, ?Hf; simpl;
      (split; [reflexivity | discriminate]).
  - exists (Raised AttributeError), self, []. rewrite app_nil_r.
    repeat split.
Qed.

(** One pass in full.  Whatever the environment does, the pass ends with
    the gate clear and with the settings, the goal and its identifier as
    they were.  A pass that returns has given the goal a terminal status
    by exactly one call; a pass that resumes has left the handle alone; a
    pass that raises does so because the handle carries no goal, and has
    neither invoked the executor nor finalized anything. *)
Lemma execute_goal_action_body_full (a : attempt) (self : RobotCommanderNode) :
  exists r self' evs,
    execute_goal_action_body a self = (r, self') /\
    same_settings self self' /\
    pause_finished_event self' = true /\
    goal (current_goal_handle self') = goal (current_goal_handle self) /\
    goal_id (current_goal_handle self') = goal_id (current_goal_handle self) /\
    history self' = history self ++ evs /\
    match r with
    | Done Finished =>
        is_terminal_status (goal_status (current_goal_handle self')) = true /\
        List.length (filter is_final_event evs) = 1
    | Done Resumed =>
        current_goal_handle self' = current_goal_handle self /\
        goal (current_goal_handle self) <> None /\
        filter is_final_event evs = []
    | Raised e =>
        e = AttributeError /\
        goal (current_goal_handle self) = None /\
        current_goal_handle self' = current_goal_handle self /\
        filter is_final_event evs = [] /\
        existsb is_executor_event evs = false
    end.
Proof.
  unfold execute_goal_action_body.
  destruct (cancel_due_to_pause_full (arrivals_before a) self)
    as (b & s1 & evs1 & Heq1 & Hs1 & Hg1 & Hi1 & Hh1 & Hx1 & Hb1).
  unfold bind at 1. rewrite Heq1.
  destruct b.
  { destruct Hb1 as [Hst Hn]. unfold same_settings in *.
    destruct Hs1 as (S1 & S2 & S3 & S4). run.
    eexists _, _, _. split; [reflexivity|]. simpl.
    rewrite Hh1, Hst.
    split; [repeat split; assumption|].
    split; [reflexivity|]. split; [exact Hg1|]. split; [exact Hi1|].
    split; [flatten_history; reflexivity|].
    split; [reflexivity|].
    rewrite filter_app, List.length_app, Hn. reflexivity. }
  destruct Hb1 as (Hp1 & Hnc1 & Hc1 & Hf1).
  destruct (execute_command_full a s1)
    as (r2 & s2 & evs2 & Heq2 & Hs2 & Hc2 & Hh2 & Hf2 & Hr2).
  pose proof (same_settings_trans _ _ _ Hs1 Hs2) as Hs12.
  unfold bind at 1. rewrite Heq2.
  destruct r2 as [[res response]|e].
  2:{ destruct Hr2 as (-> & Hnone & ->).
      exists (Raised AttributeError), s2, evs1.
      split; [reflexivity|]. split; [exact Hs12|].
      assert (s2 = s1) as ->.
      { revert Heq2. unfold execute_command, current_goal_cmd, try_except,
          bind, get, raise. rewrite Hnone. intros H; inversion H; reflexivity. }
      split; [exact Hp1|]. split; [exact Hg1|]. split; [exact Hi1|].
      split; [exact Hh1|].
      repeat split; try assumption. congruence. }
  assert (Hgoal : goal (current_goal_handle self) <> None) by congruence.
  unfold bind at 1, get.
  destruct (pause_state s2) eqn:Hps2.
  1,3,4:
    (simpl; destruct response as [r|]; [destruct (status r)|]; run;
     unfold same_settings in *; destruct Hs12 as (S1 & S2 & S3 & S4);
     eexists _, _, _; (split; [reflexivity|]); simpl;
     rewrite Hc2, Hc1, Hh2, Hh1;
     (split; [repeat split; assumption|]);
     (split; [reflexivity|]); (split; [reflexivity|]);
     (split; [reflexivity|]);
     (split; [flatten_history; reflexivity|]);
     (split; [reflexivity|]);
     rewrite !filter_app, Hf1, Hf2; reflexivity).
  destruct (cancel_due_to_pause_full (arrivals_after a) s2)
    as (b & s3 & evs3 & Heq3 & Hs3 & Hg3 & Hi3 & Hh3 & Hx3 & Hb3).
  pose proof (same_settings_trans _ _ _ Hs12 Hs3) as Hs123.
  unfold same_settings in Hs123. destruct Hs123 as (S1 & S2 & S3 & S4).
  unfold bind at 1 2. rewrite Heq3.
  destruct b.
  - destruct Hb3 as [Hst Hn]. run.
    eexists _, _, _. split; [reflexivity|]. simpl.
    rewrite Hh3, Hh2, Hh1, Hst.
    split; [repeat split; assumption|].
    split; [reflexivity|]. split; [congruence|]. split; [congruence|].
    split; [flatten_history; reflexivity|].
    split; [reflexivity|].
    rewrite !filter_app, !List.length_app, Hf1, Hf2, Hn. reflexivity.
  - destruct Hb3 as (Hp3 & Hnc3 & Hc3 & Hf3). run.
    destruct (pause_state s3) eqn:Hps3; simpl;
      eexists _, _, _; (split; [reflexivity|]); simpl;
      rewrite ?Hc3, ?Hc2, ?Hc1, Hh3, Hh2, Hh1;
      (split; [repeat split; assumption|]);
      (split; [try exact Hp3; reflexivity|]);
      (split; [reflexivity|]); (split; [reflexivity|]);
      (split; [flatten_history; reflexivity|]);
      rewrite ?filter_app, ?List.length_app, ?Hf1, ?Hf2, ?Hf3; simpl;
      repeat split; try assumption; try reflexivity; congruence.
Qed.

(** ** Admission in full *)

(** The retry loop in full: it sleeps at most [n] times, 0.2 s each time,
    all [n] times unless it is left by [break], and it assigns no
    attribute. *)
Lemma still_active_loop_full (progress : nat -> option GoalStatus) (n : nat) :
  forall (i : nat) (self : RobotCommanderNode),
  current_goal_is_active self = true ->
  exists b self' evs k,
    still_active_loop progress n i self = (Done b, self') /\
    same_settings self self' /\
    pause_state self' = pause_state self /\
    pause_finished_event self' = pause_finished_event self /\
    goal_id (current_goal_handle self') = goal_id (current_goal_handle self) /\
    goal (current_goal_handle self') = goal (current_goal_handle self) /\
    history self' = history self ++ evs /\
    forallb retry_event evs = true /\
    filter is_sleep evs = repeat (Sleep_ms 200) k /\
    k <= n /\
    (if b then
       current_goal_is_active self' = false /\
       exists j, j < n /\ keeps_active (progress (i + j)) = false
     else k = n).
Proof.
  induction n as [|n IH]; intros i self Hact.
  - exists false, self, [], 0. simpl. rewrite app_nil_r.
    repeat split; lia.
  - rewrite still_active_loop_step.
    destruct (sleep_effect progress i
                (Log WARN
                   (retry_text (command_still_active_max_tries self - Z.of_nat i)))
                self Hact) as [Ha Hh].
    cbv zeta.
    match goal with
    | |- context [negb (current_goal_is_active ?s)] => set (s1 := s) in *
    end.
    assert (Hfr : same_settings self s1 /\
                  pause_state s1 = pause_state self /\
                  pause_finished_event s1 = pause_finished_event self /\
                  goal_id (current_goal_handle s1) =
                    goal_id (current_goal_handle self) /\
                  goal (current_goal_handle s1) = goal (current_goal_handle self)).
    { subst s1. unfold sleep, same_settings. run.
      destruct (progress i); simpl; repeat split. }
    destruct Hfr as (Hs & Hps & Hpe & Hid & Hg).
    destruct (current_goal_is_active s1) eqn:Hact1; simpl.
    + destruct (IH (S i) s1 Hact1)
        as (b & self' & evs & k & Heq & Hs' & Hps' & Hpe' & Hid' & Hg' & Hh'
            & Hev & Hsl & Hk & Hb).
      exists b, self',
        (Log WARN (retry_text (command_still_active_max_tries self - Z.of_nat i))
         :: Sleep_ms 200 :: evs), (S k).
      split; [exact Heq|].
      split; [exact (same_settings_trans _ _ _ Hs Hs')|].
      split; [congruence|]. split; [congruence|].
      split; [congruence|]. split; [congruence|].
      split; [rewrite Hh', Hh; flatten_history; reflexivity|].
      split; [exact Hev|].
      split; [simpl; rewrite Hsl; reflexivity|].
      split; [lia|].
      destruct b.
      * destruct Hb as [Hin (j & Hj & Hkj)]. split; [exact Hin|].
        exists (S j). split; [lia|].
        replace (i + S j) with (S i + j) by lia. exact Hkj.
      * lia.
    + exists true, s1,
        [Log WARN (retry_text (command_still_active_max_tries self - Z.of_nat i));
         Sleep_ms 200], 1.
      split; [reflexivity|]. split; [exact Hs|].
      split; [exact Hps|]. split; [exact Hpe|].
      split; [exact Hid|]. split; [exact Hg|].
      split; [exact Hh|]. split; [reflexivity|]. split; [reflexivity|].
      split; [lia|]. split; [exact Hact1|].
      exists 0. split; [lia|]. rewrite Nat.add_0_r.
      symmetry. exact Ha.
Qed.

(** The learning mode check and the installation, in full. *)
Lemma callback_goal_from_learning_mode_full (env : admission)
    (goal_handle : ServerGoalHandle) (self : RobotCommanderNode) :
  let out := callback_goal_from_learning_mode env goal_handle self in
  same_settings self (snd out) /\
  pause_state (snd out) = pause_state self /\
  pause_finished_event (snd out) = pause_finished_event self /\
  exists evs,
    history (snd out) = history self ++ evs /\
    filter is_sleep evs = [] /\
    admission_outcome env goal_handle self (snd out) (fst out) evs.
Proof.
  unfold callback_goal_from_learning_mode, goal_to_cmd_type,
    set_learning_mode, admission_outcome, learning_mode_lets_through,
    same_settings, accepted, rejected, rejection_statuses.
  run.
  destruct (learning_mode_on self) eqn:Hl; simpl;
    [destruct (goal goal_handle) as [cmd|] eqn:Hg; simpl;
     [destruct (cmd_type cmd) eqn:Hk; simpl;
      try (destruct (learning_mode_service env) as [| |[]] eqn:Hsv; simpl)|]|];
    (repeat split; try assumption);
    eexists;
    (split; [first [flatten_history; reflexivity | symmetry; apply app_nil_r]|]);
    (split; [reflexivity|]); simpl;
    first
      [ left; repeat split; tauto
      | right; left; eexists _, _; repeat split; simpl; tauto
      | right; right; repeat split; tauto ].
Qed.

Lemma filter_none {A : Type} (f : A -> bool) (l : list A) :
  existsb f l = false -> filter f l = [].
Proof.
  induction l as [|x l IH]; simpl; [reflexivity|].
  destruct (f x); simpl; [discriminate | exact IH].
Qed.

(** A request passes the readiness gate, or it is rejected there, in the
    same way whatever it asks for. *)
Lemma readiness_gate_decides (env : admission) (self : RobotCommanderNode) :
  passes_readiness env self \/
  exists st m,
    In st [HARDWARE_NOT_OK; CALIBRATION_NOT_DONE; JOG_CONTROLLER_ENABLED] /\
    forall goal_handle,
      callback_goal env goal_handle self =
        (Done (rejected goal_handle st m),
         record (Set_rejected (goal_id goal_handle) (create_result st m))
           (record (Log INFO received_goal_text) self)).
Proof.
  unfold passes_readiness.
  destruct (hardware_status self) as [hs|] eqn:Hhs.
  - destruct (connection_up hs) eqn:Hc;
      [destruct (calibration_needed hs) eqn:Hn;
       [|destruct (calibration_in_progress hs) eqn:Hp;
         [|destruct (jog_is_enabled env) eqn:Hj]]|].
    5:{ right. eexists _, _. split; [left; reflexivity|].
        intros goal_handle. unfold callback_goal, received_goal_text. run.
        rewrite Hhs, Hc. reflexivity. }
    4:{ left. exists hs. repeat split; assumption. }
    + right. eexists _, _. split; [right; left; reflexivity|].
      intros goal_handle. unfold callback_goal, received_goal_text. run.
      rewrite Hhs, Hc, Hn. reflexivity.
    + right. eexists _, _. split; [right; left; reflexivity|].
      intros goal_handle. unfold callback_goal, received_goal_text. run.
      rewrite Hhs, Hc, Hn, Hp. reflexivity.
    + right. eexists _, _. split; [right; right; left; reflexivity|].
      intros goal_handle. unfold callback_goal, received_goal_text. run.
      rewrite Hhs, Hc, Hn, Hp, Hj. reflexivity.
  - right. eexists _, _. split; [left; reflexivity|].
    intros goal_handle. unfold callback_goal, received_goal_text. run.
    rewrite Hhs. reflexivity.
Qed.

Lemma admission_outcome_after (env : admission) (goal_handle : ServerGoalHandle)
    (self s1 s' : RobotCommanderNode) (r : result ServerGoalHandle)
    (pre evs : list event) :
  learning_mode_on s1 = learning_mode_on self ->
  goal_id (current_goal_handle s1) = goal_id (current_goal_handle self) ->
  goal (current_goal_handle s1) = goal (current_goal_handle self) ->
  filter is_install_event pre = [] ->
  admission_outcome env goal_handle s1 s' r evs ->
  admission_outcome env goal_handle self s' r (pre ++ evs).
Proof.
  unfold admission_outcome, learning_mode_lets_through.
  intros Hl Hid Hg Hpre [H | [H | H]].
  - left. rewrite filter_app, Hpre, <- Hl. exact H.
  - right. left. destruct H as (st & m & Hr & Hin & Hev & Hi & Hgo & Hf).
    exists st, m. rewrite filter_app, Hpre, <- Hid, <- Hg.
    repeat split; try assumption. apply in_or_app. right. exact Hev.
  - right. right. rewrite filter_app, Hpre, <- Hid, <- Hg, <- Hl. exact H.
Qed.

(** Admission in full.  The call assigns no attribute but the current
    goal handle, sleeps at most the configured number of times, and ends
    in one of the three ways of [admission_outcome]; it accepts only a
    request that passes the readiness gate, and only when the current
    goal is not active or the worker has ended it during a sleep. *)
Lemma callback_goal_full (env : admission) (goal_handle : ServerGoalHandle)
    (self : RobotCommanderNode) :
  let out := callback_goal env goal_handle self in
  same_settings self (snd out) /\
  pause_state (snd out) = pause_state self /\
  pause_finished_event (snd out) = pause_finished_event self /\
  exists evs k,
    history (snd out) = history self ++ evs /\
    filter is_sleep evs = repeat (Sleep_ms 200) k /\
    k <= Z.to_nat (command_still_active_max_tries self) /\
    (current_goal_is_active self = false -> k = 0) /\
    admission_outcome env goal_handle self (snd out) (fst out) evs /\
    (fst out = Done (accepted goal_handle) ->
     passes_readiness env self /\
     (current_goal_is_active self = false \/
      exists j,
        j < Z.to_nat (command_still_active_max_tries self) /\
        keeps_active (worker_progress env j) = false)).
Proof.
  cbv zeta.
  destruct (readiness_gate_decides env self) as [Hready | (st & m & Hin & Heq)].
  - rewrite (callback_goal_past_gate env goal_handle self Hready). cbv zeta.
    set (s0 := record (Log INFO received_goal_text) self).
    destruct (current_goal_is_active self) eqn:Hact.
    + destruct (still_active_loop_full (worker_progress env)
                  (Z.to_nat (command_still_active_max_tries self)) 0 s0 Hact)
        as (b & s1 & evs & k & Hloop & Hs & Hps & Hpe & Hid & Hg & Hh & Hev
            & Hsl & Hk & Hb).
      rewrite Hloop.
      destruct (retry_events_only evs Hev) as [_ Hni].
      apply filter_none in Hni.
      destruct b.
      * destruct (callback_goal_from_learning_mode_full env goal_handle s1)
          as (Hs' & Hps' & Hpe' & evs1 & Hh1 & Hsl1 & Hout).
        split; [exact (same_settings_trans self s1 _ Hs Hs')|].
        split; [rewrite Hps'; exact Hps|].
        split; [rewrite Hpe'; exact Hpe|].
        exists (Log INFO received_goal_text :: evs ++ evs1), k.
        split; [rewrite Hh1, Hh; subst s0; simpl; flatten_history; reflexivity|].
        split; [simpl; rewrite filter_app, Hsl, Hsl1; apply app_nil_r|].
        split; [exact Hk|]. split; [discriminate|].
        split.
        { apply (admission_outcome_after env goal_handle self s1 _ _
                   (Log INFO received_goal_text :: evs) evs1);
            try assumption.
          destruct Hs as (Hl & _). exact Hl. }
        intros _. split; [exact Hready|]. right.
        destruct Hb as [_ (j & Hj & Hkj)]. exists j. split; assumption.
      * simpl.
        split; [exact Hs|]. split; [exact Hps|]. split; [exact Hpe|].
        exists (Log INFO received_goal_text :: evs ++
                [Set_rejected (goal_id goal_handle)
                   (create_result GOAL_STILL_ACTIVE still_active_text)]), k.
        split; [rewrite Hh; subst s0; simpl; flatten_history; reflexivity|].
        split; [simpl; rewrite filter_app, Hsl; apply app_nil_r|].
        split; [exact Hk|]. split; [discriminate|].
        split.
        { right. left. exists GOAL_STILL_ACTIVE, still_active_text.
          split; [reflexivity|].
          split; [simpl; tauto|].
          split; [right; apply in_or_app; right; left; reflexivity|].
          split; [exact Hid|]. split; [exact Hg|].
          simpl. rewrite filter_app, Hni. reflexivity. }
        unfold rejected, accepted, with_status. intros H. inversion H.
    + destruct (callback_goal_from_learning_mode_full env goal_handle s0)
        as (Hs' & Hps' & Hpe' & evs1 & Hh1 & Hsl1 & Hout).
      split; [exact Hs'|]. split; [exact Hps'|]. split; [exact Hpe'|].
      exists (Log INFO received_goal_text :: evs1), 0.
      split; [rewrite Hh1; subst s0; simpl; flatten_history; reflexivity|].
      split; [simpl; exact Hsl1|].
      split; [lia|]. split; [reflexivity|].
      split.
      { apply (admission_outcome_after env goal_handle self s0 _ _
                 [Log INFO received_goal_text] evs1); try reflexivity.
        exact Hout. }
      intros _. split; [exact Hready|]. left. reflexivity.
  - rewrite (Heq goal_handle). simpl.
    split; [repeat split|]. split; [reflexivity|]. split; [reflexivity|].
    exists [Log INFO received_goal_text;
            Set_rejected (goal_id goal_handle) (create_result st m)], 0.
    split; [flatten_history; reflexivity|].
    split; [reflexivity|]. split; [lia|]. split; [reflexivity|].
    split.
    { right. left. exists st, m. split; [reflexivity|].
      split; [unfold rejection_statuses; simpl in *; tauto|].
      repeat split. right. left. reflexivity. }
    unfold rejected, accepted, with_status. intros H. inversion H.
Qed.

(** ** The execution path, run by run *)

(** A whole run of the execution path that ends. *)
Lemma execute_goal_action_full (attempts : list attempt) :
  forall (self self' : RobotCommanderNode) (r : result unit),
  execute_goal_action attempts self = Some (r, self') ->
  same_settings self self' /\
  pause_finished_event self' = true /\
  goal (current_goal_handle self') = goal (current_goal_handle self) /\
  goal_id (current_goal_handle self') = goal_id (current_goal_handle self) /\
  exists evs,
    history self' = history self ++ evs /\
    match r with
    | Done _ =>
        is_terminal_status (goal_status (current_goal_handle self')) = true /\
        List.length (filter is_final_event evs) = 1
    | Raised e =>
        e = AttributeError /\
        goal (current_goal_handle self) = None /\
        current_goal_handle self' = current_goal_handle self /\
        filter is_final_event evs = [] /\
        existsb is_executor_event evs = false
    end.
Proof.
  induction attempts as [|a rest IH]; intros self self' r; [discriminate|].
  rewrite execute_goal_action_cons.
  destruct (execute_goal_action_body_full a self)
    as (r0 & s1 & evs1 & Heq & Hs & Hp & Hg & Hi & Hh & Hr).
  rewrite Heq.
  destruct r0 as [[|]|e].
  - intros H. inversion H; subst.
    repeat (split; [assumption|]). exists evs1. split; assumption.
  - intros H. destruct Hr as (Hc & Hsome & Hf).
    destruct (IH s1 self' r H) as (Hs' & Hp' & Hg' & Hi' & evs & Hh' & Hr').
    split; [exact (same_settings_trans _ _ _ Hs Hs')|].
    split; [exact Hp'|]. split; [congruence|]. split; [congruence|].
    exists (evs1 ++ evs).
    split; [rewrite Hh', Hh; flatten_history; reflexivity|].
    destruct r as [u|e].
    + destruct Hr' as [Ht Hn]. split; [exact Ht|].
      rewrite filter_app, List.length_app, Hf, Hn. reflexivity.
    + destruct Hr' as (_ & Hnone & _). rewrite Hc in Hnone. contradiction.
  - intros H. inversion H; subst.
    repeat (split; [assumption|]). exists evs1. split; assumption.
Qed.

Lemma terminal_is_not_active (self : RobotCommanderNode) :
  is_terminal_status (goal_status (current_goal_handle self)) = true ->
  current_goal_is_active self = false.
Proof.
  unfold current_goal_is_active.
  destruct (goal (current_goal_handle self)); [|reflexivity].
  destruct (goal_status (current_goal_handle self)); simpl;
    congruence.
Qed.

(** X1. Whenever the execution path returns, the current goal has a
    terminal status (SUCCEEDED, ABORTED or CANCELED), so that the goal is
    no longer active: the liveness service answers [False] and the
    liveness publisher hands [False] to its topic, whether or not the
    publication succeeds. *)
Theorem execute_goal_action_ends_the_goal (attempts : list attempt)
    (self self' : RobotCommanderNode) :
  execute_goal_action attempts self = Some (Done tt, self') ->
  is_terminal_status (goal_status (current_goal_handle self')) = true /\
  callback_is_active self' = (Done false, self') /\
  forall p, publish_is_active p self' = (Done false, self').
Proof.
  intros H.
  destruct (execute_goal_action_full attempts self self' _ H)
    as (_ & _ & _ & _ & evs & _ & Ht & _).
  pose proof (terminal_is_not_active self' Ht) as Hin.
  split; [exact Ht|].
  unfold callback_is_active, publish_is_active. run. rewrite Hin.
  split; [reflexivity|]. intros [|]; reflexivity.
Qed.

Lemma execute_goal_action_ends_the_goal_witness :
  exists self',
    execute_goal_action [Sample.undisturbed (Raises CONTROLLER_PROBLEMS "collision")]
      (Sample.node false ACTIVE) = Some (Done tt, self') /\
    callback_is_active self' = (Done false, self').
Proof.
  assert (E : exists s,
            execute_goal_action
              [Sample.undisturbed (Raises CONTROLLER_PROBLEMS "collision")]
              (Sample.node false ACTIVE) = Some (Done tt, s))
    by (eexists; vm_compute; reflexivity).
  destruct E as [s E]. exists s. split; [exact E|].
  exact (proj1 (proj2 (execute_goal_action_ends_the_goal _ _ _ E))).
Defined.

(** X2. A run of the execution path that returns gives the goal its
    terminal status by exactly one call of [set_succeeded], [set_aborted]
    or [set_canceled], however many times it was paused and resumed, and
    it leaves the goal of the handle, its identifier and the settings of
    the node as they were. *)
Theorem execute_goal_action_finalizes_once (attempts : list attempt)
    (self self' : RobotCommanderNode) :
  execute_goal_action attempts self = Some (Done tt, self') ->
  same_settings self self' /\
  goal (current_goal_handle self') = goal (current_goal_handle self) /\
  goal_id (current_goal_handle self') = goal_id (current_goal_handle self) /\
  exists evs,
    history self' = history self ++ evs /\
    List.length (filter is_final_event evs) = 1.
Proof.
  intros H.
  destruct (execute_goal_action_full attempts self self' _ H)
    as (Hs & _ & Hg & Hi & evs & Hh & _ & Hn).
  repeat (split; [assumption|]). exists evs. split; assumption.
Qed.

Lemma execute_goal_action_finalizes_once_witness :
  exists self' evs,
    execute_goal_action
      [Sample.paused_then_resumed; Sample.paused_then_resumed;
       Sample.undisturbed (Returns SUCCESS "done")]
      (Sample.node false ACTIVE) = Some (Done tt, self') /\
    history self' = history (Sample.node false ACTIVE) ++ evs /\
    List.length (filter is_final_event evs) = 1.
Proof.
  assert (E : exists s,
            execute_goal_action
              [Sample.paused_then_resumed; Sample.paused_then_resumed;
               Sample.undisturbed (Returns SUCCESS "done")]
              (Sample.node false ACTIVE) = Some (Done tt, s))
    by (eexists; vm_compute; reflexivity).
  destruct E as [s E].
  destruct (execute_goal_action_finalizes_once _ _ _ E)
    as (_ & _ & _ & evs & Hh & Hn).
  exists s, evs. repeat split; assumption.
Defined.



(** ** Admission *)

(** X4. Admission accepts a request only when the readiness gate is
    passed, learning mode does not stand in the way, and the current goal
    is not active or the worker has ended it during one of the sleeps of
    the retry loop.  It then installs the handle of the request as the
    current goal, ACTIVE, and starts one worker thread. *)
Theorem callback_goal_accepts_only_when_ready (env : admission)
    (goal_handle h : ServerGoalHandle) (self : RobotCommanderNode) :
  let out := callback_goal env goal_handle self in
  fst out = Done h ->
  goal_status h = ACTIVE ->
  passes_readiness env self /\
  learning_mode_lets_through env goal_handle self /\
  (current_goal_is_active self = false \/
   exists j,
     j < Z.to_nat (command_still_active_max_tries self) /\
     keeps_active (worker_progress env j) = false) /\
  h = accepted goal_handle /\
  current_goal_handle (snd out) = h /\
  exists evs,
    history (snd out) = history self ++ evs /\
    filter is_install_event evs =
      [Assign_current_goal_handle (goal_id goal_handle);
       Set_accepted (goal_id goal_handle); Thread_start].
Proof.
  intros out Hh Hst. subst out.
  destruct (callback_goal_full env goal_handle self)
    as (_ & _ & _ & evs & k & Hhist & _ & _ & _ & Hout & Hacc).
  destruct Hout as [(Hr & Hc & Hl & Hf) | [(st & m & Hr & _) | (Hr & _)]].
  - destruct (Hacc Hr) as [Hready Hfree].
    rewrite Hr in Hh. inversion Hh; subst h.
    repeat (split; [assumption|]). split; [reflexivity|].
    split; [exact Hc|]. exists evs. split; assumption.
  - rewrite Hr in Hh. inversion Hh; subst h. discriminate Hst.
  - rewrite Hr in Hh. discriminate Hh.
Qed.

Lemma callback_goal_accepts_only_when_ready_witness :
  passes_readiness (Sample.finishing_at 1) (Sample.node false ACTIVE) /\
  current_goal_handle
    (snd (callback_goal (Sample.finishing_at 1)
            (Sample.request "g1" Sample.move_joints)
            (Sample.node false ACTIVE))) =
    accepted (Sample.request "g1" Sample.move_joints).
Proof.
  destruct (callback_goal_accepts_only_when_ready (Sample.finishing_at 1)
              (Sample.request "g1" Sample.move_joints)
              (accepted (Sample.request "g1" Sample.move_joints))
              (Sample.node false ACTIVE) eq_refl eq_refl)
    as (Hready & _ & _ & _ & Hc & _).
  split; [exact Hready | exact Hc].
Defined.

(** X5. A request that admission rejects is rejected with one of
    HARDWARE_NOT_OK, CALIBRATION_NOT_DONE, JOG_CONTROLLER_ENABLED,
    GOAL_STILL_ACTIVE and LEARNING_MODE_ON, by a call of [set_rejected]
    with the result the handle carries afterwards; the current goal slot
    keeps its goal and identifier, nothing is installed and no worker
    thread is started. *)
Theorem callback_goal_rejection_leaves_slot (env : admission)
    (goal_handle h : ServerGoalHandle) (self : RobotCommanderNode) :
  let out := callback_goal env goal_handle self in
  fst out = Done h ->
  goal_status h = REJECTED ->
  exists st m evs,
    h = rejected goal_handle st m /\
    In st rejection_statuses /\
    history (snd out) = history self ++ evs /\
    In (Set_rejected (goal_id goal_handle) (create_result st m)) evs /\
    filter is_install_event evs = [] /\
    goal_id (current_goal_handle (snd out)) = goal_id (current_goal_handle self) /\
    goal (current_goal_handle (snd out)) = goal (current_goal_handle self).
Proof.
  intros out Hh Hst. subst out.
  destruct (callback_goal_full env goal_handle self)
    as (_ & _ & _ & evs & k & Hhist & _ & _ & _ & Hout & _).
  destruct Hout as [(Hr & _) | [(st & m & Hr & Hin & Hev & Hi & Hg & Hf) | (Hr & _)]].
  - rewrite Hr in Hh. inversion Hh; subst h. discriminate Hst.
  - rewrite Hr in Hh. inversion Hh; subst h.
    exists st, m, evs. repeat split; assumption.
  - rewrite Hr in Hh. discriminate Hh.
Qed.

Lemma callback_goal_rejection_leaves_slot_witness :
  goal_id
    (current_goal_handle
       (snd (callback_goal (Sample.calm Service_failure)
               (Sample.request "g1" Sample.move_joints)
               (Sample.node true SUCCEEDED)))) = "g0".
Proof.
  destruct (callback_goal_rejection_leaves_slot (Sample.calm Service_failure)
              (Sample.request "g1" Sample.move_joints)
              (rejected (Sample.request "g1" Sample.move_joints)
                 LEARNING_MODE_ON learning_mode_text)
              (Sample.node true SUCCEEDED) eq_refl eq_refl)
    as (st & m & evs & _ & _ & _ & _ & _ & Hid & _).
  exact Hid.
Defined.

(** X6. Admission sleeps only in the retry loop: never when the current
    goal is not active, never more often than the configured number of
    tries, and each time for 0.2 s.  With a number of tries of zero or
    less it does not sleep at all, and a request that passes the
    readiness gate while a goal is active is rejected with
    GOAL_STILL_ACTIVE at once. *)
Theorem callback_goal_sleeps_at_most_max_tries (env : admission)
    (goal_handle : ServerGoalHandle) (self : RobotCommanderNode) :
  let out := callback_goal env goal_handle self in
  (exists evs k,
     history (snd out) = history self ++ evs /\
     filter is_sleep evs = repeat (Sleep_ms 200) k /\
     k <= Z.to_nat (command_still_active_max_tries self) /\
     (current_goal_is_active self = false -> k = 0) /\
     ((command_still_active_max_tries self <= 0)%Z -> k = 0)) /\
  ((command_still_active_max_tries self <= 0)%Z ->
   passes_readiness env self ->
   current_goal_is_active self = true ->
   fst out = Done (rejected goal_handle GOAL_STILL_ACTIVE still_active_text)).
Proof.
  intros out. subst out. split.
  - destruct (callback_goal_full env goal_handle self)
      as (_ & _ & _ & evs & k & Hhist & Hsl & Hk & Hz & _).
    exists evs, k. repeat (split; [assumption|]).
    intros Hle. lia.
  - intros Hle Hready Hact.
    rewrite (callback_goal_past_gate env goal_handle self Hready). cbv zeta.
    rewrite Hact.
    replace (Z.to_nat (command_still_active_max_tries self)) with 0 by lia.
    reflexivity.
Qed.

Lemma callback_goal_sleeps_at_most_max_tries_witness :
  fst (callback_goal (Sample.calm Service_timeout)
         (Sample.request "g1" Sample.move_joints)
         {| learning_mode_on := false;
            hardware_status := Some Sample.hardware_ok;
            pause_state := STANDBY;
            pause_finished_event := true;
            pause_timeout := 30;
            current_goal_handle := Sample.request "g0" Sample.move_joints;
            command_still_active_max_tries := 0;
            history := [] |}) =
    Done (rejected (Sample.request "g1" Sample.move_joints)
            GOAL_STILL_ACTIVE still_active_text).
Proof.
  apply (callback_goal_sleeps_at_most_max_tries (Sample.calm Service_timeout)
           (Sample.request "g1" Sample.move_joints)).
  - simpl. lia.
  - exists Sample.hardware_ok. repeat split.
  - reflexivity.
Defined.


Lemma still_active_loop_view (progress : nat -> option GoalStatus) (n : nat) :
  forall (i : nat) (self self' : RobotCommanderNode),
  admission_view self self' ->
  exists b s1 s1',
    still_active_loop progress n i self = (Done b, s1) /\
    still_active_loop progress n i self' = (Done b, s1') /\
    admission_view s1 s1'.
Proof.
  induction n as [|n IH]; intros i self self' Hv.
  - exists false, self, self'. repeat split; apply Hv.
  - rewrite !still_active_loop_step. cbv zeta.
    set (s1 := snd (sleep progress i
                      (record (Log WARN (retry_text
                         (command_still_active_max_tries self - Z.of_nat i)))
                         self))).
    set (s1' := snd (sleep progress i
                       (record (Log WARN (retry_text
                          (command_still_active_max_tries self' - Z.of_nat i)))
                          self'))).
    assert (Hv1 : admission_view s1 s1').
    { subst s1 s1'. unfold admission_view, sleep in *. run.
      destruct Hv as (H1 & H2 & H3 & H4).
      destruct (progress i); simpl; rewrite ?H3; repeat split; assumption. }
    assert (Ha : current_goal_is_active s1 = current_goal_is_active s1').
    { unfold current_goal_is_active. destruct Hv1 as (_ & _ & -> & _).
      reflexivity. }
    rewrite <- Ha.
    destruct (current_goal_is_active s1); simpl.
    + apply IH. exact Hv1.
    + exists true, s1, s1'. repeat split; apply Hv1.
Qed.

(** X8. What admission decides depends on the learning mode flag, the
    hardware status, the current goal handle, the number of tries and the
    answers of the environment, and on nothing else: not on the pause
    state, not on the gate, not on the pause timeout.  A request is
    answered in the same way, and leaves the same current goal, whether
    or not pause has been pressed before. *)
Theorem callback_goal_ignores_pause (env : admission)
    (goal_handle : ServerGoalHandle) (self self' : RobotCommanderNode) :
  admission_view self self' ->
  fst (callback_goal env goal_handle self) =
    fst (callback_goal env goal_handle self') /\
  current_goal_handle (snd (callback_goal env goal_handle self)) =
    current_goal_handle (snd (callback_goal env goal_handle self')).
Proof.
  intros Hv.
  assert (Hfrom : forall s s', admission_view s s' ->
            fst (callback_goal_from_learning_mode env goal_handle s) =
              fst (callback_goal_from_learning_mode env goal_handle s') /\
            current_goal_handle
              (snd (callback_goal_from_learning_mode env goal_handle s)) =
            current_goal_handle
              (snd (callback_goal_from_learning_mode env goal_handle s'))).
  { intros s s' (H1 & H2 & H3 & H4).
    unfold callback_goal_from_learning_mode, goal_to_cmd_type,
      set_learning_mode.
    run. rewrite <- H1.
    destruct (learning_mode_on s); simpl;
      [destruct (goal goal_handle) as [cmd|]; simpl;
       [destruct (cmd_type cmd); simpl;
        try (destruct (learning_mode_service env) as [| |[]]; simpl)|]|];
      split; try reflexivity; exact H3. }
  assert (Hgate :
            hardware_status self' = hardware_status self ->
            (forall hs, hardware_status self = Some hs ->
               connection_up hs && negb (calibration_needed hs) &&
               negb (calibration_in_progress hs) &&
               negb (jog_is_enabled env) = false) ->
            fst (callback_goal env goal_handle self) =
              fst (callback_goal env goal_handle self') /\
            current_goal_handle (snd (callback_goal env goal_handle self)) =
              current_goal_handle self /\
            current_goal_handle (snd (callback_goal env goal_handle self')) =
              current_goal_handle self').
  { intros Hhs Hfail. unfold callback_goal. run. rewrite Hhs.
    destruct (hardware_status self) as [hs|]; [|repeat split].
    specialize (Hfail hs eq_refl).
    destruct (connection_up hs); simpl; [|repeat split].
    destruct (calibration_needed hs); simpl; [repeat split|].
    destruct (calibration_in_progress hs); simpl; [repeat split|].
    destruct (jog_is_enabled env); simpl; [repeat split|].
    discriminate Hfail. }
  destruct (hardware_status self) as [hs|] eqn:Hhs1.
  2:{ destruct Hv as (_ & Hhs & Hc & _).
      destruct Hgate as (H1 & H2 & H3); [congruence | |].
      - intros hs Hs. try rewrite Hhs1 in Hs. discriminate Hs.
      - split; [exact H1 | congruence]. }
  destruct (connection_up hs && negb (calibration_needed hs) &&
            negb (calibration_in_progress hs) && negb (jog_is_enabled env))
    eqn:Eb.
  2:{ destruct Hv as (_ & Hhs & Hc & _).
      destruct Hgate as (H1 & H2 & H3); [congruence | |].
      - intros hs0 Hs. try rewrite Hhs1 in Hs. inversion Hs; subst. exact Eb.
      - split; [exact H1 | congruence]. }
  apply andb_true_iff in Eb. destruct Eb as [Eb E4].
  apply andb_true_iff in Eb. destruct Eb as [Eb E3].
  apply andb_true_iff in Eb. destruct Eb as [E1 E2].
  apply negb_true_iff in E2, E3, E4.
  assert (Hready : passes_readiness env self).
  { exists hs. repeat split; assumption. }
  assert (Hready' : passes_readiness env self').
  { exists hs. destruct Hv as (_ & <- & _). repeat split; assumption. }
  rewrite (callback_goal_past_gate env goal_handle self Hready).
  rewrite (callback_goal_past_gate env goal_handle self' Hready').
  cbv zeta.
  assert (Hv0 : admission_view (record (Log INFO received_goal_text) self)
                  (record (Log INFO received_goal_text) self')) by exact Hv.
  assert (Ha : current_goal_is_active self = current_goal_is_active self').
  { unfold current_goal_is_active. destruct Hv as (_ & _ & -> & _).
    reflexivity. }
  destruct Hv as (_ & _ & Hc & Hm).
  rewrite <- Ha, <- Hm.
  destruct (current_goal_is_active self); [|apply Hfrom; exact Hv0].
  destruct (still_active_loop_view (worker_progress env)
              (Z.to_nat (command_still_active_max_tries self)) 0 _ _ Hv0)
    as (b & s1 & s1' & H1 & H1' & Hv1).
  rewrite H1, H1'.
  destruct b; [apply Hfrom; exact Hv1|].
  simpl. split; [reflexivity | apply Hv1].
Qed.

Lemma callback_goal_ignores_pause_witness :
  fst (callback_goal (Sample.calm Service_timeout)
         (Sample.request "g1" Sample.move_joints) (Sample.node false SUCCEEDED)) =
  fst (callback_goal (Sample.calm Service_timeout)
         (Sample.request "g1" Sample.move_joints)
         (snd (callback_pause_movement Sample.quiet PAUSE
                 (Sample.node false SUCCEEDED)))).
Proof.
  apply (callback_goal_ignores_pause (Sample.calm Service_timeout)
           (Sample.request "g1" Sample.move_joints)
           (Sample.node false SUCCEEDED)
           (snd (callback_pause_movement Sample.quiet PAUSE
                   (Sample.node false SUCCEEDED)))).
  repeat split.
Defined.



(** ** What every callback and every run keeps *)

Lemma callback_cancel_settings (c : Commanders) (goal_handle : ServerGoalHandle)
    (self : RobotCommanderNode) :
  same_settings self (snd (callback_cancel c goal_handle self)) /\
  pause_state (snd (callback_cancel c goal_handle self)) = pause_state self /\
  pause_finished_event (snd (callback_cancel c goal_handle self)) =
    pause_finished_event self /\
  current_goal_handle (snd (callback_cancel c goal_handle self)) =
    current_goal_handle self /\
  exists evs,
    history (snd (callback_cancel c goal_handle self)) = history self ++ evs.
Proof.
  unfold callback_cancel, same_settings. run.
  destruct (handle_eqb goal_handle (current_goal_handle self)); simpl;
    [destruct (arm_stop_current_plan c); simpl;
     [destruct (tool_stop_tool_command c); simpl|]|];
    repeat split; eexists; flatten_history; reflexivity.
Qed.

Lemma callback_stop_command_settings (c : Commanders)
    (self : RobotCommanderNode) :
  same_settings self (snd (callback_stop_command c self)) /\
  pause_state (snd (callback_stop_command c self)) = pause_state self /\
  pause_finished_event (snd (callback_stop_command c self)) =
    pause_finished_event self /\
  current_goal_handle (snd (callback_stop_command c self)) =
    current_goal_handle self /\
  exists evs,
    history (snd (callback_stop_command c self)) = history self ++ evs.
Proof.
  unfold callback_stop_command, same_settings. run.
  destruct (arm_stop_current_plan c); simpl;
    [destruct (tool_stop_tool_command c); simpl|];
    repeat split; eexists; flatten_history; reflexivity.
Qed.

(** X9. From the node as [__init__] leaves it, or from any node on which
    it holds, whatever callbacks are called and whatever runs of the
    execution path end, in any order and with any answers of the
    environment, the gate is blocked only while the recorded pause state
    is PAUSE. *)
Theorem gate_blocked_only_while_paused (self self' : RobotCommanderNode) :
  gate_follows_pause_state self ->
  evolves self self' ->
  gate_follows_pause_state self'.
Proof.
  intros Hinit Hev.
  induction Hev as [| s msg _ IH | s msg _ IH | s c _ IH | s _ IH
                    | s c msg _ IH | s env gh _ IH | s c gh _ IH
                    | s s' attempts r _ IH Hrun].
  - exact Hinit.
  - revert IH. unfold gate_follows_pause_state, callback_learning_mode. run.
    destruct (negb (learning_mode_on s) && msg); simpl; tauto.
  - exact IH.
  - destruct (callback_stop_command_settings c s) as (_ & Hp & Hg & _).
    unfold gate_follows_pause_state in *. rewrite Hp, Hg. exact IH.
  - exact IH.
  - exact (proj1 (proj2 (proj2
             (deliver_settings
                {| arrived_state := msg; arrived_commanders := c |} s)))).
  - destruct (callback_goal_full env gh s) as (_ & Hp & Hg & _).
    unfold gate_follows_pause_state in *. rewrite Hp, Hg. exact IH.
  - destruct (callback_cancel_settings c gh s) as (_ & Hp & Hg & _).
    unfold gate_follows_pause_state in *. rewrite Hp, Hg. exact IH.
  - destruct (execute_goal_action_full attempts s s' r Hrun) as (_ & Hg & _).
    unfold gate_follows_pause_state. rewrite Hg. discriminate.
Qed.

Lemma gate_blocked_only_while_paused_witness :
  gate_follows_pause_state
    (snd (callback_goal (Sample.calm Service_timeout)
            (Sample.request "g1" Sample.move_joints)
            (snd (callback_pause_movement Sample.quiet PAUSE (init 30 3))))).
Proof.
  apply (gate_blocked_only_while_paused (init 30 3)).
  - intros H. discriminate H.
  - apply evolves_goal. apply evolves_pause_movement. apply evolves_refl.
Defined.

Lemma evolves_step (P : RobotCommanderNode -> RobotCommanderNode -> Prop) :
  (forall s, P s s) ->
  (forall a b c, P a b -> P b c -> P a c) ->
  (forall s msg, P s (snd (callback_learning_mode msg s))) ->
  (forall s msg, P s (snd (callback_hardware_status msg s))) ->
  (forall s s', same_settings s s' ->
                (exists evs, history s' = history s ++ evs) -> P s s') ->
  forall self self', evolves self self' -> P self self'.
Proof.
  intros Hrefl Htrans Hlm Hhw Hsame self self' Hev.
  induction Hev as [| s msg _ IH | s msg _ IH | s c _ IH | s _ IH
                    | s c msg _ IH | s env gh _ IH | s c gh _ IH
                    | s s' attempts r _ IH Hrun].
  - apply Hrefl.
  - exact (Htrans _ _ _ IH (Hlm s msg)).
  - exact (Htrans _ _ _ IH (Hhw s msg)).
  - apply (Htrans _ _ _ IH). apply Hsame;
      apply (callback_stop_command_settings c s).
  - exact IH.
  - apply (Htrans _ _ _ IH).
    destruct (deliver_settings
                {| arrived_state := msg; arrived_commanders := c |} s)
      as (Hs & _ & _ & evs & Hh & _).
    apply Hsame; [exact Hs | exists evs; exact Hh].
  - apply (Htrans _ _ _ IH).
    destruct (callback_goal_full env gh s)
      as (Hs & _ & _ & evs & k & Hh & _).
    apply Hsame; [exact Hs | exists evs; exact Hh].
  - apply (Htrans _ _ _ IH). apply Hsame;
      apply (callback_cancel_settings c gh s).
  - apply (Htrans _ _ _ IH).
    destruct (execute_goal_action_full attempts s s' r Hrun)
      as (Hs & _ & _ & _ & evs & Hh & _).
    apply Hsame; [exact Hs | exists evs; exact Hh].
Qed.

(** X10. Whatever callbacks are called and whatever runs of the
    execution path end, the pause timeout and the number of tries stay as
    configured, a hardware status once received is never forgotten, and
    the history only grows. *)
Theorem settings_are_kept (self self' : RobotCommanderNode) :
  evolves self self' ->
  pause_timeout self' = pause_timeout self /\
  command_still_active_max_tries self' = command_still_active_max_tries self /\
  (hardware_status self <> None -> hardware_status self' <> None) /\
  exists evs, history self' = history self ++ evs.
Proof.
  apply (evolves_step
           (fun s s' =>
              pause_timeout s' = pause_timeout s /\
              command_still_active_max_tries s' =
                command_still_active_max_tries s /\
              (hardware_status s <> None -> hardware_status s' <> None) /\
              exists evs, history s' = history s ++ evs)).
  - intros s. repeat split; try tauto. exists []. symmetry. apply app_nil_r.
  - intros a b c (H1 & H2 & H3 & e1 & H4) (K1 & K2 & K3 & e2 & K4).
    repeat split; try congruence; try tauto.
    exists (e1 ++ e2). rewrite K4, H4. symmetry. apply app_assoc.
  - intros s msg. unfold callback_learning_mode. run.
    destruct (negb (learning_mode_on s) && msg); simpl;
      repeat split; try tauto; eexists; flatten_history; reflexivity.
  - intros s msg. unfold callback_hardware_status. run.
    repeat split; try discriminate. eexists. reflexivity.
  - intros s s' (H1 & H2 & H3 & H4) Hh.
    repeat split; try assumption. congruence.
Qed.

Lemma settings_are_kept_witness :
  pause_timeout
    (snd (callback_goal (Sample.calm Service_timeout)
            (Sample.request "g1" Sample.move_joints)
            (snd (callback_hardware_status Sample.hardware_ok (init 30 3))))) = 30%Z.
Proof.
  apply (settings_are_kept (init 30 3)).
  apply evolves_goal. apply evolves_hardware_status. apply evolves_refl.
Defined.

(** ** The stop service *)

(** X11. The stop service asks the arm to stop its plan and then, when
    that returned, the tool to stop its command.  It answers SUCCESS only
    when both returned; an exception of either commander is not caught
    and reaches the caller of the service, and after an exception of the
    arm the tool is not asked.  No attribute of the node is assigned. *)
Theorem callback_stop_command_lets_exceptions_out (c : Commanders)
    (self : RobotCommanderNode) :
  let out := callback_stop_command c self in
  same_settings self (snd out) /\
  pause_state (snd out) = pause_state self /\
  pause_finished_event (snd out) = pause_finished_event self /\
  current_goal_handle (snd out) = current_goal_handle self /\
  match arm_stop_current_plan c, tool_stop_tool_command c with
  | Stops, Stops =>
      fst out = Done (SUCCESS, "Command stopped") /\
      history (snd out) =
        history self ++ [Arm_stop_current_plan; Tool_stop_tool_command]
  | Stops, Stop_raises s m =>
      fst out = Raised (RobotCommanderException s m) /\
      history (snd out) =
        history self ++ [Arm_stop_current_plan; Tool_stop_tool_command]
  | Stop_raises s m, _ =>
      fst out = Raised (RobotCommanderException s m) /\
      history (snd out) = history self ++ [Arm_stop_current_plan]
  end.
Proof.
  unfold callback_stop_command, same_settings. run.
  destruct (arm_stop_current_plan c); simpl;
    [destruct (tool_stop_tool_command c); simpl|];
    repeat split; flatten_history; reflexivity.
Qed.

(** ** Sequences of pause and learning mode messages *)

Lemma deliver_all_last (l : list arrival) (a : arrival)
    (self : RobotCommanderNode) :
  exists self',
    deliver_all (l ++ [a]) self = (Done tt, self') /\
    pause_state self' = arrived_state a /\
    pause_finished_event self' =
      match arrived_state a with PAUSE => false | _ => true end /\
    current_goal_handle self' = current_goal_handle self.
Proof.
  destruct (deliver_all_settings (l ++ [a]) self)
    as (self' & evs & Heq & _ & Hc & _).
  exists self'. split; [exact Heq|].
  revert Heq. unfold deliver_all. rewrite fold_left_app. simpl.
  intros H. inversion H as [Hs].
  destruct (deliver_frame a (fold_left (fun s x => deliver x s) l self))
    as (Hp & Hg & _).
  rewrite Hp, Hg. repeat split. rewrite <- Hs in Hc. exact Hc.
Qed.

(** X12. Of a sequence of pause messages only the last one decides: after
    the sequence the recorded pause state is the state of the last
    message, and the gate is blocked exactly when that state is PAUSE,
    whatever the node was before and whatever the commanders answer. *)
Theorem last_pause_message_decides (l : list arrival) (a : arrival)
    (self : RobotCommanderNode) :
  exists self',
    deliver_all (l ++ [a]) self = (Done tt, self') /\
    pause_state self' = arrived_state a /\
    pause_finished_event self' =
      match arrived_state a with PAUSE => false | _ => true end /\
    current_goal_handle self' = current_goal_handle self.
Proof. exact (deliver_all_last l a self). Qed.

Lemma last_of_cons {A : Type} (x : A) (l : list A) (d d' : A) :
  last (x :: l) d = last (x :: l) d'.
Proof.
  revert x. induction l as [|y l IH]; intros x; [reflexivity|].
  change (last (y :: l) d = last (y :: l) d'). apply IH.
Qed.

(** X13. Over any sequence of learning mode updates the arm is commanded
    to stop once for every change from off to on and never otherwise; in
    particular a repeated "on" does not stop the arm again, and neither
    does a first "on" after start-up, when the flag is on already.  The
    stored flag ends as the last update says. *)
Theorem arm_stopped_once_per_activation (l : list bool) :
  forall self : RobotCommanderNode,
  exists evs,
    history (learning_mode_updates l self) = history self ++ evs /\
    List.length (filter is_stop_arm evs) =
      rising_edges (learning_mode_on self) l /\
    learning_mode_on (learning_mode_updates l self) =
      last l (learning_mode_on self).
Proof.
  unfold learning_mode_updates.
  induction l as [|b l IH]; intros self.
  - exists []. simpl. rewrite app_nil_r. repeat split.
  - simpl fold_left.
    destruct (IH (snd (callback_learning_mode b self))) as (evs & Hh & Hn & Hl).
    assert (Hstep : exists evs0,
              history (snd (callback_learning_mode b self)) =
                history self ++ evs0 /\
              List.length (filter is_stop_arm evs0) =
                (if negb (learning_mode_on self) && b then 1 else 0) /\
              learning_mode_on (snd (callback_learning_mode b self)) = b).
    { unfold callback_learning_mode. run.
      destruct (negb (learning_mode_on self) && b); simpl;
        eexists; (split; [flatten_history; reflexivity|]); split; reflexivity. }
    destruct Hstep as (evs0 & Hh0 & Hn0 & Hl0).
    exists (evs0 ++ evs).
    split; [rewrite Hh, Hh0; symmetry; apply app_assoc|].
    split.
    + rewrite filter_app, List.length_app, Hn0, Hn, Hl0. reflexivity.
    + rewrite Hl, Hl0. destruct l as [|b0 l]; [reflexivity|].
      change (last (b0 :: l) b = last (b0 :: l) (learning_mode_on self)).
      apply last_of_cons.
Qed.


(** ** Pause pressed while the command runs *)

(** With the gate clear and the pause state not CANCEL, the pre-check
    lets the pass through at once. *)
Lemma cancel_due_to_pause_clear (arrivals : list arrival)
    (self : RobotCommanderNode) :
  pause_finished_event self = true ->
  pause_state self <> CANCEL ->
  cancel_due_to_pause arrivals self =
    (Done false, record (Event_wait (pause_timeout self)) self).
Proof.
  intros Hp Hs.
  unfold cancel_due_to_pause, pause_finished_event_wait. run.
  destruct arrivals; simpl; rewrite Hp; simpl;
    destruct (pause_state self); try reflexivity; contradiction.
Qed.

(** After the [try] statement the pause state and the gate are as the
    last pause message that arrived during the execution left them. *)
Lemma execute_command_last_pause (a : attempt) (self : RobotCommanderNode)
    (cmd : RobotCommand) (l : list arrival) (p : arrival) :
  goal (current_goal_handle self) = Some cmd ->
  arrivals_during a = l ++ [p] ->
  exists res response self',
    execute_command a self = (Done (res, response), self') /\
    pause_state self' = arrived_state p /\
    pause_finished_event self' =
      match arrived_state p with PAUSE => false | _ => true end /\
    current_goal_handle self' = current_goal_handle self.
Proof.
  intros Hg Hl.
  unfold execute_command, current_goal_cmd, interpret_and_execute_command,
    executor_result.
  unfold try_except, bind, get, emit, ret, raise, log. rewrite Hg, Hl.
  cbv beta iota.
  destruct (cmd_type cmd);
    match goal with
    | |- context [deliver_all (l ++ [p]) ?s] =>
        destruct (deliver_all_last l p s) as (s1 & Heq & Hps & Hpe & Hc);
        rewrite Heq
    end;
    destruct (answer a) as [st m|st m]; simpl in *;
    eexists _, _, _; (split; [reflexivity|]); simpl;
    repeat split; assumption.
Qed.

(** The wait is released by the first message that is not PAUSE. *)
Lemma wait_loop_released (l1 l2 : list arrival) (r : arrival) :
  forall self : RobotCommanderNode,
  pause_finished_event self = false ->
  Forall (fun x => arrived_state x = PAUSE) l1 ->
  arrived_state r <> PAUSE ->
  exists self',
    wait_loop (l1 ++ r :: l2) self = (Done true, self') /\
    pause_state self' = arrived_state r /\
    pause_finished_event self' = true /\
    current_goal_handle self' = current_goal_handle self.
Proof.
  induction l1 as [|x l1 IH]; intros self Hp Hall Hr; simpl; rewrite Hp.
  - destruct (deliver_frame r self) as (Hs & Hg & Hc & _).
    assert (Hset : pause_finished_event (deliver r self) = true).
    { rewrite Hg. destruct (arrived_state r); try reflexivity. contradiction. }
    exists (deliver r self).
    destruct l2; simpl; rewrite Hset; repeat split; assumption.
  - inversion Hall as [|y l' Hx Hl]; subst.
    destruct (deliver_frame x self) as (_ & Hg & Hc & _).
    destruct (IH (deliver x self)) as (s' & Heq & Hps & Hpe & Hc');
      [rewrite Hg, Hx; reflexivity | exact Hl | exact Hr |].
    exists s'. repeat split; try assumption. congruence.
Qed.

(** X14. Pause is pressed while the command runs, and neither resume nor
    cancel follows within the pause timeout: the goal is CANCELED and the
    pause bookkeeping reset, whatever the executor has answered, SUCCESS
    included. *)
Theorem paused_then_timeout_cancels (a : attempt) (rest : list attempt)
    (self : RobotCommanderNode) (cmd : RobotCommand) (l : list arrival)
    (p : arrival) :
  pause_finished_event self = true ->
  pause_state self <> CANCEL ->
  goal (current_goal_handle self) = Some cmd ->
  arrivals_during a = l ++ [p] ->
  arrived_state p = PAUSE ->
  Forall (fun x => arrived_state x = PAUSE) (arrivals_after a) ->
  exists self',
    execute_goal_action (a :: rest) self = Some (Done tt, self') /\
    goal_status (current_goal_handle self') = CANCELED /\
    pause_state self' = STANDBY /\
    pause_finished_event self' = true.
Proof.
  intros Hpe Hps Hg Hl Hp Hall.
  pose proof (cancel_due_to_pause_clear (arrivals_before a) self Hpe Hps) as H1.
  destruct (execute_command_last_pause a
              (record (Event_wait (pause_timeout self)) self) cmd l p Hg Hl)
    as (res & response & s2 & H2 & Hps2 & Hpe2 & Hc2).
  rewrite Hp in Hps2, Hpe2.
  destruct (cancel_due_to_pause_full (arrivals_after a) s2)
    as (b & s3 & evs & H3 & _ & _ & _ & _ & _ & Hb).
  destruct (cancel_due_to_pause_spec (arrivals_after a) s2)
    as (b' & s3' & evs' & H3' & _ & _ & _ & _ & Hiff & _).
  rewrite H3 in H3'. inversion H3'; subst b' s3'.
  assert (b = true) as ->.
  { apply Hiff. left. apply pause_finished_event_wait_stays_blocked.
    split; assumption. }
  rewrite execute_goal_action_cons. unfold execute_goal_action_body.
  unfold bind at 1. rewrite H1.
  unfold bind at 1. rewrite H2.
  unfold bind at 1, get. rewrite Hps2.
  unfold bind at 1 2. rewrite H3. run.
  eexists. split; [reflexivity|]. simpl.
  repeat split. apply Hb.
Qed.

Lemma paused_then_timeout_cancels_witness :
  exists self',
    execute_goal_action
      [{| arrivals_before := [];
          answer := Returns SUCCESS "done";
          arrivals_during := [Sample.pause_pressed];
          arrivals_after := [] |}]
      (Sample.node false ACTIVE) = Some (Done tt, self') /\
    goal_status (current_goal_handle self') = CANCELED.
Proof.
  destruct (paused_then_timeout_cancels
              {| arrivals_before := [];
                 answer := Returns SUCCESS "done";
                 arrivals_during := [Sample.pause_pressed];
                 arrivals_after := [] |} []
              (Sample.node false ACTIVE) Sample.move_joints [] Sample.pause_pressed)
    as (self' & Heq & Hs & _);
    try reflexivity; try discriminate; try apply Forall_nil.
  exists self'. split; assumption.
Defined.

(** X15. Pause is pressed while the command runs, and resume is the first
    message other than PAUSE that arrives within the pause timeout: the
    result of the executor, whatever it is, is dropped, the goal is not
    finalized, and the execution path starts again from its first step
    with the gate clear and the pause state RESUME. *)
Theorem paused_then_resumed_starts_again (a : attempt) (rest : list attempt)
    (self : RobotCommanderNode) (cmd : RobotCommand) (l l1 l2 : list arrival)
    (p r : arrival) :
  pause_finished_event self = true ->
  pause_state self <> CANCEL ->
  goal (current_goal_handle self) = Some cmd ->
  arrivals_during a = l ++ [p] ->
  arrived_state p = PAUSE ->
  arrivals_after a = l1 ++ r :: l2 ->
  Forall (fun x => arrived_state x = PAUSE) l1 ->
  arrived_state r = RESUME ->
  exists self',
    execute_goal_action (a :: rest) self = execute_goal_action rest self' /\
    current_goal_handle self' = current_goal_handle self /\
    pause_state self' = RESUME /\
    pause_finished_event self' = true.
Proof.
  intros Hpe Hps Hg Hl Hp Hafter Hall Hr.
  pose proof (cancel_due_to_pause_clear (arrivals_before a) self Hpe Hps) as H1.
  destruct (execute_command_last_pause a
              (record (Event_wait (pause_timeout self)) self) cmd l p Hg Hl)
    as (res & response & s2 & H2 & Hps2 & Hpe2 & Hc2).
  rewrite Hp in Hps2, Hpe2.
  destruct (wait_loop_released l1 l2 r
              (record (Event_wait (pause_timeout s2)) s2))
    as (s3 & Hw & Hps3 & Hpe3 & Hc3);
    [exact Hpe2 | exact Hall | rewrite Hr; discriminate |].
  assert (H3 : cancel_due_to_pause (arrivals_after a) s2 = (Done false, s3)).
  { unfold cancel_due_to_pause, pause_finished_event_wait. run.
    rewrite Hafter. unfold record in Hw. rewrite Hw. simpl.
    rewrite Hps3, Hr. reflexivity. }
  rewrite execute_goal_action_cons. unfold execute_goal_action_body.
  unfold bind at 1. rewrite H1.
  unfold bind at 1. rewrite H2.
  unfold bind at 1, get. rewrite Hps2.
  unfold bind at 1 2. rewrite H3. run.
  rewrite Hps3, Hr. simpl.
  eexists. split; [reflexivity|]. simpl.
  rewrite Hps3, Hpe3, Hc3, Hr. simpl. repeat split. exact Hc2.
Qed.

Lemma paused_then_resumed_starts_again_witness :
  exists self',
    execute_goal_action [Sample.paused_then_resumed]
      (Sample.node false ACTIVE) = execute_goal_action [] self' /\
    pause_state self' = RESUME.
Proof.
  destruct (paused_then_resumed_starts_again Sample.paused_then_resumed []
              (Sample.node false ACTIVE) Sample.move_joints
              [] [] [] Sample.pause_pressed Sample.resume_pressed)
    as (self' & Heq & _ & Hs & _);
    try reflexivity; try discriminate; try apply Forall_nil.
  exists self'. split; assumption.
Defined.

(** X16. A goal whose command is neither a move nor a tool command, run
    without a pause, is ABORTED with the result UNKNOWN_COMMAND and the
    unknown result line, and no executor is invoked, whatever the
    commanders would have answered. *)
Theorem unknown_command_aborts (a : attempt) (rest : list attempt)
    (self : RobotCommanderNode) (cmd : RobotCommand) :
  pause_finished_event self = true ->
  pause_state self = STANDBY \/ pause_state self = RESUME ->
  goal (current_goal_handle self) = Some cmd ->
  cmd_type cmd = OTHER_COMMAND ->
  arrivals_during a = [] ->
  exists self',
    execute_goal_action (a :: rest) self = Some (Done tt, self') /\
    goal_status (current_goal_handle self') = ABORTED /\
    goal_result (current_goal_handle self') =
      Some (create_result UNKNOWN_COMMAND unknown_command_text) /\
    history self' =
      history self ++
      [Event_wait (pause_timeout self);
       Set_aborted (goal_id (current_goal_handle self))
         (create_result UNKNOWN_COMMAND unknown_command_text);
       Log WARN unknown_result_text; Event_set].
Proof.
  destruct self as [lm hw ps pe pt [id g st r] mt h].
  destruct cmd as [k m]. destruct a as [before ans during after]. simpl.
  intros -> Hps -> -> ->.
  unfold execute_goal_action_body, execute_command, cancel_due_to_pause,
    pause_finished_event_wait, current_goal_cmd,
    interpret_and_execute_command, executor_result, deliver_all,
    unknown_command_text.
  run.
  destruct Hps as [-> | ->]; destruct before; simpl;
    eexists; (split; [reflexivity|]); simpl;
    repeat split; flatten_history; reflexivity.
Qed.

Lemma unknown_command_aborts_witness :
  exists self',
    execute_goal_action [Sample.undisturbed (Returns SUCCESS "done")]
      (Sample.node_holding
         {| cmd_type := OTHER_COMMAND; arm_cmd_type := JOINTS |}) =
      Some (Done tt, self') /\
    goal_status (current_goal_handle self') = ABORTED.
Proof.
  destruct (unknown_command_aborts
              (Sample.undisturbed (Returns SUCCESS "done")) []
              (Sample.node_holding
                 {| cmd_type := OTHER_COMMAND; arm_cmd_type := JOINTS |})
              {| cmd_type := OTHER_COMMAND; arm_cmd_type := JOINTS |})
    as (self' & Heq & Hs & _);
    try reflexivity; [left; reflexivity|].
  exists self'. split; assumption.
Defined.

(** ** The state publisher *)

Section StatePublisherFacts.

Variable num : Type.
Variable euler_from_quaternion : num * num * num * num -> num * num * num.

Abbreviation publish_state' := (publish_state num euler_from_quaternion).
Abbreviation publish_states' := (publish_states num euler_from_quaternion).

Lemma robot_state_msg_pose (self : StatePublisher num) :
  robot_state_msg self =
    pose_msg (sp_position self) (sp_quaternion self) (sp_rpy self).
Proof.
  unfold robot_state_msg, pose_msg.
  destruct (sp_position self) as [[px py] pz].
  destruct (sp_rpy self) as [[roll pitch] yaw].
  destruct (sp_quaternion self) as [[[qx qy] qz] qw].
  reflexivity.
Qed.

Lemma published_app (l1 l2 : list (publisher_event num)) :
  published (l1 ++ l2) = published l1 ++ published l2.
Proof. unfold published. apply flat_map_app. Qed.

(** One call: the attributes after it, and the one message it hands to
    the publisher. *)
Lemma publish_state_spec (a : lookup_answer num) (p : publish_answer)
    (self : StatePublisher num) :
  let self' := publish_state' a p self in
  sp_position self' =
    match a with Transform pos _ => pos | Lookup_raises => sp_position self end /\
  sp_quaternion self' =
    match a with Transform _ rot => rot | Lookup_raises => sp_quaternion self end /\
  sp_rpy self' =
    match a with
    | Transform _ rot => euler_from_quaternion rot
    | Lookup_raises => sp_rpy self
    end /\
  published (sp_history self') =
    published (sp_history self) ++
    [pose_msg (sp_position self') (sp_quaternion self') (sp_rpy self')] /\
  List.length (filter is_throttled_log (sp_history self')) =
    List.length (filter is_throttled_log (sp_history self)) +
    (if lookup_fails a then 1 else 0).
Proof.
  unfold publish_state, update_ee_link_pose.
  destruct a as [pos rot|]; destruct p; simpl;
    rewrite ?published_app, ?filter_app, ?List.length_app; simpl;
    rewrite ?robot_state_msg_pose, ?app_nil_r; simpl;
    repeat split; try reflexivity; try lia.
Qed.

(** X17. Every call of the state publisher hands exactly one message to
    its topic, whether the lookup of the transform fails or not and
    whether the publication raises or not, and logs one throttled line
    for every lookup that failed and none otherwise. *)
Theorem one_message_per_call (l : list (lookup_answer num * publish_answer)) :
  forall self : StatePublisher num,
  List.length (published (sp_history (publish_states' l self))) =
    List.length (published (sp_history self)) + List.length l /\
  List.length (filter is_throttled_log (sp_history (publish_states' l self))) =
    List.length (filter is_throttled_log (sp_history self)) +
    List.length (filter (fun x => lookup_fails (fst x)) l).
Proof.
  induction l as [|[a p] l IH]; intros self; simpl.
  - split; lia.
  - destruct (IH (publish_state' a p self)) as [H1 H2].
    destruct (publish_state_spec a p self) as (_ & _ & _ & Hp & Hl).
    cbv zeta in Hp, Hl.
    rewrite H1, H2, Hp, Hl, List.length_app. simpl.
    destruct (lookup_fails a); simpl; split; lia.
Qed.

(** While every lookup fails, the attributes stay and the same message is
    published again and again. *)
Lemma failed_lookups_republish (l : list (lookup_answer num * publish_answer)) :
  forall self : StatePublisher num,
  Forall (fun x => fst x = Lookup_raises) l ->
  sp_position (publish_states' l self) = sp_position self /\
  sp_quaternion (publish_states' l self) = sp_quaternion self /\
  sp_rpy (publish_states' l self) = sp_rpy self /\
  published (sp_history (publish_states' l self)) =
    published (sp_history self) ++
    repeat (pose_msg (sp_position self) (sp_quaternion self) (sp_rpy self))
      (List.length l).
Proof.
  induction l as [|[a p] l IH]; intros self Hall; simpl.
  - rewrite app_nil_r. repeat split.
  - inversion Hall as [|x l' Hx Hl]; subst. simpl in Hx. subst a.
    destruct (IH (publish_state' Lookup_raises p self) Hl) as (H1 & H2 & H3 & H4).
    destruct (publish_state_spec Lookup_raises p self) as (K1 & K2 & K3 & K4 & _).
    cbv zeta in K1, K2, K3, K4.
    rewrite H1, H2, H3, H4, K4, K1, K2, K3.
    repeat split. rewrite <- app_assoc. reflexivity.
Qed.

(** X18. After a lookup that succeeds, the publisher publishes the pose
    it has looked up, with the roll, pitch and yaw of its rotation, and
    as long as the lookups that follow fail it keeps that pose and
    publishes it again at every call: a stale pose is published as if it
    were current. *)
Theorem last_known_pose_is_published (pos : num * num * num)
    (rot : num * num * num * num) (p : publish_answer)
    (l : list (lookup_answer num * publish_answer))
    (self : StatePublisher num) :
  Forall (fun x => fst x = Lookup_raises) l ->
  let self' := publish_states' ((Transform pos rot, p) :: l) self in
  sp_position self' = pos /\
  sp_quaternion self' = rot /\
  sp_rpy self' = euler_from_quaternion rot /\
  published (sp_history self') =
    published (sp_history self) ++
    repeat (pose_msg pos rot (euler_from_quaternion rot)) (S (List.length l)).
Proof.
  intros Hall. simpl.
  destruct (failed_lookups_republish l
              (publish_state' (Transform pos rot) p self) Hall)
    as (H1 & H2 & H3 & H4).
  destruct (publish_state_spec (Transform pos rot) p self)
    as (K1 & K2 & K3 & K4 & _).
  cbv zeta in K1, K2, K3, K4.
  rewrite H1, H2, H3, H4, K4, K1, K2, K3.
  repeat split. rewrite <- app_assoc. reflexivity.
Qed.

End StatePublisherFacts.

Lemma last_known_pose_is_published_witness :
  published
    (sp_history
       (publish_states Z (fun _ => (0, 0, 0)%Z)
          [(Transform (1, 2, 3)%Z (0, 0, 0, 1)%Z, Publishes);
           (Lookup_raises, Publish_raises); (Lookup_raises, Publishes)]
          (state_publisher_init Z 0%Z))) =
    repeat (pose_msg (1, 2, 3)%Z (0, 0, 0, 1)%Z (0, 0, 0)%Z) 3.
Proof.
  apply (last_known_pose_is_published Z (fun _ => (0, 0, 0)%Z)
           (1, 2, 3)%Z (0, 0, 0, 1)%Z Publishes
           [(Lookup_raises, Publish_raises); (Lookup_raises, Publishes)]
           (state_publisher_init Z 0%Z)).
  repeat constructor.
Defined.

(** ** Admission and execution together *)

(** A request that carries a goal is accepted when the readiness gate is
    passed, no goal is active and learning mode does not stand in the
    way. *)
Lemma callback_goal_accepts (env : admission) (goal_handle : ServerGoalHandle)
    (self : RobotCommanderNode) (cmd : RobotCommand) :
  goal goal_handle = Some cmd ->
  passes_readiness env self ->
  current_goal_is_active self = false ->
  learning_mode_lets_through env goal_handle self ->
  fst (callback_goal env goal_handle self) = Done (accepted goal_handle) /\
  current_goal_handle (snd (callback_goal env goal_handle self)) =
    accepted goal_handle.
Proof.
  intros Hg Hready Hact Hlet.
  rewrite (callback_goal_past_gate env goal_handle self Hready). cbv zeta.
  rewrite Hact.
  unfold learning_mode_lets_through in Hlet. rewrite Hg in Hlet. simpl in Hlet.
  unfold callback_goal_from_learning_mode, goal_to_cmd_type,
    set_learning_mode, accepted.
  run. rewrite Hg.
  destruct (learning_mode_on self); simpl; [|split; reflexivity].
  destruct (cmd_type cmd) eqn:Hk; simpl;
    try (split; reflexivity);
    (destruct Hlet as [H | [H | H]]; [discriminate H | discriminate H |]);
    rewrite H; simpl; split; reflexivity.
Qed.

(** X19. The converse of X4 for a request that carries a goal: when the
    readiness gate is passed, no goal is active and learning mode does
    not stand in the way, the request is accepted and installed as the
    current goal, without a sleep, whatever the pause state and the gate
    are. *)
Theorem callback_goal_accepts_when_ready (env : admission)
    (goal_handle : ServerGoalHandle) (self : RobotCommanderNode)
    (cmd : RobotCommand) :
  goal goal_handle = Some cmd ->
  passes_readiness env self ->
  current_goal_is_active self = false ->
  learning_mode_lets_through env goal_handle self ->
  let out := callback_goal env goal_handle self in
  fst out = Done (accepted goal_handle) /\
  current_goal_handle (snd out) = accepted goal_handle /\
  current_goal_is_active (snd out) = true /\
  exists evs,
    history (snd out) = history self ++ evs /\
    filter is_sleep evs = [].
Proof.
  intros Hg Hready Hact Hlet out. subst out.
  destruct (callback_goal_accepts env goal_handle self cmd Hg Hready Hact Hlet)
    as [Hf Hc].
  split; [exact Hf|]. split; [exact Hc|].
  split.
  - unfold current_goal_is_active. rewrite Hc. simpl. rewrite Hg. reflexivity.
  - destruct (callback_goal_full env goal_handle self)
      as (_ & _ & _ & evs & k & Hh & Hsl & _ & Hz & _).
    exists evs. split; [exact Hh|]. rewrite Hsl, (Hz Hact). reflexivity.
Qed.

Lemma callback_goal_accepts_when_ready_witness :
  fst (callback_goal (Sample.calm (Service_response SUCCESS))
         (Sample.request "g1" Sample.move_joints)
         (Sample.node true SUCCEEDED)) =
    Done (accepted (Sample.request "g1" Sample.move_joints)).
Proof.
  apply (callback_goal_accepts_when_ready (Sample.calm (Service_response SUCCESS))
           (Sample.request "g1" Sample.move_joints)
           (Sample.node true SUCCEEDED) Sample.move_joints).
  - reflexivity.
  - exists Sample.hardware_ok. repeat split.
  - reflexivity.
  - right. right. reflexivity.
Defined.

(** X20. Once the execution path of a goal has returned, the slot is
    free: the next request that carries a goal, passes the readiness gate
    and is not held back by learning mode is accepted without a sleep,
    however the first goal ended. *)
Theorem next_goal_is_accepted_after_return (attempts : list attempt)
    (self self' : RobotCommanderNode) (env : admission)
    (goal_handle : ServerGoalHandle) (cmd : RobotCommand) :
  execute_goal_action attempts self = Some (Done tt, self') ->
  goal goal_handle = Some cmd ->
  passes_readiness env self ->
  learning_mode_lets_through env goal_handle self ->
  let out := callback_goal env goal_handle self' in
  fst out = Done (accepted goal_handle) /\
  current_goal_handle (snd out) = accepted goal_handle /\
  exists evs,
    history (snd out) = history self' ++ evs /\
    filter is_sleep evs = [].
Proof.
  intros Hrun Hg Hready Hlet out. subst out.
  destruct (execute_goal_action_full attempts self self' _ Hrun)
    as ((Hl & Hhs & _) & _ & _ & _ & evs0 & _ & Ht & _).
  pose proof (terminal_is_not_active self' Ht) as Hact.
  assert (Hready' : passes_readiness env self').
  { destruct Hready as (hs & H & Hrest). exists hs. rewrite Hhs.
    split; assumption. }
  assert (Hlet' : learning_mode_lets_through env goal_handle self').
  { unfold learning_mode_lets_through in *. rewrite Hl. exact Hlet. }
  destruct (callback_goal_accepts env goal_handle self' cmd Hg Hready' Hact Hlet')
    as [Hf Hc].
  split; [exact Hf|]. split; [exact Hc|].
  destruct (callback_goal_full env goal_handle self')
    as (_ & _ & _ & evs & k & Hh & Hsl & _ & Hz & _).
  exists evs. split; [exact Hh|]. rewrite Hsl, (Hz Hact). reflexivity.
Qed.

Lemma next_goal_is_accepted_after_return_witness :
  exists self',
    execute_goal_action [Sample.undisturbed (Returns STOPPED "stopped")]
      (Sample.node false ACTIVE) = Some (Done tt, self') /\
    fst (callback_goal (Sample.calm Service_timeout)
           (Sample.request "g1" Sample.move_joints) self') =
      Done (accepted (Sample.request "g1" Sample.move_joints)).
Proof.
  assert (E : exists s,
            execute_goal_action [Sample.undisturbed (Returns STOPPED "stopped")]
              (Sample.node false ACTIVE) = Some (Done tt, s))
    by (eexists; vm_compute; reflexivity).
  destruct E as [s E]. exists s. split; [exact E|].
  apply (next_goal_is_accepted_after_return _ _ _
           (Sample.calm Service_timeout)
           (Sample.request "g1" Sample.move_joints) Sample.move_joints E).
  - reflexivity.
  - exists Sample.hardware_ok. repeat split.
  - left. reflexivity.
Defined.

(** With the gate clear and the pause state CANCEL, the pre-check cancels
    the goal at once. *)
Lemma cancel_due_to_pause_canceled (arrivals : list arrival)
    (self : RobotCommanderNode) :
  pause_finished_event self = true ->
  pause_state self = CANCEL ->
  exists self',
    cancel_due_to_pause arrivals self = (Done true, self') /\
    current_goal_handle self' =
      with_status (current_goal_handle self) CANCELED None /\
    history self' =
      history self ++
      [Event_wait (pause_timeout self);
       Set_canceled (goal_id (current_goal_handle self)) None;
       Log INFO "Commander Action Serv - Goal has been successfully canceled"].
Proof.
  intros Hp Hs.
  unfold cancel_due_to_pause, pause_finished_event_wait. run.
  destruct arrivals; simpl; rewrite Hp; simpl; rewrite Hs; simpl;
    eexists; (split; [reflexivity|]); simpl;
    split; try reflexivity; flatten_history; reflexivity.
Qed.

(** On a node whose recorded pause state is CANCEL and whose gate is
    clear, the goal that admission accepts is canceled by the first step
    of its execution path. *)
Lemma recorded_cancel_cancels_next (env : admission)
    (goal_handle : ServerGoalHandle) (self : RobotCommanderNode)
    (a : attempt) (rest : list attempt) :
  pause_state self = CANCEL ->
  pause_finished_event self = true ->
  let admitted := callback_goal env goal_handle self in
  fst admitted = Done (accepted goal_handle) ->
  exists self',
    execute_goal_action (a :: rest) (snd admitted) = Some (Done tt, self') /\
    current_goal_handle self' = with_status goal_handle CANCELED None /\
    pause_state self' = STANDBY /\
    pause_finished_event self' = true /\
    history self' =
      history (snd admitted) ++
      [Event_wait (pause_timeout self);
       Set_canceled (goal_id goal_handle) None;
       Log INFO "Commander Action Serv - Goal has been successfully canceled";
       Event_set; Assign_pause_state STANDBY].
Proof.
  intros Hps Hpe admitted Hacc.
  destruct (callback_goal_full env goal_handle self)
    as ((_ & _ & Hpt' & _) & Hps' & Hpe' & evs & k & _ & _ & _ & _ & Hout & _).
  fold admitted in Hpt', Hps', Hpe', Hout.
  assert (Hcur : current_goal_handle (snd admitted) = accepted goal_handle).
  { destruct Hout as [(_ & Hc & _) | [(st & m & Hr & _) | (Hr & _)]].
    - exact Hc.
    - rewrite Hr in Hacc. unfold rejected, accepted, with_status in Hacc.
      inversion Hacc.
    - rewrite Hr in Hacc. discriminate Hacc. }
  destruct (cancel_due_to_pause_canceled (arrivals_before a) (snd admitted))
    as (s1 & H1 & Hc1 & Hh1); [congruence | congruence |].
  rewrite execute_goal_action_cons. unfold execute_goal_action_body.
  unfold bind at 1. rewrite H1. run.
  eexists. split; [reflexivity|]. simpl.
  rewrite Hc1, Hh1, Hcur, Hpt'. simpl.
  repeat split. flatten_history. reflexivity.
Qed.

(** X21. A cancel message that arrives while no goal is running is not
    forgotten: the pause state stays CANCEL, admission accepts the next
    request all the same, and the execution path of that goal cancels it
    at its first step, without invoking the executor, and resets the
    pause state to STANDBY. *)
Theorem stale_cancel_cancels_the_next_goal (c : Commanders)
    (env : admission) (goal_handle : ServerGoalHandle)
    (self : RobotCommanderNode) (a : attempt) (rest : list attempt) :
  let paused := snd (callback_pause_movement c CANCEL self) in
  let admitted := callback_goal env goal_handle paused in
  fst admitted = Done (accepted goal_handle) ->
  exists self',
    execute_goal_action (a :: rest) (snd admitted) = Some (Done tt, self') /\
    current_goal_handle self' = with_status goal_handle CANCELED None /\
    pause_state self' = STANDBY /\
    pause_finished_event self' = true /\
    history self' =
      history (snd admitted) ++
      [Event_wait (pause_timeout self);
       Set_canceled (goal_id goal_handle) None;
       Log INFO "Commander Action Serv - Goal has been successfully canceled";
       Event_set; Assign_pause_state STANDBY].
Proof.
  intros paused admitted Hacc.
  destruct (deliver_frame {| arrived_state := CANCEL; arrived_commanders := c |}
              self) as (Hps & Hpe & _).
  destruct (deliver_settings
              {| arrived_state := CANCEL; arrived_commanders := c |} self)
    as ((_ & _ & Hpt & _) & _).
  change (deliver {| arrived_state := CANCEL; arrived_commanders := c |} self)
    with paused in Hps, Hpe, Hpt.
  simpl in Hps, Hpe.
  rewrite <- Hpt.
  exact (recorded_cancel_cancels_next env goal_handle paused a rest Hps Hpe Hacc).
Qed.

Lemma stale_cancel_cancels_the_next_goal_witness :
  exists self',
    execute_goal_action [Sample.undisturbed (Returns SUCCESS "done")]
      (snd (callback_goal (Sample.calm Service_timeout)
              (Sample.request "g1" Sample.move_joints)
              (snd (callback_pause_movement Sample.quiet CANCEL
                      (Sample.node false SUCCEEDED))))) =
      Some (Done tt, self') /\
    current_goal_handle self' =
      with_status (Sample.request "g1" Sample.move_joints) CANCELED None.
Proof.
  destruct (stale_cancel_cancels_the_next_goal Sample.quiet
              (Sample.calm Service_timeout)
              (Sample.request "g1" Sample.move_joints)
              (Sample.node false SUCCEEDED)
              (Sample.undisturbed (Returns SUCCESS "done")) [] eq_refl)
    as (self' & Heq & Hc & _).
  exists self'. split; assumption.
Defined.


